(** * myAMS: attendance-record lifecycle

    A shallow embedding of the attendance core of the backend:

    - [backend/src/config/constants.js]        (constants)
    - [backend/src/models/ClassSection.model.js], [Student.model.js],
      [AttendanceRecord.model.js]              (documents and instance methods)
    - [backend/src/controllers/teacherController.js]
                                               (markAttendance, editAttendanceRecord,
                                                generateSessionBreakdown,
                                                viewAttendanceRecords,
                                                getAssignedClasses, getClassStudents)
    - [backend/src/controllers/studentController.js]
                                               (getAttendanceBySubject)
    - [backend/src/middleware/roleMiddleware.js], [routes/teacherRoutes.js]
                                               (restrictTo and the teacher routes)
    - [backend/src/utils/dateUtils.js]         (isValidTimeString, calculateEndTime)
    - [backend/src/controllers/adminController.js]
                                               (the loop of bulkAddStudentsToSection)

    JavaScript numbers that hold counts are modelled as [Z]; the percentage,
    which the source computes with [/], [*] and [toFixed(2)] on IEEE-754
    doubles, is modelled with Rocq's primitive binary64 floats.  Strings are
    [string]; Mongo ObjectIds are compared through [toString()] in the source
    and are modelled as [string].  A [Date] is its time value in
    milliseconds, or NaN, and its local-time methods read it through the time
    zone of the server, which is part of the [Clock] a handler is called
    with.  The session numbers of a request are whole numbers, and record
    ids are put in upper case and trimmed as ASCII. *)

From Stdlib Require Import ZArith List String Ascii Bool Lia Permutation Sorted.
From Stdlib Require Import Decimal DecimalString.
From Stdlib Require Import Uint63 PrimFloat SpecFloat FloatOps.
Import ListNotations.

Local Open Scope string_scope.
Local Open Scope Z_scope.

(* ------------------------------------------------------------------ *)
(** ** JavaScript numbers *)

Module JSNumber.

(** The double that holds the integer [z]; exact for [|z| < 2^53], which
    covers every count that occurs in the system. *)
Definition of_Z (z : Z) : float :=
  if z <? 0 then PrimFloat.opp (PrimFloat.of_uint63 (Uint63.of_Z (- z)))
  else PrimFloat.of_uint63 (Uint63.of_Z z).

(** [floor (m * 2^e * 100 + 1/2)]: the integer [n] for which [n / 100] is
    closest to [m * 2^e], the larger one when two are equally close
    (ECMA-262, Number.prototype.toFixed, step 10.a). *)
Definition nearest_hundredth (m : positive) (e : Z) : Z :=
  if 0 <=? e then Z.pos m * 2 ^ e * 100
  else (200 * Z.pos m + 2 ^ (- e)) / 2 ^ (- e + 1).

(** [x.toFixed(2)] for a finite [x], as the number of hundredths its digits
    denote ([Some 5000] is the string "50.00"; a negative [x] prints the
    digits of [-x] after a minus sign).  [None] stands for "NaN" and
    "Infinity"; magnitudes of [1e21] and above, which print in exponent
    form, do not arise from a percentage. *)
Definition toFixed2 (x : float) : option Z :=
  match Prim2SF x with
  | S754_zero _ => Some 0
  | S754_finite false m e => Some (nearest_hundredth m e)
  | S754_finite true m e => Some (- nearest_hundredth m e)
  | _ => None
  end.

(** [parseFloat] of a [toFixed(2)] rendering: the double nearest to
    [h / 100] (division of two exact doubles is correctly rounded), and
    [NaN] for "NaN".  (The sign of a zero, "-0.00", is not kept.) *)
Definition parseFloat2 (s : option Z) : float :=
  match s with
  | Some h => PrimFloat.div (of_Z h) (of_Z 100)
  | None => PrimFloat.nan
  end.

(** [parseFloat(((a / b) * 100).toFixed(2))], the expression both
    controllers and the model use for a percentage. *)
Definition percentage_digits (a b : Z) : option Z :=
  toFixed2 (PrimFloat.mul (PrimFloat.div (of_Z a) (of_Z b)) (of_Z 100)).

Definition percentage (a b : Z) : float :=
  parseFloat2 (percentage_digits a b).

End JSNumber.

(** The value the specification writes as [round(a / b * 100, 2)], in
    hundredths: the exact quotient rounded to the nearest hundredth, a tie
    going up. *)
Definition round2_half_up (a b : Z) : Z := (20000 * a + b) / (2 * b).

(** The same with a tie going to the even hundredth. *)
Definition round2_half_even (a b : Z) : Z :=
  let q := (10000 * a) / b in
  let r := (10000 * a) mod b in
  if 2 * r <? b then q
  else if b <? 2 * r then q + 1
  else if Z.even q then q else q + 1.

(** The double a two-decimal literal such as [50.00] denotes. *)
Definition decimal2 (h : Z) : float := JSNumber.parseFloat2 (Some h).


(* ------------------------------------------------------------------ *)
(** ** Constants ([config/constants.js]) *)

Module ATTENDANCE_STATUS.
Definition PRESENT : string := "present".
Definition ABSENT : string := "absent".
(** [Object.values(ATTENDANCE_STATUS)] *)
Definition values : list string := [PRESENT; ABSENT].
End ATTENDANCE_STATUS.

Module HTTP_STATUS.
Definition OK : Z := 200.
Definition CREATED : Z := 201.
Definition BAD_REQUEST : Z := 400.
Definition FORBIDDEN : Z := 403.
Definition NOT_FOUND : Z := 404.
Definition CONFLICT : Z := 409.
End HTTP_STATUS.

Definition SESSION_DURATION : Z := 45.
Definition MAX_SESSIONS_PER_CLASS : Z := 10.

(** [Array.prototype.includes] on an array of strings. *)
Definition includes (l : list string) (s : string) : bool :=
  existsb (String.eqb s) l.

(* ------------------------------------------------------------------ *)
(** ** Results of fallible code *)

Inductive Result (E A : Type) : Type :=
| Ok (a : A)
| Err (e : E).
Arguments Ok {E A} a.
Arguments Err {E A} e.

Definition bind {E A B} (r : Result E A) (k : A -> Result E B) : Result E B :=
  match r with
  | Ok a => k a
  | Err e => Err e
  end.

Notation "'do' x <- r ; k" := (bind r (fun x => k))
  (at level 10, x pattern, r at level 100, k at level 200).

Definition is_ok {E A} (r : Result E A) : bool :=
  match r with Ok _ => true | Err _ => false end.

(* ------------------------------------------------------------------ *)
(** ** Time strings *)

Definition is_digit (c : ascii) : bool :=
  let n := nat_of_ascii c in (48 <=? n)%nat && (n <=? 57)%nat.

Definition digit_between (lo hi : nat) (c : ascii) : bool :=
  let n := nat_of_ascii c in (48 + lo <=? n)%nat && (n <=? 48 + hi)%nat.

(** [/^([0-1][0-9]|2[0-3]):([0-5][0-9])$/.test(s)] *)
Definition timeRegex_test (s : string) : bool :=
  match s with
  | String h1 (String h2 (String c (String m1 (String m2 EmptyString)))) =>
      ((digit_between 0 1 h1 && is_digit h2)
       || (Ascii.eqb h1 "2" && digit_between 0 3 h2))
      && Ascii.eqb c ":"
      && digit_between 0 5 m1 && is_digit m2
  | _ => false
  end.

(** [s.split(':')] *)
Fixpoint split_colon_aux (s : string) (cur : string) : list string :=
  match s with
  | EmptyString => [cur]
  | String c s' =>
      if Ascii.eqb c ":" then cur :: split_colon_aux s' EmptyString
      else split_colon_aux s' (cur ++ String c EmptyString)
  end.

Definition split_colon (s : string) : list string := split_colon_aux s EmptyString.

(** [Number(s)] for a string of decimal digits ([Number("")] is 0); [None]
    is [NaN].  (The strings the controllers pass have matched
    [timeRegex_test], so each piece is two digits; signs, blanks, exponents
    and hexadecimal forms are not covered.) *)
Fixpoint Number_digits (s : string) (acc : Z) : option Z :=
  match s with
  | EmptyString => Some acc
  | String c s' =>
      if is_digit c
      then Number_digits s' (10 * acc + Z.of_nat (nat_of_ascii c - 48))
      else None
  end.

Definition Number (s : string) : option Z := Number_digits s 0.

(** [String(n)] for an integer [n]. *)
Definition String_of_Z (n : Z) : string := NilZero.string_of_int (Z.to_int n).

(** [String(n).padStart(2, '0')] *)
Definition pad2 (n : Z) : string :=
  let s := String_of_Z n in
  match s with
  | String _ EmptyString => String "0" s
  | EmptyString => "00"
  | _ => s
  end.

(** The reading ["HH:MM"] of a 24-hour clock [d] minutes after midnight. *)
Definition timeString (d : Z) : string :=
  pad2 ((d / 60) mod 24) ++ ":" ++ pad2 (d mod 60).

(* ------------------------------------------------------------------ *)
(** ** Time values, the server's time zone and [Date]

    A [Date] holds a time value: the milliseconds since the epoch, in UTC,
    or NaN for an invalid date.  Its local-time methods ([setHours],
    [getHours], [getMinutes], [setMinutes]) convert through the offset of the
    server's time zone, which is a function of the moment: it changes where
    the zone switches to or from daylight saving time.  The definitions are
    ECMAScript's abstract operations on time values ([Day], [HourFromTime],
    [MakeTime], [MakeDate], [TimeClip], [LocalTime], [UTC]), on integers;
    JavaScript computes them in binary64, which is exact below [2^53]. *)

Definition msPerSecond : Z := 1000.
Definition msPerMinute : Z := 60000.
Definition msPerHour : Z := 3600000.
Definition msPerDay : Z := 86400000.

Definition Day (t : Z) : Z := t / msPerDay.
Definition HourFromTime (t : Z) : Z := (t / msPerHour) mod 24.
Definition MinFromTime (t : Z) : Z := (t / msPerMinute) mod 60.
Definition SecFromTime (t : Z) : Z := (t / msPerSecond) mod 60.
Definition msFromTime (t : Z) : Z := t mod msPerSecond.

Definition MakeTime (hour min sec ms : Z) : Z :=
  hour * msPerHour + min * msPerMinute + sec * msPerSecond + ms.

Definition MakeDate (day time : Z) : Z := day * msPerDay + time.

(** The largest time value a [Date] holds; [TimeClip] answers NaN beyond. *)
Definition maxTimeValue : Z := 8640000000000000.

Definition TimeClip (time : Z) : option Z :=
  if Z.abs time <=? maxTimeValue then Some time else None.

(** The server's time zone: [LocalTZA(t, true)], the offset in force at the
    UTC moment [t], and [LocalTZA(t, false)], the offset by which the local
    time value [t] is read (a local time that a transition skips or repeats
    is read with the offset before the transition). *)
Record Zone : Type := mkZone {
  LocalTZA_utc : Z -> Z;
  LocalTZA_local : Z -> Z
}.

Definition LocalTime (zone : Zone) (t : Z) : Z := t + LocalTZA_utc zone t.
Definition UTC (zone : Zone) (t : Z) : Z := t - LocalTZA_local zone t.

(** [getStartOfDay(new Date())] and [Date.now()] at the time of the call,
    and the time zone the server runs in. *)
Record Clock : Type := mkClock {
  today : Z;
  now : Z;
  zone : Zone
}.

Module JSDate.
(** The time value; [None] is NaN. *)
Definition t := option Z.
(** [new Date()] *)
Definition current (clock : Clock) : t := TimeClip (now clock).
(** [new Date(value)] *)
Definition of_value (value : option Z) : t :=
  match value with Some v => TimeClip v | None => None end.
Definition getTime (d : t) : option Z := d.
(** [d.setHours(hour, min, 0, 0)] *)
Definition setHours (zone : Zone) (d : t) (hour min : Z) : t :=
  match d with
  | Some tv =>
      let t := LocalTime zone tv in
      let date := MakeDate (Day t) (MakeTime hour min 0 0) in
      TimeClip (UTC zone date)
  | None => None
  end.
Definition getHours (zone : Zone) (d : t) : option Z :=
  match d with Some tv => Some (HourFromTime (LocalTime zone tv)) | None => None end.
Definition getMinutes (zone : Zone) (d : t) : option Z :=
  match d with Some tv => Some (MinFromTime (LocalTime zone tv)) | None => None end.
(** [d.setMinutes(min)]; a NaN argument makes the date invalid. *)
Definition setMinutes (zone : Zone) (d : t) (min : option Z) : t :=
  match d, min with
  | Some tv, Some m =>
      let t := LocalTime zone tv in
      let date :=
        MakeDate (Day t) (MakeTime (HourFromTime t) m (SecFromTime t) (msFromTime t)) in
      TimeClip (UTC zone date)
  | _, _ => None
  end.
End JSDate.

(** [String(x).padStart(2, '0')] for the result of a getter: NaN prints as
    "NaN". *)
Definition padStart2 (x : option Z) : string :=
  match x with Some n => pad2 n | None => "NaN" end.

(** [`${String(d.getHours()).padStart(2,'0')}:${String(d.getMinutes()).padStart(2,'0')}`] *)
Definition clockString (zone : Zone) (d : JSDate.t) : string :=
  padStart2 (JSDate.getHours zone d) ++ ":" ++ padStart2 (JSDate.getMinutes zone d).

Record SessionSlot : Type := mkSlot {
  slot_sessionNumber : Z;
  slot_startTime : string;
  slot_endTime : string
}.

(** The body of [for (let i = 1; i <= numSessions; i++)], with [k] iterations
    left, loop counter [i] and the date [currentTime]. *)
Fixpoint breakdown_loop (zone : Zone) (k : nat) (i : Z) (currentTime : JSDate.t)
  : list SessionSlot :=
  match k with
  | O => []
  | S k' =>
      let sessionStart := clockString zone currentTime in
      let currentTime' :=
        JSDate.setMinutes zone currentTime
          (option_map (fun m => m + SESSION_DURATION) (JSDate.getMinutes zone currentTime)) in
      let sessionEnd := clockString zone currentTime' in
      mkSlot i sessionStart sessionEnd :: breakdown_loop zone k' (i + 1) currentTime'
  end.

(** [startTime.split(':').map(Number)], destructured as [[startHour, startMinute]]. *)
Definition parse_hour_minute (time : string) : option (Z * Z) :=
  match map Number (split_colon time) with
  | Some h :: Some m :: _ => Some (h, m)
  | _ => None
  end.

(** [generateSessionBreakdown(startTime, endTime, numSessions)]
    (teacherController.js), called at the moment and in the zone of [clock].
    [endTime] is a parameter the body never reads.  When the start time does
    not parse, [setHours] receives NaN and the date is invalid. *)
Definition generateSessionBreakdown (clock : Clock)
    (startTime endTime : string) (numSessions : Z) : list SessionSlot :=
  let currentTime :=
    match parse_hour_minute startTime with
    | Some (startHour, startMinute) =>
        JSDate.setHours (zone clock) (JSDate.current clock) startHour startMinute
    | None => None
    end in
  breakdown_loop (zone clock) (Z.to_nat numSessions) 1 currentTime.

(* ------------------------------------------------------------------ *)
(** ** Documents *)

Definition ObjectId := string.

(** An element of a [sessions] array.  The session number is a whole
    number; a JSON number with a fraction, which the [Number] path of the
    schema would take as well, is not a value of this type. *)
Record Session : Type := mkSession {
  sessionNumber : Z;
  status : string
}.

(** An element of [AttendanceRecord.attendance]. *)
Record StudentAttendance : Type := mkStudentAttendance {
  sa_studentId : ObjectId;
  sa_sessions : list Session;
  totalPresent : Z;
  totalAbsent : Z;
  attendancePercentage : float
}.

(** [AttendanceRecord.model.js]; dates are day numbers, timestamps are
    milliseconds, an unset field is [None]. *)
Record AttendanceRecord : Type := mkRecord {
  recordId : string;
  rec_subjectId : ObjectId;
  rec_teacherId : ObjectId;
  rec_classSectionId : ObjectId;
  rec_date : Z;
  startTime : string;
  endTime : string;
  rec_semester : Z;
  numSessions : Z;
  sessionBreakdown : list SessionSlot;
  attendance : list StudentAttendance;
  markedBy : ObjectId;
  markedAt : Z;
  lastModifiedBy : option ObjectId;
  lastModifiedAt : option Z;
  isFinalized : bool
}.

Record Teacher : Type := mkTeacher {
  t_id : ObjectId;
  t_userId : ObjectId
}.

Record Subject : Type := mkSubject {
  subj_id : ObjectId;
  subjectCode : string
}.

(** An element of [ClassSection.students]; [status] is one of "active",
    "withdrawn", "transferred". *)
Record RosterEntry : Type := mkRosterEntry {
  ro_studentId : ObjectId;
  ro_status : string
}.

(** [ClassSection.model.js], with [subjectId] populated. *)
Record ClassSection : Type := mkClassSection {
  cs_id : ObjectId;
  cs_subjectId : Subject;
  cs_teacherId : ObjectId;
  cs_semester : Z;
  cs_sectionName : string;
  cs_students : list RosterEntry;
  cs_isActive : bool
}.

Record Student : Type := mkStudent {
  st_id : ObjectId;
  st_name : string;
  st_prn : string;
  enrolledSubjects : list ObjectId
}.

Record Database : Type := mkDatabase {
  teachers : list Teacher;
  classSections : list ClassSection;
  students : list Student;
  attendanceRecords : list AttendanceRecord
}.

(* ------------------------------------------------------------------ *)
(** ** Handlers as state-and-error computations over the database *)

Definition M (E A : Type) : Type := Database -> Result E A * Database.

Definition ret {E A} (a : A) : M E A := fun db => (Ok a, db).

(** [return sendError(res, ...)] *)
Definition sendError {E A} (e : E) : M E A := fun db => (Err e, db).

Definition bindM {E A B} (m : M E A) (k : A -> M E B) : M E B :=
  fun db =>
    match m db with
    | (Ok a, db') => k a db'
    | (Err e, db') => (Err e, db')
    end.

Notation "x <~ m ;; k" := (bindM m (fun x => k))
  (at level 61, m at next level, right associativity).
Notation "m ;;; k" := (bindM m (fun _ => k))
  (at level 61, right associativity).

(** [if (cond) return sendError(res, ...)] *)
Definition reject_if {E} (cond : bool) (e : E) : M E unit :=
  if cond then sendError e else ret tt.

(** A synchronous computation that may throw, run inside a handler. *)
Definition lift {E A} (r : Result E A) : M E A := fun db => (r, db).

Definition Teacher_findOne (userId : ObjectId) {E} : M E (option Teacher) :=
  fun db => (Ok (find (fun t => String.eqb (t_userId t) userId) (teachers db)), db).

Definition ClassSection_findById (id : ObjectId) {E} : M E (option ClassSection) :=
  fun db => (Ok (find (fun c => String.eqb (cs_id c) id) (classSections db)), db).

Definition Student_findById (id : ObjectId) {E} : M E (option Student) :=
  fun db => (Ok (find (fun s => String.eqb (st_id s) id) (students db)), db).

Definition to_upper (c : ascii) : ascii :=
  let n := nat_of_ascii c in
  if (97 <=? n)%nat && (n <=? 122)%nat then ascii_of_nat (n - 32) else c.

(** The [uppercase: true] setter of the [recordId] path. *)
Definition uppercase (s : string) : string :=
  string_of_list_ascii (map to_upper (list_ascii_of_string s)).

(** Tab, line feed, vertical tab, form feed, carriage return and space. *)
Definition is_whitespace (c : ascii) : bool :=
  let n := nat_of_ascii c in ((9 <=? n)%nat && (n <=? 13)%nat) || (n =? 32)%nat.

Fixpoint trimStart (s : string) : string :=
  match s with
  | String c s' => if is_whitespace c then trimStart s' else s
  | EmptyString => EmptyString
  end.

Definition reverse (s : string) : string :=
  string_of_list_ascii (List.rev (list_ascii_of_string s)).

(** The [trim: true] setter of the [recordId] path. *)
Definition trim (s : string) : string :=
  reverse (trimStart (reverse (trimStart s))).

(** Mongoose casts the value of a query filter on a path as it casts the
    path's value in a document: through the path's setters.  For [recordId]
    these trim the string and put it in upper case. *)
Definition cast_recordId (rid : string) : string := uppercase (trim rid).

(** [AttendanceRecord.findOne({ recordId: rid })] *)
Definition AttendanceRecord_findOne (rid : string) {E} : M E (option AttendanceRecord) :=
  fun db =>
    (Ok (find (fun r => String.eqb (recordId r) (cast_recordId rid)) (attendanceRecords db)),
     db).

Definition set_attendanceRecords (db : Database) (rs : list AttendanceRecord) : Database :=
  mkDatabase (teachers db) (classSections db) (students db) rs.

(** [AttendanceRecord.create(doc)]: the unique index on [recordId] rejects a
    second document with the same id (error code 11000, which the error
    middleware reports as a conflict); otherwise the document is inserted.
    The schema validators hold for every document [markAttendance] builds. *)
Definition AttendanceRecord_create {E} (duplicateKey : E) (doc : AttendanceRecord)
  : M E AttendanceRecord :=
  fun db =>
    if existsb (fun r => String.eqb (recordId r) (recordId doc)) (attendanceRecords db)
    then (Err duplicateKey, db)
    else (Ok doc, set_attendanceRecords db (attendanceRecords db ++ [doc])).

(** Replace the first element that satisfies [p] (the element [find] returns). *)
Fixpoint update_first {A} (p : A -> bool) (f : A -> A) (l : list A) : list A :=
  match l with
  | [] => []
  | x :: l' => if p x then f x :: l' else x :: update_first p f l'
  end.

(** [doc.save()] for a document obtained with [findOne({ recordId })]. *)
Definition AttendanceRecord_save {E} (doc : AttendanceRecord) : M E unit :=
  fun db =>
    (Ok tt,
     set_attendanceRecords db
       (update_first (fun r => String.eqb (recordId r) (recordId doc)) (fun _ => doc)
          (attendanceRecords db))).

(* ------------------------------------------------------------------ *)
(** ** markAttendance ([teacherController.js]) *)

Record AttendanceInput : Type := mkInput {
  in_studentId : ObjectId;
  in_sessions : list Session
}.

(** [req.body] of POST /api/teachers/attendance.  The two times are the
    trimmed strings, the empty string standing for a missing one (both are
    falsy); a missing id, date or session count is the empty string or 0. *)
Record MarkRequest : Type := mkMarkRequest {
  req_classSectionId : ObjectId;
  req_date : string;
  req_startTime : string;
  req_endTime : string;
  req_numSessions : Z;
  req_attendance : list AttendanceInput
}.

(** One constructor per [sendError] of the handler, plus the duplicate-key
    rejection of the store. *)
Inductive MarkError : Type :=
| MissingRequiredFields
| NumSessionsOutOfRange
| StartTimeFormat
| EndTimeFormat
| EndNotAfterStart
| DurationTooShort (durationMinutes expectedDuration : option Z)
| AttendanceNotNonEmptyArray
| TeacherProfileNotFound
| ClassSectionNotFound
| ClassSectionDeleted
| NotAssigned
| DateFormat
| FutureDate
| StudentNotFound (studentId : ObjectId)
| NotEnrolled (studentId : ObjectId)
| NotInSection (studentId : ObjectId)
| SessionsLength (studentId : ObjectId)
| SessionNumberInvalid (studentId : ObjectId) (n : Z)
| StatusInvalid (studentId : ObjectId) (s : string)
| DuplicateSessionNumbers (studentId : ObjectId)
| MissingSessionNumbers (studentId : ObjectId) (missing : list Z)
| DuplicateRecordId.

(** The HTTP status each rejection is sent with. *)
Definition mark_status (e : MarkError) : Z :=
  match e with
  | TeacherProfileNotFound | ClassSectionNotFound => HTTP_STATUS.NOT_FOUND
  | NotAssigned => HTTP_STATUS.FORBIDDEN
  | DuplicateRecordId => HTTP_STATUS.CONFLICT
  | _ => HTTP_STATUS.BAD_REQUEST
  end.

(** [hour * 60 + minute] of a time string; [None] is [NaN]. *)
Definition minutes_of (time : string) : option Z :=
  match parse_hour_minute time with
  | Some (h, m) => Some (h * 60 + m)
  | None => None
  end.

(** [a <= b] and [a < b] on numbers that may be [NaN]. *)
Definition js_leb (a b : option Z) : bool :=
  match a, b with Some x, Some y => x <=? y | _, _ => false end.
Definition js_ltb (a b : option Z) : bool :=
  match a, b with Some x, Some y => x <? y | _, _ => false end.
Definition js_sub (a b : option Z) : option Z :=
  match a, b with Some x, Some y => Some (x - y) | _, _ => None end.

(** The inner [for (const session of sessions)] loop, with the running
    counters. *)
Fixpoint count_sessions (studentId : ObjectId) (numSessions : Z)
  (sessions : list Session) (presentCount absentCount : Z)
  : Result MarkError (Z * Z) :=
  match sessions with
  | [] => Ok (presentCount, absentCount)
  | session :: rest =>
      if (sessionNumber session <? 1) || (numSessions <? sessionNumber session)
      then Err (SessionNumberInvalid studentId (sessionNumber session))
      else if negb (includes ATTENDANCE_STATUS.values (status session))
      then Err (StatusInvalid studentId (status session))
      else if String.eqb (status session) ATTENDANCE_STATUS.PRESENT
      then count_sessions studentId numSessions rest (presentCount + 1) absentCount
      else count_sessions studentId numSessions rest presentCount (absentCount + 1)
  end.

(** [Array.from({ length: numSessions }, (_, i) => i + 1)] *)
Definition expectedSessions (numSessions : Z) : list Z :=
  map Z.of_nat (seq 1 (Z.to_nat numSessions)).

(** [expectedSessions.filter(num => !sessionNumbers.includes(num))] *)
Definition missingSessions (numSessions : Z) (sessionNumbers : list Z) : list Z :=
  filter (fun num => negb (existsb (Z.eqb num) sessionNumbers))
         (expectedSessions numSessions).

(** The checks on one student's [sessions] array (from "Validate sessions
    array" to the percentage), which read nothing but the request. *)
Definition validate_sessions (studentId : ObjectId) (numSessions : Z)
  (sessions : list Session) : Result MarkError StudentAttendance :=
  if negb (Z.of_nat (List.length sessions) =? numSessions)
  then Err (SessionsLength studentId)
  else
    do counts <- count_sessions studentId numSessions sessions 0 0;
    let presentCount := fst counts in
    let absentCount := snd counts in
    let sessionNumbers := map sessionNumber sessions in
    let uniqueSessionNumbers := nodup Z.eq_dec sessionNumbers in
    if negb (List.length sessionNumbers =? List.length uniqueSessionNumbers)%nat
    then Err (DuplicateSessionNumbers studentId)
    else
      let missing := missingSessions numSessions sessionNumbers in
      if (0 <? List.length missing)%nat
      then Err (MissingSessionNumbers studentId missing)
      else
        let attendancePercentage := JSNumber.percentage presentCount numSessions in
        Ok (mkStudentAttendance studentId sessions presentCount absentCount
              attendancePercentage).

(** [classSection.students.some(sid => sid.studentId.toString() === studentId.toString())] *)
Definition isInSection (classSection : ClassSection) (studentId : ObjectId) : bool :=
  existsb (fun sid => String.eqb (ro_studentId sid) studentId) (cs_students classSection).

(** [student.enrolledSubjects.some(e => e.subjectId.toString() === classSection.subjectId._id.toString())] *)
Definition isEnrolled (student : Student) (classSection : ClassSection) : bool :=
  existsb (fun enrollment => String.eqb enrollment (subj_id (cs_subjectId classSection)))
          (enrolledSubjects student).

(** The body of [for (const studentAttendance of attendance)]. *)
Definition validate_student (classSection : ClassSection) (numSessions : Z)
  (studentAttendance : AttendanceInput) : M MarkError StudentAttendance :=
  let studentId := in_studentId studentAttendance in
  let sessions := in_sessions studentAttendance in
  student <~ Student_findById studentId ;;
  match student with
  | None => sendError (StudentNotFound studentId)
  | Some student =>
      reject_if (negb (isEnrolled student classSection)) (NotEnrolled studentId) ;;;
      reject_if (negb (isInSection classSection studentId)) (NotInSection studentId) ;;;
      lift (validate_sessions studentId numSessions sessions)
  end.

(** The loop itself: [validatedAttendance.push(...)] for each entry in turn,
    returning from the handler at the first rejection. *)
Fixpoint validate_loop (classSection : ClassSection) (numSessions : Z)
  (attendance : list AttendanceInput) (validatedAttendance : list StudentAttendance)
  : M MarkError (list StudentAttendance) :=
  match attendance with
  | [] => ret validatedAttendance
  | studentAttendance :: rest =>
      entry <~ validate_student classSection numSessions studentAttendance ;;
      validate_loop classSection numSessions rest (validatedAttendance ++ [entry])
  end.

Definition remove_dashes (s : string) : string :=
  string_of_list_ascii
    (filter (fun c => negb (Ascii.eqb c "-")) (list_ascii_of_string s)).

(** [s.slice(-3)] *)
Definition slice_last3 (s : string) : string :=
  substring (String.length s - 3) 3 s.

(* ------------------------------------------------------------------ *)
(** ** Instance methods of the AttendanceRecord model *)

(** What the methods throw. *)
Inductive ModelError : Type :=
| InvalidAttendanceObject (studentId : ObjectId)
| StudentNotInRecord (studentId : ObjectId)
| SessionsDataEmpty
| SessionUpdateShape
| InvalidStatus (s : string)
| SessionNotFound (n : Z)
| Inconsistent (studentId : ObjectId) (markedSessions expected : Z).

Definition set_attendance (r : AttendanceRecord) (a : list StudentAttendance)
  : AttendanceRecord :=
  mkRecord (recordId r) (rec_subjectId r) (rec_teacherId r) (rec_classSectionId r)
           (rec_date r) (startTime r) (endTime r) (rec_semester r) (numSessions r)
           (sessionBreakdown r) a (markedBy r) (markedAt r)
           (lastModifiedBy r) (lastModifiedAt r) (isFinalized r).

Definition set_startTime (r : AttendanceRecord) (t : string) : AttendanceRecord :=
  mkRecord (recordId r) (rec_subjectId r) (rec_teacherId r) (rec_classSectionId r)
           (rec_date r) t (endTime r) (rec_semester r) (numSessions r)
           (sessionBreakdown r) (attendance r) (markedBy r) (markedAt r)
           (lastModifiedBy r) (lastModifiedAt r) (isFinalized r).

Definition set_endTime (r : AttendanceRecord) (t : string) : AttendanceRecord :=
  mkRecord (recordId r) (rec_subjectId r) (rec_teacherId r) (rec_classSectionId r)
           (rec_date r) (startTime r) t (rec_semester r) (numSessions r)
           (sessionBreakdown r) (attendance r) (markedBy r) (markedAt r)
           (lastModifiedBy r) (lastModifiedAt r) (isFinalized r).

Definition set_sessionBreakdown (r : AttendanceRecord) (b : list SessionSlot)
  : AttendanceRecord :=
  mkRecord (recordId r) (rec_subjectId r) (rec_teacherId r) (rec_classSectionId r)
           (rec_date r) (startTime r) (endTime r) (rec_semester r) (numSessions r)
           b (attendance r) (markedBy r) (markedAt r)
           (lastModifiedBy r) (lastModifiedAt r) (isFinalized r).

Definition set_isFinalized (r : AttendanceRecord) (b : bool) : AttendanceRecord :=
  mkRecord (recordId r) (rec_subjectId r) (rec_teacherId r) (rec_classSectionId r)
           (rec_date r) (startTime r) (endTime r) (rec_semester r) (numSessions r)
           (sessionBreakdown r) (attendance r) (markedBy r) (markedAt r)
           (lastModifiedBy r) (lastModifiedAt r) b.

Definition set_lastModifiedBy (r : AttendanceRecord) (u : ObjectId) : AttendanceRecord :=
  mkRecord (recordId r) (rec_subjectId r) (rec_teacherId r) (rec_classSectionId r)
           (rec_date r) (startTime r) (endTime r) (rec_semester r) (numSessions r)
           (sessionBreakdown r) (attendance r) (markedBy r) (markedAt r)
           (Some u) (lastModifiedAt r) (isFinalized r).

Definition set_lastModifiedAt (r : AttendanceRecord) (t : Z) : AttendanceRecord :=
  mkRecord (recordId r) (rec_subjectId r) (rec_teacherId r) (rec_classSectionId r)
           (rec_date r) (startTime r) (endTime r) (rec_semester r) (numSessions r)
           (sessionBreakdown r) (attendance r) (markedBy r) (markedAt r)
           (lastModifiedBy r) (Some t) (isFinalized r).

(** [att => att.studentId.toString() === studentId.toString()] *)
Definition is_student (studentId : ObjectId) (att : StudentAttendance) : bool :=
  String.eqb (sa_studentId att) studentId.

(** [sessions.filter(s => s.status === st).length] *)
Definition count_status (st : string) (sessions : list Session) : Z :=
  Z.of_nat (List.length (filter (fun s => String.eqb (status s) st) sessions)).

Definition set_totals (presentCount absentCount : Z) (numSessions : Z)
  (sa : StudentAttendance) : StudentAttendance :=
  mkStudentAttendance (sa_studentId sa) (sa_sessions sa) presentCount absentCount
    (JSNumber.percentage presentCount numSessions).

(** [calculateStudentTotals(studentId)] *)
Definition calculateStudentTotals (this : AttendanceRecord) (studentId : ObjectId)
  : Result ModelError AttendanceRecord :=
  match find (is_student studentId) (attendance this) with
  | Some studentAttendance =>
      let presentCount :=
        count_status ATTENDANCE_STATUS.PRESENT (sa_sessions studentAttendance) in
      let absentCount :=
        count_status ATTENDANCE_STATUS.ABSENT (sa_sessions studentAttendance) in
      let markedSessions := presentCount + absentCount in
      if negb (markedSessions =? numSessions this)
      then Err (Inconsistent studentId markedSessions (numSessions this))
      else
        Ok (set_attendance this
              (update_first (is_student studentId)
                 (set_totals presentCount absentCount (numSessions this))
                 (attendance this)))
  | None => Ok this
  end.

(** [recalculateAllTotals()]: an inconsistent entry is only warned about.
    The percentage is 0 when [numSessions] is not positive. *)
Definition recalculateAllTotals (this : AttendanceRecord) : AttendanceRecord :=
  set_attendance this
    (map (fun studentAttendance =>
            let presentCount :=
              count_status ATTENDANCE_STATUS.PRESENT (sa_sessions studentAttendance) in
            let absentCount :=
              count_status ATTENDANCE_STATUS.ABSENT (sa_sessions studentAttendance) in
            mkStudentAttendance (sa_studentId studentAttendance)
              (sa_sessions studentAttendance) presentCount absentCount
              (if 0 <? numSessions this
               then JSNumber.percentage presentCount (numSessions this)
               else JSNumber.parseFloat2 (JSNumber.toFixed2 (JSNumber.of_Z 0))))
         (attendance this)).

(** [updateWithAudit(userId)], at time [now]. *)
Definition updateWithAudit (this : AttendanceRecord) (userId : ObjectId) (now : Z)
  : AttendanceRecord :=
  set_lastModifiedAt (set_lastModifiedBy this userId) now.

Definition set_sessions (sessions : list Session) (sa : StudentAttendance)
  : StudentAttendance :=
  mkStudentAttendance (sa_studentId sa) sessions (totalPresent sa) (totalAbsent sa)
    (attendancePercentage sa).

(** [session.status = newStatus] on the session [find] returns. *)
Definition set_session_status (n : Z) (newStatus : string) (sessions : list Session)
  : list Session :=
  update_first (fun s => sessionNumber s =? n)
               (fun s => mkSession (sessionNumber s) newStatus) sessions.

(** [updateStudentSession(studentId, sessionNumber, newStatus, modifiedBy)] *)
Definition updateStudentSession (this : AttendanceRecord) (studentId : ObjectId)
  (n : Z) (newStatus : string) (modifiedBy : ObjectId) (now : Z)
  : Result ModelError AttendanceRecord :=
  if negb (includes ATTENDANCE_STATUS.values newStatus)
  then Err (InvalidStatus newStatus)
  else
    match find (is_student studentId) (attendance this) with
    | None => Err (StudentNotInRecord studentId)
    | Some studentAttendance =>
        match find (fun s => sessionNumber s =? n) (sa_sessions studentAttendance) with
        | None => Err (SessionNotFound n)
        | Some _ =>
            let this1 :=
              set_attendance this
                (update_first (is_student studentId)
                   (set_sessions
                      (set_session_status n newStatus (sa_sessions studentAttendance)))
                   (attendance this)) in
            do this2 <- calculateStudentTotals this1 studentId;
            Ok (updateWithAudit this2 modifiedBy now)
        end
    end.

(** The [sessionsData.forEach] of [updateStudentAllSessions]: a session
    number that is not found is only warned about. *)
Fixpoint apply_session_updates (sessionsData : list Session) (sessions : list Session)
  : Result ModelError (list Session) :=
  match sessionsData with
  | [] => Ok sessions
  | sessionUpdate :: rest =>
      if (sessionNumber sessionUpdate =? 0) || String.eqb (status sessionUpdate) ""
      then Err SessionUpdateShape
      else if negb (includes ATTENDANCE_STATUS.values (status sessionUpdate))
      then Err (InvalidStatus (status sessionUpdate))
      else apply_session_updates rest
             (set_session_status (sessionNumber sessionUpdate) (status sessionUpdate)
                sessions)
  end.

(** [updateStudentAllSessions(studentId, sessionsData, modifiedBy)] *)
Definition updateStudentAllSessions (this : AttendanceRecord) (studentId : ObjectId)
  (sessionsData : list Session) (modifiedBy : ObjectId) (now : Z)
  : Result ModelError AttendanceRecord :=
  match find (is_student studentId) (attendance this) with
  | None => Err (StudentNotInRecord studentId)
  | Some studentAttendance =>
      if (List.length sessionsData =? 0)%nat
      then Err SessionsDataEmpty
      else
        do sessions' <- apply_session_updates sessionsData (sa_sessions studentAttendance);
        let this1 :=
          set_attendance this
            (update_first (is_student studentId) (set_sessions sessions')
               (attendance this)) in
        do this2 <- calculateStudentTotals this1 studentId;
        Ok (updateWithAudit this2 modifiedBy now)
  end.

(** [updateAttendance(newAttendanceData, modifiedBy)] *)
Fixpoint updateAttendance (this : AttendanceRecord) (newAttendanceData : list AttendanceInput)
  (modifiedBy : ObjectId) (now : Z) : Result ModelError AttendanceRecord :=
  match newAttendanceData with
  | [] => Ok this
  | studentUpdate :: rest =>
      if String.eqb (in_studentId studentUpdate) ""
      then Err (InvalidAttendanceObject (in_studentId studentUpdate))
      else
        do this' <- updateStudentAllSessions this (in_studentId studentUpdate)
                      (in_sessions studentUpdate) modifiedBy now;
        updateAttendance this' rest modifiedBy now
  end.

Section Controllers.

(** [parseDate] and [formatDate] of [utils/dateUtils.js] wrap date-fns;
    [parseDate] returns the day, or [None] when it throws. *)
Variable parseDate : string -> option Z.
Variable formatDate : Z -> string.

Definition make_recordId (clock : Clock) (attendanceDate : Z) (classSection : ClassSection)
  : string :=
  let recordIdDate := remove_dashes (formatDate attendanceDate) in
  "ATT_" ++ recordIdDate ++ "_" ++ subjectCode (cs_subjectId classSection)
  ++ "_SEM" ++ String_of_Z (cs_semester classSection)
  ++ "_SEC" ++ cs_sectionName classSection
  ++ "_" ++ slice_last3 (String_of_Z (now clock)).

Definition markAttendance (clock : Clock) (userId : ObjectId) (req : MarkRequest)
  : M MarkError AttendanceRecord :=
  let classSectionId := req_classSectionId req in
  let date := req_date req in
  let startTime := req_startTime req in
  let endTime := req_endTime req in
  let numSessions := req_numSessions req in
  let attendance := req_attendance req in
  reject_if (String.eqb classSectionId "" || String.eqb date ""
             || String.eqb startTime "" || String.eqb endTime ""
             || (numSessions =? 0))
            MissingRequiredFields ;;;
  reject_if ((numSessions <? 1) || (MAX_SESSIONS_PER_CLASS <? numSessions))
            NumSessionsOutOfRange ;;;
  reject_if (negb (timeRegex_test startTime)) StartTimeFormat ;;;
  reject_if (negb (timeRegex_test endTime)) EndTimeFormat ;;;
  let startMinutes := minutes_of startTime in
  let endMinutes := minutes_of endTime in
  reject_if (js_leb endMinutes startMinutes) EndNotAfterStart ;;;
  let durationMinutes := js_sub endMinutes startMinutes in
  let expectedDuration := Some (numSessions * SESSION_DURATION) in
  reject_if (js_ltb durationMinutes expectedDuration)
            (DurationTooShort durationMinutes expectedDuration) ;;;
  reject_if (List.length attendance =? 0)%nat AttendanceNotNonEmptyArray ;;;
  teacher <~ Teacher_findOne userId ;;
  match teacher with
  | None => sendError TeacherProfileNotFound
  | Some teacher =>
  classSection <~ ClassSection_findById classSectionId ;;
  match classSection with
  | None => sendError ClassSectionNotFound
  | Some classSection =>
  reject_if (negb (cs_isActive classSection)) ClassSectionDeleted ;;;
  let isAssigned := String.eqb (cs_teacherId classSection) (t_id teacher) in
  reject_if (negb isAssigned) NotAssigned ;;;
  match parseDate date with
  | None => sendError DateFormat
  | Some attendanceDate =>
  reject_if (today clock <? attendanceDate) FutureDate ;;;
  let recordId := make_recordId clock attendanceDate classSection in
  validatedAttendance <~ validate_loop classSection numSessions attendance [] ;;
  let sessionBreakdown := generateSessionBreakdown clock startTime endTime numSessions in
  AttendanceRecord_create DuplicateRecordId
    (mkRecord (uppercase recordId)
              (subj_id (cs_subjectId classSection))
              (t_id teacher)
              classSectionId
              attendanceDate
              startTime
              endTime
              (cs_semester classSection)
              numSessions
              sessionBreakdown
              validatedAttendance
              (t_id teacher)
              (now clock)
              None
              None
              false)
  end end end.

(* ------------------------------------------------------------------ *)
(** ** editAttendanceRecord ([teacherController.js]) *)

(** [req.body] of PATCH /api/teachers/attendance/:recordId.  [p_attendance]
    is [Some] when the field is an array; the times are the trimmed strings,
    empty when absent; [p_isFinalized] is [isFinalized === true]. *)
Record EditPatch : Type := mkPatch {
  p_attendance : option (list AttendanceInput);
  p_startTime : string;
  p_endTime : string;
  p_isFinalized : bool
}.

Inductive EditError : Type :=
| EditTeacherProfileNotFound
| RecordNotFound
| NotOwnRecord
| AlreadyFinalized
| EditStartTimeFormat
| EditEndTimeFormat
| UpdateFailed (e : ModelError).

Definition edit_status (e : EditError) : Z :=
  match e with
  | EditTeacherProfileNotFound | RecordNotFound => HTTP_STATUS.NOT_FOUND
  | NotOwnRecord => HTTP_STATUS.FORBIDDEN
  | _ => HTTP_STATUS.BAD_REQUEST
  end.

(** Truthiness of a string. *)
Definition truthy (s : string) : bool := negb (String.eqb s "").

Definition editAttendanceRecord (clock : Clock) (userId : ObjectId) (recordId : string)
  (patch : EditPatch) : M EditError AttendanceRecord :=
  let newAttendance := p_attendance patch in
  let newStartTime := p_startTime patch in
  let newEndTime := p_endTime patch in
  teacher <~ Teacher_findOne userId ;;
  match teacher with
  | None => sendError EditTeacherProfileNotFound
  | Some teacher =>
  found <~ AttendanceRecord_findOne recordId ;;
  match found with
  | None => sendError RecordNotFound
  | Some attendanceRecord =>
  reject_if (negb (String.eqb (rec_teacherId attendanceRecord) (t_id teacher)))
            NotOwnRecord ;;;
  reject_if (isFinalized attendanceRecord) AlreadyFinalized ;;;
  reject_if (truthy newStartTime && negb (timeRegex_test newStartTime)) EditStartTimeFormat ;;;
  reject_if (truthy newEndTime && negb (timeRegex_test newEndTime)) EditEndTimeFormat ;;;
  attendanceRecord <~
    match newAttendance with
    | Some newAttendanceData =>
        match updateAttendance attendanceRecord newAttendanceData userId (now clock) with
        | Ok r => ret r
        | Err error => sendError (UpdateFailed error)
        end
    | None => ret attendanceRecord
    end ;;
  let attendanceRecord :=
    if truthy newStartTime then set_startTime attendanceRecord newStartTime
    else attendanceRecord in
  let attendanceRecord :=
    if truthy newEndTime then set_endTime attendanceRecord newEndTime
    else attendanceRecord in
  let attendanceRecord :=
    if truthy newStartTime || truthy newEndTime
    then set_sessionBreakdown attendanceRecord
           (generateSessionBreakdown clock (startTime attendanceRecord)
              (endTime attendanceRecord) (numSessions attendanceRecord))
    else attendanceRecord in
  let attendanceRecord :=
    if p_isFinalized patch then set_isFinalized attendanceRecord true
    else attendanceRecord in
  let attendanceRecord := set_lastModifiedAt attendanceRecord (now clock) in
  AttendanceRecord_save attendanceRecord ;;;
  ret attendanceRecord
  end end.

End Controllers.

(* ------------------------------------------------------------------ *)
(** ** getAttendanceBySubject ([studentController.js]) *)

(** The [summary] object of the response. *)
Record Summary : Type := mkSummary {
  totalClasses : Z;
  totalSessions : Z;
  presentCount : Z;
  absentCount : Z;
  sum_attendancePercentage : float
}.

(** The filter of the [AttendanceRecord.find] query: the subject, an
    [attendance] element of the student, and the optional date bounds.  The
    store returns the stored records that satisfy it, in the order asked for. *)
Definition matches_query (subjectId student_id : ObjectId) (gte lte : option Z)
  (r : AttendanceRecord) : bool :=
  String.eqb (rec_subjectId r) subjectId
  && existsb (is_student student_id) (attendance r)
  && match gte with Some d => d <=? rec_date r | None => true end
  && match lte with Some d => rec_date r <=? d | None => true end.

(** The three [cumulative...] counters after the callback of
    [attendanceRecords.map] has run on one record. *)
Definition accumulate (student_id : ObjectId) (acc : Z * Z * Z) (record : AttendanceRecord)
  : Z * Z * Z :=
  let '(cumulativeTotalSessions, cumulativePresentCount, cumulativeAbsentCount) := acc in
  match find (is_student student_id) (attendance record) with
  | Some studentAttendance =>
      (cumulativeTotalSessions + numSessions record,
       cumulativePresentCount + totalPresent studentAttendance,
       cumulativeAbsentCount + totalAbsent studentAttendance)
  | None => acc
  end.

(** The summary [getAttendanceBySubject] sends for the records the query
    returned (from "If no attendance records found" to the response). *)
Definition attendanceSummary (attendanceRecords : list AttendanceRecord)
  (student_id : ObjectId) : Summary :=
  if (List.length attendanceRecords =? 0)%nat
  then mkSummary 0 0 0 0 (JSNumber.of_Z 0)
  else
    let '(cumulativeTotalSessions, cumulativePresentCount, cumulativeAbsentCount) :=
      fold_left (accumulate student_id) attendanceRecords (0, 0, 0) in
    let overallPercentage :=
      if 0 <? cumulativeTotalSessions
      then JSNumber.percentage cumulativePresentCount cumulativeTotalSessions
      else JSNumber.of_Z 0 in
    mkSummary (Z.of_nat (List.length attendanceRecords))
              cumulativeTotalSessions cumulativePresentCount cumulativeAbsentCount
              overallPercentage.

(* ------------------------------------------------------------------ *)
(** * Notions the properties are stated with *)

(** ** Time strings *)

(** A time string that reads back as the minute of the day it prints. *)
Definition reads_back (s : string) : bool :=
  match minutes_of s with
  | Some k => (0 <=? k) && (k <? 1440) && String.eqb (timeString k) s
  | None => false
  end.

(** The digits [lo], ..., [lo + n - 1] as characters, and the string
    "h1h2:m1m2". *)
Definition digit_chars (lo n : nat) : list ascii :=
  map (fun d => ascii_of_nat (48 + d)) (seq lo n).

Definition hhmm (h1 h2 m1 m2 : ascii) : string :=
  String h1 (String h2 (String ":" (String m1 (String m2 EmptyString)))).

(** ** Handlers and the store *)

(** [m] never writes. *)
Definition pure_read {E A} (m : M E A) : Prop := forall db, snd (m db) = db.

(** [m] leaves the store as it was whenever it ends in an error. *)
Definition err_preserves {E A} (m : M E A) : Prop :=
  forall db e db', m db = (Err e, db') -> db' = db.

(** ** Sessions, entries and records *)

(** The status is one of the two the system knows. *)
Definition valid_status (s : string) : Prop :=
  s = ATTENDANCE_STATUS.PRESENT \/ s = ATTENDANCE_STATUS.ABSENT.

(** A sessions array with a repeated number or a missing one. *)
Definition bad_coverage (numSessions : Z) (sessions : list Session) : Prop :=
  ~ NoDup (map sessionNumber sessions)
  \/ exists k, 1 <= k <= numSessions /\ ~ In k (map sessionNumber sessions).

(** Some validation step of the loop body fails for the entry [a]: the
    student does not exist, is not enrolled in the section's subject, is not
    on the section's roster, or the sessions array is rejected (wrong count,
    number out of range, bad status, duplicate, gap). *)
Definition entry_step_fails (db : Database) (cs : ClassSection) (n : Z)
  (a : AttendanceInput) : Prop :=
  find (fun s => String.eqb (st_id s) (in_studentId a)) (students db) = None
  \/ (exists student,
        find (fun s => String.eqb (st_id s) (in_studentId a)) (students db)
        = Some student
        /\ isEnrolled student cs = false)
  \/ isInSection cs (in_studentId a) = false
  \/ is_ok (validate_sessions (in_studentId a) n (in_sessions a)) = false.

(** A student entry of a record with [n] sessions: one session per slot,
    valid statuses, and the derived fields equal to what the sessions give. *)
Definition entry_ok (n : Z) (sa : StudentAttendance) : Prop :=
  Z.of_nat (List.length (sa_sessions sa)) = n
  /\ Forall (fun s => valid_status (status s)) (sa_sessions sa)
  /\ totalPresent sa = count_status ATTENDANCE_STATUS.PRESENT (sa_sessions sa)
  /\ totalAbsent sa = count_status ATTENDANCE_STATUS.ABSENT (sa_sessions sa)
  /\ attendancePercentage sa = JSNumber.percentage (totalPresent sa) n.

(** A record whose session count is in range and whose entries are all
    well formed. *)
Definition record_ok (r : AttendanceRecord) : Prop :=
  1 <= numSessions r <= MAX_SESSIONS_PER_CLASS
  /\ Forall (entry_ok (numSessions r)) (attendance r).

(** Every stored record is well formed. *)
Definition db_ok (db : Database) : Prop := Forall record_ok (attendanceRecords db).

(** The fields an instance method leaves alone. *)
Definition same_identity (r r' : AttendanceRecord) : Prop :=
  numSessions r' = numSessions r /\ recordId r' = recordId r
  /\ isFinalized r' = isFinalized r
  /\ startTime r' = startTime r /\ endTime r' = endTime r
  /\ sessionBreakdown r' = sessionBreakdown r.

(** ** Edits and reachable stores *)

(** The document the handler saves once the attendance update (if any) has
    produced [r1]: times, regenerated breakdown, finalize flag, timestamp. *)
Definition edited_record (clock : Clock) (patch : EditPatch) (r1 : AttendanceRecord)
  : AttendanceRecord :=
  let r2 := if truthy (p_startTime patch) then set_startTime r1 (p_startTime patch) else r1 in
  let r3 := if truthy (p_endTime patch) then set_endTime r2 (p_endTime patch) else r2 in
  let r4 :=
    if truthy (p_startTime patch) || truthy (p_endTime patch)
    then set_sessionBreakdown r3
           (generateSessionBreakdown clock (startTime r3) (endTime r3) (numSessions r3))
    else r3 in
  let r5 := if p_isFinalized patch then set_isFinalized r4 true else r4 in
  set_lastModifiedAt r5 (now clock).

(** What [Teacher.findOne] and [AttendanceRecord.findOne] return. *)
Definition find_teacher (userId : ObjectId) (db : Database) : option Teacher :=
  find (fun t => String.eqb (t_userId t) userId) (teachers db).

Definition find_record (rid : string) (db : Database) : option AttendanceRecord :=
  find (fun r => String.eqb (recordId r) rid) (attendanceRecords db).

(** The store after [doc.save()]. *)
Definition saved (doc : AttendanceRecord) (db : Database) : Database :=
  snd (@AttendanceRecord_save unit doc db).

(** One of the model's editing methods succeeds on [r], giving [r']. *)
Inductive method_edit (r : AttendanceRecord) : AttendanceRecord -> Prop :=
| edit_updateStudentSession studentId n newStatus modifiedBy now r' :
    updateStudentSession r studentId n newStatus modifiedBy now = Ok r' ->
    method_edit r r'
| edit_updateStudentAllSessions studentId sessionsData modifiedBy now r' :
    updateStudentAllSessions r studentId sessionsData modifiedBy now = Ok r' ->
    method_edit r r'
| edit_updateAttendance newAttendanceData modifiedBy now r' :
    updateAttendance r newAttendanceData modifiedBy now = Ok r' ->
    method_edit r r'
| edit_recalculateAllTotals :
    method_edit r (recalculateAllTotals r).

(** The operations that change the store: the two handlers (whatever they
    answer), an editing method of the model applied to a stored record and
    saved, and changes to the other collections (teachers, class sections,
    students), which the administration makes. *)
Inductive db_step (parseDate : string -> option Z) (formatDate : Z -> string)
  : Database -> Database -> Prop :=
| step_markAttendance clock userId req db :
    db_step parseDate formatDate db
      (snd (markAttendance parseDate formatDate clock userId req db))
| step_editAttendanceRecord clock userId rid patch db :
    db_step parseDate formatDate db
      (snd (editAttendanceRecord clock userId rid patch db))
| step_method db r r' :
    In r (attendanceRecords db) -> method_edit r r' ->
    db_step parseDate formatDate db (saved r' db)
| step_catalog db ts cs ss :
    db_step parseDate formatDate db (mkDatabase ts cs ss (attendanceRecords db)).

(** The stores the system can be in, starting with no attendance record. *)
Inductive reachable (parseDate : string -> option Z) (formatDate : Z -> string)
  : Database -> Prop :=
| reachable_init db : attendanceRecords db = [] -> reachable parseDate formatDate db
| reachable_step db db' :
    reachable parseDate formatDate db -> db_step parseDate formatDate db db' ->
    reachable parseDate formatDate db'.

(** ** Clocks and time zones *)

(** [k] consecutive slots of [SESSION_DURATION] minutes read on a 24-hour
    clock, numbered from [i], the first starting [t] minutes after
    midnight. *)
Fixpoint wall_slots (k : nat) (i : Z) (t : Z) : list SessionSlot :=
  match k with
  | O => []
  | S k' =>
      mkSlot i (timeString t) (timeString (t + SESSION_DURATION))
      :: wall_slots k' (i + 1) (t + SESSION_DURATION)
  end.

(** Midnight of the server's local day at the moment of the call, as a
    local time value. *)
Definition local_midnight (clock : Clock) : Z :=
  Day (LocalTime (zone clock) (now clock)) * msPerDay.

(** The server's offset from UTC is [offset] at every moment of the call's
    local day at which a clock started at midnight reads between [from] and
    [until] minutes: no clock change falls in that stretch.  All these
    moments, and the call, are in the range of [Date]. *)
Definition steady (clock : Clock) (offset from until : Z) : Prop :=
  Z.abs (now clock) <= maxTimeValue
  /\ forall tl,
       local_midnight clock + from * msPerMinute <= tl
       <= local_midnight clock + until * msPerMinute ->
       LocalTZA_local (zone clock) tl = offset
       /\ LocalTZA_utc (zone clock) (tl - offset) = offset
       /\ Z.abs (tl - offset) <= maxTimeValue.

(** The server's offset from UTC is always [offset] (a zone without
    daylight saving time), at most a day, and the call is made at least a
    week from the ends of the range of [Date]. *)
Definition offset_is (clock : Clock) (offset : Z) : Prop :=
  (forall t, LocalTZA_utc (zone clock) t = offset)
  /\ (forall t, LocalTZA_local (zone clock) t = offset)
  /\ Z.abs offset <= msPerDay
  /\ Z.abs (now clock) + 7 * msPerDay <= maxTimeValue.

Definition fixed_offset (clock : Clock) : Prop :=
  exists offset, offset_is clock offset.

(** The moment at which, on the local day of the call, a clock [offset]
    milliseconds ahead of UTC reads [t] minutes after midnight. *)
Definition instant_at (clock : Clock) (offset t : Z) : Z :=
  local_midnight clock + t * msPerMinute - offset.

(** The stores the system can be in when every call of the two handlers is
    made with a clock that satisfies [P]. *)
Inductive db_step_with (P : Clock -> Prop)
  (parseDate : string -> option Z) (formatDate : Z -> string)
  : Database -> Database -> Prop :=
| step_with_markAttendance clock userId req db :
    P clock ->
    db_step_with P parseDate formatDate db
      (snd (markAttendance parseDate formatDate clock userId req db))
| step_with_editAttendanceRecord clock userId rid patch db :
    P clock ->
    db_step_with P parseDate formatDate db
      (snd (editAttendanceRecord clock userId rid patch db))
| step_with_method db r r' :
    In r (attendanceRecords db) -> method_edit r r' ->
    db_step_with P parseDate formatDate db (saved r' db)
| step_with_catalog db ts cs ss :
    db_step_with P parseDate formatDate db (mkDatabase ts cs ss (attendanceRecords db)).

Inductive reachable_with (P : Clock -> Prop)
  (parseDate : string -> option Z) (formatDate : Z -> string)
  : Database -> Prop :=
| reachable_with_init db :
    attendanceRecords db = [] -> reachable_with P parseDate formatDate db
| reachable_with_step db db' :
    reachable_with P parseDate formatDate db ->
    db_step_with P parseDate formatDate db db' ->
    reachable_with P parseDate formatDate db'.

(** ** Percentages and sums *)

(** The digits [toFixed(2)] prints for [p / n * 100] are those of the exact
    quotient rounded half up. *)
Definition agrees (p n : Z) : bool :=
  match JSNumber.percentage_digits p n with
  | Some h => h =? round2_half_up p n
  | None => false
  end.

(** [agrees] on every pair [0 <= p <= n], [1 <= n <= N]. *)
Definition agree_upto (N : nat) : bool :=
  forallb (fun n => forallb (fun p => agrees (Z.of_nat p) (Z.of_nat n)) (seq 0 (S n)))
          (seq 1 N).

(** The record has an entry of the student. *)
Definition contains_student (student_id : ObjectId) (r : AttendanceRecord) : bool :=
  existsb (is_student student_id) (attendance r).

(** The stored totals of the student's entry in [r] (0 when there is none). *)
Definition present_in (student_id : ObjectId) (r : AttendanceRecord) : Z :=
  match find (is_student student_id) (attendance r) with
  | Some sa => totalPresent sa
  | None => 0
  end.

Definition absent_in (student_id : ObjectId) (r : AttendanceRecord) : Z :=
  match find (is_student student_id) (attendance r) with
  | Some sa => totalAbsent sa
  | None => 0
  end.

(** The sum of a list of numbers. *)
Definition sumZ (l : list Z) : Z := fold_right Z.add 0 l.

(** ** Sample data *)

(** A zone whose offset from UTC is always [offset] milliseconds. *)
Definition fixed_zone (offset : Z) : Zone :=
  mkZone (fun _ => offset) (fun _ => offset).

(** A zone whose offset is [before] until the UTC moment [transition] and
    [after] from then on.  By local time the change falls at
    [transition + before]; the local times the change skips or repeats are
    read with [before]. *)
Definition zone_with_transition (transition before after : Z) : Zone :=
  mkZone (fun t => if t <? transition then before else after)
         (fun t => if t <? transition + Z.max before after then before else after).

(** 7 November 2025, 07:20:00.123 UTC, on a server five and a half hours
    ahead of UTC all year. *)
Definition sample_clock : Clock := mkClock 20399 1762500000123 (fixed_zone 19800000).

(** The server's clock on 8 March 2026 at 05:00 UTC, local midnight in a
    zone five hours behind UTC which two hours later, at 07:00 UTC, moves
    its clocks from 02:00 to 03:00. *)
Definition dst_zone : Zone := zone_with_transition 1772953200000 (-18000000) (-14400000).

Definition dst_clock : Clock := mkClock 20520 1772946000000 dst_zone.

(** A record of two sessions with one student, sessions
    [{1,present},{2,absent}], whose derived fields are still the schema
    defaults. *)
Definition scenario_record : AttendanceRecord :=
  mkRecord "ATT_07112025_MAT101_SEM3_SECA_001" "subj1" "t1" "cs1" 20399
           "09:00" "10:30" 3 2
           (generateSessionBreakdown sample_clock "09:00" "10:30" 2)
           [mkStudentAttendance "s1" [mkSession 1 "present"; mkSession 2 "absent"]
              0 0 0%float]
           "t1" 0 None None false.

(** A record with [n] sessions in which student "s1" was present in the
    first [k] and absent in the rest. *)
Definition sample_sessions (n k : nat) : list Session :=
  map (fun i => mkSession (Z.of_nat i)
                  (if (i <=? k)%nat then ATTENDANCE_STATUS.PRESENT
                   else ATTENDANCE_STATUS.ABSENT))
      (seq 1 n).

Definition sample_record (rid : string) (n k : nat) : AttendanceRecord :=
  mkRecord rid "subj1" "t1" "cs1" 20399 "09:00" "17:00" 3 (Z.of_nat n)
           (generateSessionBreakdown sample_clock "09:00" "17:00" (Z.of_nat n))
           [mkStudentAttendance "s1" (sample_sessions n k)
              (Z.of_nat k) (Z.of_nat (n - k))
              (JSNumber.percentage (Z.of_nat k) (Z.of_nat n))]
           "t1" 0 None None false.

(** Sixteen classes of ten sessions; the student attended 10, 10 and 3
    sessions of the first three and none of the others: 23 of 160. *)
Definition sixteen_classes : list AttendanceRecord :=
  sample_record "A" 10 10 :: sample_record "B" 10 10 :: sample_record "C" 10 3
  :: repeat (sample_record "D" 10 0) 13.

Definition sample_parseDate (s : string) : option Z :=
  if String.eqb s "07-11-2025" then Some 20399 else None.

Definition sample_formatDate (d : Z) : string := "07-11-2025".

Definition teacher1 : Teacher := mkTeacher "t1" "u1".
Definition teacher2 : Teacher := mkTeacher "t2" "u2".
Definition subject1 : Subject := mkSubject "subj1" "MAT101".
Definition student1 : Student := mkStudent "s1" "Asha" "PES2202300055" ["subj1"].

(** Section A of MAT101, taught by teacher 1, with the given roster. *)
Definition section1 (roster : list RosterEntry) : ClassSection :=
  mkClassSection "cs1" subject1 "t1" 3 "A" roster true.

Definition sample_db (roster : list RosterEntry) : Database :=
  mkDatabase [teacher1; teacher2] [section1 roster] [student1] [].

Definition sample_request : MarkRequest :=
  mkMarkRequest "cs1" "07-11-2025" "09:00" "10:30" 2
    [mkInput "s1" [mkSession 1 "present"; mkSession 2 "absent"]].

Definition sample_recordId : string := "ATT_07112025_MAT101_SEM3_SECA_123".

(** The store after teacher 1 has marked [sample_request] with student 1
    active on the roster. *)
Definition db_marked : Database :=
  snd (markAttendance sample_parseDate sample_formatDate sample_clock "u1"
         sample_request (sample_db [mkRosterEntry "s1" "active"])).

Definition finalize_patch : EditPatch := mkPatch None "" "" true.

(** ... and after teacher 1 has finalized that record. *)
Definition db_finalized : Database :=
  snd (editAttendanceRecord sample_clock "u1" sample_recordId finalize_patch db_marked).

(** The sample record as stored in [db], and its first student entry. *)
Definition stored_record (db : Database) : AttendanceRecord :=
  match find_record sample_recordId db with
  | Some r => r
  | None => scenario_record
  end.

Definition first_entry (r : AttendanceRecord) : StudentAttendance :=
  match attendance r with
  | sa :: _ => sa
  | [] => mkStudentAttendance "" [] 0 0 0%float
  end.

(** A request whose second entry names a student who does not exist. *)
Definition request_with_stranger : MarkRequest :=
  mkMarkRequest "cs1" "07-11-2025" "09:00" "10:30" 2
    [mkInput "s1" [mkSession 1 "present"; mkSession 2 "absent"];
     mkInput "nobody" [mkSession 1 "present"; mkSession 2 "absent"]].

(* ------------------------------------------------------------------ *)
(** * The read handlers and the routes of the teacher API *)

(** [HTTP_STATUS.UNAUTHORIZED] *)
Definition HTTP_UNAUTHORIZED : Z := 401.

Module USER_ROLES.
Definition STUDENT : string := "student".
Definition TEACHER : string := "teacher".
Definition ADMIN : string := "admin".
End USER_ROLES.

(** ** viewAttendanceRecords ([teacherController.js]) *)

(** [req.query] of GET /api/teachers/attendance.  An absent string parameter
    is the empty string (falsy); [q_page] and [q_limit] are [parseInt(page)]
    and [parseInt(limit)] with the defaults 1 and 20 applied (a parameter
    that does not parse to an integer is not covered). *)
Record ViewQuery : Type := mkViewQuery {
  q_classSectionId : string;
  q_subjectId : string;
  q_startDate : string;
  q_endDate : string;
  q_page : Z;
  q_limit : Z
}.

Inductive ViewError : Type :=
| ViewTeacherProfileNotFound
| ViewStartDateFormat
| ViewEndDateFormat.

Definition view_status (e : ViewError) : Z :=
  match e with
  | ViewTeacherProfileNotFound => HTTP_STATUS.NOT_FOUND
  | _ => HTTP_STATUS.BAD_REQUEST
  end.

(** The [query] object: the teacher, the optional section and subject, the
    optional bounds on the date. *)
Definition view_matches (teacherId : ObjectId) (q : ViewQuery) (gte lte : option Z)
  (r : AttendanceRecord) : bool :=
  String.eqb (rec_teacherId r) teacherId
  && (if truthy (q_classSectionId q)
      then String.eqb (rec_classSectionId r) (q_classSectionId q) else true)
  && (if truthy (q_subjectId q)
      then String.eqb (rec_subjectId r) (q_subjectId q) else true)
  && match gte with Some d => d <=? rec_date r | None => true end
  && match lte with Some d => rec_date r <=? d | None => true end.

(** [.sort({ date: -1, startTime: 1 })]: [a] may stand before [b].  Records
    with equal keys are kept in stored order. *)
Definition view_before (a b : AttendanceRecord) : bool :=
  (rec_date b <? rec_date a)
  || ((rec_date a =? rec_date b) && String.leb (startTime a) (startTime b)).

Fixpoint insert_record (a : AttendanceRecord) (l : list AttendanceRecord)
  : list AttendanceRecord :=
  match l with
  | [] => [a]
  | b :: l' => if view_before a b then a :: b :: l' else b :: insert_record a l'
  end.

Definition sort_records (l : list AttendanceRecord) : list AttendanceRecord :=
  fold_right insert_record [] l.

(** [Math.ceil(totalRecords / limitNum)] for a positive [limitNum]. *)
Definition ceil_div (a b : Z) : Z := - ((- a) / b).

Record Pagination : Type := mkPagination {
  currentPage : Z;
  totalPages : Z;
  totalRecords : Z;
  recordsPerPage : Z;
  hasNextPage : bool;
  hasPrevPage : bool
}.

(** The response: the documents of the page (each is sent as its formatted
    projection) and the pagination object. *)
Record ViewResponse : Type := mkViewResponse {
  v_records : list AttendanceRecord;
  v_pagination : Pagination
}.

(** [.skip(skip).limit(limitNum)] on the sorted result, for [skip >= 0] and
    [limitNum >= 1]. *)
Definition page_of (skip limitNum : Z) (l : list AttendanceRecord)
  : list AttendanceRecord :=
  firstn (Z.to_nat limitNum) (skipn (Z.to_nat skip) l).

Section Views.

Variable parseDate : string -> option Z.

(** The documents [AttendanceRecord.find(query).sort(...)] returns. *)
Definition view_results (teacherId : ObjectId) (q : ViewQuery) (gte lte : option Z)
  (db : Database) : list AttendanceRecord :=
  sort_records (filter (view_matches teacherId q gte lte) (attendanceRecords db)).

Definition viewAttendanceRecords (userId : ObjectId) (q : ViewQuery)
  : M ViewError ViewResponse :=
  teacher <~ Teacher_findOne userId ;;
  match teacher with
  | None => sendError ViewTeacherProfileNotFound
  | Some teacher =>
  gte <~ (if truthy (q_startDate q)
          then match parseDate (q_startDate q) with
               | Some parsedStartDate => ret (Some parsedStartDate)
               | None => sendError ViewStartDateFormat
               end
          else ret None) ;;
  lte <~ (if truthy (q_endDate q)
          then match parseDate (q_endDate q) with
               | Some parsedEndDate => ret (Some parsedEndDate)
               | None => sendError ViewEndDateFormat
               end
          else ret None) ;;
  let pageNum := q_page q in
  let limitNum := q_limit q in
  let skip := (pageNum - 1) * limitNum in
  fun db =>
    let results := view_results (t_id teacher) q gte lte db in
    let totalRecords := Z.of_nat (List.length results) in
    (Ok (mkViewResponse
           (page_of skip limitNum results)
           (mkPagination pageNum (ceil_div totalRecords limitNum) totalRecords limitNum
              (pageNum <? ceil_div totalRecords limitNum) (1 <? pageNum))),
     db)
  end.

End Views.

(** ** getAssignedClasses and getClassStudents ([teacherController.js]) *)

Inductive ClassesError : Type :=
| ClassesTeacherProfileNotFound
| ClassesSectionNotFound
| ClassesNotAssigned.

Definition classes_status (e : ClassesError) : Z :=
  match e with
  | ClassesNotAssigned => HTTP_STATUS.FORBIDDEN
  | _ => HTTP_STATUS.NOT_FOUND
  end.

(** [ClassSection.find({ teacherId: teacher._id, isActive: true })] *)
Definition ClassSection_find_active (teacherId : ObjectId) {E}
  : M E (list ClassSection) :=
  fun db =>
    (Ok (filter (fun c => String.eqb (cs_teacherId c) teacherId && cs_isActive c)
           (classSections db)),
     db).

(** The [assignedClasses] of the response (each section is sent as its
    formatted projection, [totalStudents] being [students.length]) and
    [totalClasses]. *)
Definition getAssignedClasses (userId : ObjectId)
  : M ClassesError (list ClassSection * Z) :=
  teacher <~ Teacher_findOne userId ;;
  match teacher with
  | None => sendError ClassesTeacherProfileNotFound
  | Some teacher =>
  classSections <~ ClassSection_find_active (t_id teacher) ;;
  ret (classSections, Z.of_nat (List.length classSections))
  end.

(** The [studentId] of each entry of [students] in the response, and
    [totalStudents]. *)
Definition getClassStudents (userId : ObjectId) (classSectionId : ObjectId)
  : M ClassesError (list ObjectId * Z) :=
  teacher <~ Teacher_findOne userId ;;
  match teacher with
  | None => sendError ClassesTeacherProfileNotFound
  | Some teacher =>
  classSection <~ ClassSection_findById classSectionId ;;
  match classSection with
  | None => sendError ClassesSectionNotFound
  | Some classSection =>
  reject_if (negb (String.eqb (cs_teacherId classSection) (t_id teacher)))
            ClassesNotAssigned ;;;
  let students := map ro_studentId (cs_students classSection) in
  ret (students, Z.of_nat (List.length students))
  end end.

(** ** The role gate ([roleMiddleware.js]) and the teacher routes
       ([teacherRoutes.js]) *)

(** [req.user] as [authenticate] leaves it. *)
Record User : Type := mkUser {
  u_userId : ObjectId;
  u_role : string
}.

(** What a route answers: the gate's status, or what the handler answers. *)
Inductive RouteError (E : Type) : Type :=
| Gate (status : Z)
| Handler (e : E).
Arguments Gate {E} status.
Arguments Handler {E} e.

(** [restrictTo(...allowedRoles)] as a check of [req.user]; [Ok] is
    [next()]. *)
Definition restrictTo (allowedRoles : list string) (user : option User)
  : Result Z User :=
  match user with
  | None => Err HTTP_UNAUTHORIZED
  | Some u =>
      if negb (includes allowedRoles (u_role u))
      then Err HTTP_STATUS.FORBIDDEN
      else Ok u
  end.

Definition studentOnly := restrictTo [USER_ROLES.STUDENT].
Definition teacherOnly := restrictTo [USER_ROLES.TEACHER].
Definition adminOnly := restrictTo [USER_ROLES.ADMIN].
Definition teacherOrAdmin := restrictTo [USER_ROLES.TEACHER; USER_ROLES.ADMIN].
Definition studentOrAdmin := restrictTo [USER_ROLES.STUDENT; USER_ROLES.ADMIN].

(** [router.<verb>(path, authenticate, gate, handler)]: the handler runs
    with [req.user.userId] once the gate has called [next()]. *)
Definition route {E A} (gate : option User -> Result Z User)
  (handler : ObjectId -> M E A) (user : option User) : M (RouteError E) A :=
  fun db =>
    match gate user with
    | Err status => (Err (Gate status), db)
    | Ok u =>
        match handler (u_userId u) db with
        | (Ok a, db') => (Ok a, db')
        | (Err e, db') => (Err (Handler e), db')
        end
    end.

Section Routes.

Variable parseDate : string -> option Z.
Variable formatDate : Z -> string.

(** POST /api/teachers/attendance (no validation chain is registered on the
    route, so [validate] finds no error and calls [next()]). *)
Definition post_attendance (clock : Clock) (req : MarkRequest) :=
  route teacherOrAdmin (fun userId => markAttendance parseDate formatDate clock userId req).

(** GET /api/teachers/attendance *)
Definition get_attendance (q : ViewQuery) :=
  route teacherOrAdmin (fun userId => viewAttendanceRecords parseDate userId q).

(** PATCH /api/teachers/attendance/:recordId *)
Definition patch_attendance (clock : Clock) (recordId : string) (patch : EditPatch) :=
  route teacherOrAdmin (fun userId => editAttendanceRecord clock userId recordId patch).

(** GET /api/teachers/classes *)
Definition get_classes :=
  route teacherOrAdmin getAssignedClasses.

(** GET /api/teachers/class-students/:classSectionId *)
Definition get_class_students (classSectionId : ObjectId) :=
  route teacherOrAdmin (fun userId => getClassStudents userId classSectionId).

End Routes.

(** ** The records of the response of getAttendanceBySubject
       ([studentController.js]) *)

(** The [time] shown for a session: the slot of [sessionBreakdown] with the
    session's number, or 'N/A'. *)
Definition session_time (record : AttendanceRecord) (session : Session) : string :=
  match find (fun sb => slot_sessionNumber sb =? sessionNumber session)
             (sessionBreakdown record) with
  | Some sessionTiming => slot_startTime sessionTiming ++ "-" ++ slot_endTime sessionTiming
  | None => "N/A"
  end.

Record FormattedSession : Type := mkFormattedSession {
  fs_sessionNumber : Z;
  fs_time : string;
  fs_status : string
}.

(** [studentAttendance.sessions.map(...)] *)
Definition format_sessions (record : AttendanceRecord)
  (studentAttendance : StudentAttendance) : list FormattedSession :=
  map (fun session =>
         mkFormattedSession (sessionNumber session) (session_time record session)
           (status session))
      (sa_sessions studentAttendance).

(** The sessions of each formatted record, [null] entries (records without
    the student) filtered out. *)
Definition formattedRecords (attendanceRecords : list AttendanceRecord)
  (student_id : ObjectId) : list (string * list FormattedSession) :=
  flat_map (fun record =>
              match find (is_student student_id) (attendance record) with
              | Some studentAttendance =>
                  [(recordId record, format_sessions record studentAttendance)]
              | None => []
              end)
           attendanceRecords.

(* ------------------------------------------------------------------ *)
(** * The roster of a class section ([ClassSection.model.js]) *)

(** An element of [students], with all its fields. *)
Record SectionStudent : Type := mkSectionStudent {
  ss_studentId : ObjectId;
  ss_enrolledAt : Z;
  ss_status : string;
  ss_withdrawnAt : option Z
}.

(** [student => student.studentId.toString() === studentId.toString()] *)
Definition is_member (studentId : ObjectId) (student : SectionStudent) : bool :=
  String.eqb (ss_studentId student) studentId.

(** [addStudent(studentId)] on [this.students], at time [now]. *)
Definition addStudent (students : list SectionStudent) (studentId : ObjectId) (now : Z)
  : list SectionStudent :=
  match find (is_member studentId) students with
  | Some existingStudent =>
      if negb (String.eqb (ss_status existingStudent) "active")
      then update_first (is_member studentId)
             (fun s => mkSectionStudent (ss_studentId s) now "active" None) students
      else students
  | None => (students ++ [mkSectionStudent studentId now "active" None])%list
  end.

(** [removeStudent(studentId, reason)] (the caller's default for [reason] is
    'withdrawn'). *)
Definition removeStudent (students : list SectionStudent) (studentId : ObjectId)
  (reason : string) (now : Z) : list SectionStudent :=
  match find (is_member studentId) students with
  | Some _ =>
      update_first (is_member studentId)
        (fun s => mkSectionStudent (ss_studentId s) (ss_enrolledAt s)
                    (if String.eqb reason "transferred" then "transferred"
                     else "withdrawn")
                    (Some now))
        students
  | None => students
  end.

Definition is_active (s : SectionStudent) : bool := String.eqb (ss_status s) "active".

Definition getActiveStudentCount (students : list SectionStudent) : Z :=
  Z.of_nat (List.length (filter is_active students)).

Definition getTotalStudentCount (students : list SectionStudent) : Z :=
  Z.of_nat (List.length students).

Definition getActiveStudents (students : list SectionStudent) : list SectionStudent :=
  filter is_active students.

(** The part of the roster the teacher handlers read. *)
Definition roster_of (students : list SectionStudent) : list RosterEntry :=
  map (fun s => mkRosterEntry (ss_studentId s) (ss_status s)) students.

(** The class section with the roster [roster]. *)
Definition with_roster (classSection : ClassSection) (roster : list RosterEntry)
  : ClassSection :=
  mkClassSection (cs_id classSection) (cs_subjectId classSection)
    (cs_teacherId classSection) (cs_semester classSection)
    (cs_sectionName classSection) roster (cs_isActive classSection).

(* ------------------------------------------------------------------ *)
(** * Time utilities ([dateUtils.js]) *)

(** A character class given by its members, as [[01]]. *)
Definition one_of (chars : string) (c : ascii) : bool :=
  existsb (Ascii.eqb c) (list_ascii_of_string chars).

(** [isValidTimeString(s)]: [/^([01]\d|2[0-3]):([0-5]\d)$/.test(s)] *)
Definition isValidTimeString (s : string) : bool :=
  match s with
  | String h1 (String h2 (String c (String m1 (String m2 EmptyString)))) =>
      ((one_of "01" h1 && is_digit h2)
       || (Ascii.eqb h1 "2" && one_of "0123" h2))
      && Ascii.eqb c ":"
      && one_of "012345" m1 && is_digit m2
  | _ => false
  end.

(** [formatTime(date)]: date-fns [format(date, 'HH:mm')], the local hours
    and minutes on two digits each; [None] when the date is invalid and
    [formatTime] throws. *)
Definition formatTime (zone : Zone) (date : JSDate.t) : option string :=
  match date with
  | Some _ => Some (clockString zone date)
  | None => None
  end.

(** [calculateEndTime(startTime, durationMinutes)] for a whole number of
    minutes, called at the moment and in the zone of [clock]; [None] when it
    throws. *)
Definition calculateEndTime (clock : Clock) (startTime : string) (durationMinutes : Z)
  : option string :=
  let startDate :=
    match parse_hour_minute startTime with
    | Some (hours, minutes) =>
        JSDate.setHours (zone clock) (JSDate.current clock) hours minutes
    | None => None
    end in
  let endDate :=
    JSDate.of_value
      (option_map (fun t => t + durationMinutes * 60 * 1000) (JSDate.getTime startDate)) in
  formatTime (zone clock) endDate.

(* ------------------------------------------------------------------ *)
(** * Enrolment ([Student.model.js]) *)

(** An element of [enrolledSubjects], with all its fields. *)
Record Enrollment : Type := mkEnrollment {
  en_subjectId : ObjectId;
  en_semesterNumber : Z;
  en_enrolledAt : Z
}.

(** [enrollInSubject(subjectId, semesterNumber)] on [this.enrolledSubjects],
    at time [now]. *)
Definition enrollInSubject (enrollments : list Enrollment) (subjectId : ObjectId)
  (semesterNumber : Z) (now : Z) : list Enrollment :=
  let alreadyEnrolled :=
    existsb (fun enrollment => String.eqb (en_subjectId enrollment) subjectId)
            enrollments in
  if negb alreadyEnrolled
  then (enrollments ++ [mkEnrollment subjectId semesterNumber now])%list
  else enrollments.

(** The student with the enrolments [enrollments] (the handlers read the
    subject ids). *)
Definition with_enrollments (student : Student) (enrollments : list Enrollment)
  : Student :=
  mkStudent (st_id student) (st_name student) (st_prn student)
    (map en_subjectId enrollments).

(* ------------------------------------------------------------------ *)
(** * getAttendanceBySubject as a handler ([studentController.js]) *)

Inductive SubjectViewError : Type :=
| SvStudentProfileNotFound
| SvNotEnrolled
| SvSubjectNotFound
| SvStartDateFormat
| SvEndDateFormat.

Definition sv_status (e : SubjectViewError) : Z :=
  match e with
  | SvStudentProfileNotFound | SvSubjectNotFound => HTTP_STATUS.NOT_FOUND
  | SvNotEnrolled => HTTP_STATUS.FORBIDDEN
  | _ => HTTP_STATUS.BAD_REQUEST
  end.

(** The [data] of the response: the subject, the summary and the formatted
    records (each with its record id and the student's sessions). *)
Record SubjectView : Type := mkSubjectView {
  sv_subject : Subject;
  sv_summary : Summary;
  sv_records : list (string * list FormattedSession)
}.

Section StudentViews.

Variable parseDate : string -> option Z.

(** [Student.findOne({ userId })] and [Subject.findById(subjectId)] on the
    students and subjects collections. *)
Variable Student_findOne : ObjectId -> option Student.
Variable Subject_findById : ObjectId -> option Subject.

Definition getAttendanceBySubject (userId : ObjectId) (subjectId : ObjectId)
  (startDate endDate : string) : M SubjectViewError SubjectView :=
  match Student_findOne userId with
  | None => sendError SvStudentProfileNotFound
  | Some student =>
  let isEnrolled :=
    existsb (fun enrollment => String.eqb enrollment subjectId)
            (enrolledSubjects student) in
  reject_if (negb isEnrolled) SvNotEnrolled ;;;
  match Subject_findById subjectId with
  | None => sendError SvSubjectNotFound
  | Some subject =>
  gte <~ (if truthy startDate
          then match parseDate startDate with
               | Some parsedStartDate => ret (Some parsedStartDate)
               | None => sendError SvStartDateFormat
               end
          else ret None) ;;
  lte <~ (if truthy endDate
          then match parseDate endDate with
               | Some parsedEndDate => ret (Some parsedEndDate)
               | None => sendError SvEndDateFormat
               end
          else ret None) ;;
  fun db =>
    let attendanceRecords :=
      sort_records
        (filter (matches_query subjectId (st_id student) gte lte)
                (attendanceRecords db)) in
    (Ok (mkSubjectView subject
           (attendanceSummary attendanceRecords (st_id student))
           (formattedRecords attendanceRecords (st_id student))),
     db)
  end end.

End StudentViews.

(* ------------------------------------------------------------------ *)
(** * bulkAddStudentsToSection ([adminController.js]) *)

(** The [results] object. *)
Record BulkResults : Type := mkBulkResults {
  added : list ObjectId;
  alreadyAdded : list ObjectId;
  notFound : list ObjectId;
  maxCapacityReached : bool
}.

(** The [for (const studentId of studentIds)] loop on the section's roster.
    [addStudent] has no [throw], so the [catch] clause, the only place that
    writes [alreadyAdded] and [maxCapacityReached], is never entered.  The
    instants of the calls are taken as one, [now]. *)
Fixpoint bulk_add_loop (studentIds : list ObjectId) (roster : list SectionStudent)
  (results : BulkResults) (now : Z) (db : Database)
  : list SectionStudent * BulkResults :=
  match studentIds with
  | [] => (roster, results)
  | studentId :: rest =>
      match find (fun s => String.eqb (st_id s) studentId) (students db) with
      | None =>
          bulk_add_loop rest roster
            (mkBulkResults (added results) (alreadyAdded results)
               (notFound results ++ [studentId]) (maxCapacityReached results))
            now db
      | Some student =>
          bulk_add_loop rest (addStudent roster studentId now)
            (mkBulkResults (added results ++ [st_id student]) (alreadyAdded results)
               (notFound results) (maxCapacityReached results))
            now db
      end
  end.

(** The roster that is saved and the results that are sent, for a section
    that exists and a non-empty [studentIds]. *)
Definition bulkAddStudents (studentIds : list ObjectId) (roster : list SectionStudent)
  (now : Z) (db : Database) : list SectionStudent * BulkResults :=
  bulk_add_loop studentIds roster (mkBulkResults [] [] [] false) now db.

(* ------------------------------------------------------------------ *)
(** * Further notions *)

(** ** Errors of a handler *)

(** Every error [m] can end in satisfies [P]. *)
Definition errs_in {E A} (P : E -> Prop) (m : M E A) : Prop :=
  forall db e db', m db = (Err e, db') -> P e.

(** The rejection "is missing session number(s) ...". *)
Definition is_missing_error (e : MarkError) : bool :=
  match e with
  | MissingSessionNumbers _ _ => true
  | _ => false
  end.

(** The entry [validate_sessions] builds for an accepted request entry. *)
Definition accepted_entry (n : Z) (a : AttendanceInput) : StudentAttendance :=
  mkStudentAttendance (in_studentId a) (in_sessions a)
    (count_status ATTENDANCE_STATUS.PRESENT (in_sessions a))
    (count_status ATTENDANCE_STATUS.ABSENT (in_sessions a))
    (JSNumber.percentage (count_status ATTENDANCE_STATUS.PRESENT (in_sessions a)) n).

(** The student and the session numbers of an entry, and those of all the
    entries of a record. *)
Definition entry_shape (sa : StudentAttendance) : ObjectId * list Z :=
  (sa_studentId sa, map sessionNumber (sa_sessions sa)).

Definition record_shape (r : AttendanceRecord) : list (ObjectId * list Z) :=
  map entry_shape (attendance r).

(** The fields that are set on creation and that no code path assigns
    again. *)
Definition immutable_fields (r : AttendanceRecord)
  : string * ObjectId * ObjectId * ObjectId * Z * Z * Z * ObjectId * Z :=
  (recordId r, rec_subjectId r, rec_teacherId r, rec_classSectionId r, rec_date r,
   rec_semester r, numSessions r, markedBy r, markedAt r).

(** [r'] differs from [r] at most in the statuses and derived totals of its
    entries and in the two modification fields. *)
Definition status_edit_of (r r' : AttendanceRecord) : Prop :=
  immutable_fields r' = immutable_fields r
  /\ record_shape r' = record_shape r
  /\ startTime r' = startTime r /\ endTime r' = endTime r
  /\ sessionBreakdown r' = sessionBreakdown r
  /\ isFinalized r' = isFinalized r.

(** ** Invariants of the stored records *)

(** Every entry of the record has the session numbers 1..numSessions, each
    once, in some order. *)
Definition sessions_complete (r : AttendanceRecord) : Prop :=
  Forall (fun sa => Permutation (map sessionNumber (sa_sessions sa))
                      (expectedSessions (numSessions r)))
         (attendance r).

(** The two times are well formed, the number of sessions is in its range
    and the stored breakdown is the one [generateSessionBreakdown] gives for
    them, at some call whose clock satisfies [P]. *)
Definition schedule_ok (P : Clock -> Prop) (r : AttendanceRecord) : Prop :=
  timeRegex_test (startTime r) = true
  /\ timeRegex_test (endTime r) = true
  /\ 1 <= numSessions r <= MAX_SESSIONS_PER_CLASS
  /\ exists clock,
       P clock
       /\ sessionBreakdown r
          = generateSessionBreakdown clock (startTime r) (endTime r) (numSessions r).

Definition record_wf (P : Clock -> Prop) (r : AttendanceRecord) : Prop :=
  sessions_complete r /\ schedule_ok P r.

(** No two stored records share a [recordId]. *)
Definition unique_ids (db : Database) : Prop :=
  NoDup (map recordId (attendanceRecords db)).

Definition db_wf (P : Clock -> Prop) (db : Database) : Prop :=
  unique_ids db /\ Forall (record_wf P) (attendanceRecords db).

(** A patch that moves the start of the class to 14:00, and the store after
    teacher 1 has applied it to the sample record. *)
Definition retime_patch : EditPatch := mkPatch None "14:00" "" false.

Definition db_retimed : Database :=
  snd (editAttendanceRecord sample_clock "u1" sample_recordId retime_patch db_marked).

(** ** Effects of the model's methods *)

(** The entry of a record with [n] sessions once its sessions are
    [sessions'] and its totals have been recomputed from them. *)
Definition recomputed (n : Z) (sessions' : list Session) (sa : StudentAttendance)
  : StudentAttendance :=
  mkStudentAttendance (sa_studentId sa) sessions'
    (count_status ATTENDANCE_STATUS.PRESENT sessions')
    (count_status ATTENDANCE_STATUS.ABSENT sessions')
    (JSNumber.percentage (count_status ATTENDANCE_STATUS.PRESENT sessions') n).

(** The record with the (first) entry of the student so replaced. *)
Definition with_sessions (this : AttendanceRecord) (studentId : ObjectId)
  (sessions' : list Session) : AttendanceRecord :=
  set_attendance this
    (update_first (is_student studentId) (recomputed (numSessions this) sessions')
       (attendance this)).

(** The status [sessions.find(s => s.sessionNumber === k)] carries. *)
Definition status_at (k : Z) (sessions : list Session) : option string :=
  option_map status (find (fun s => sessionNumber s =? k) sessions).

(** The last element of [sessionsData] that names session [k]. *)
Definition last_update (k : Z) (sessionsData : list Session) : option Session :=
  find (fun u => sessionNumber u =? k) (List.rev sessionsData).

(** A session update that passes the checks of [updateStudentAllSessions]. *)
Definition update_ok (u : Session) : Prop :=
  sessionNumber u <> 0 /\ valid_status (status u).

(** A student update [updateAttendance] does not reject on the record [r]:
    the id is there, the student is in the record, and the session updates
    are a non-empty list of well-formed updates. *)
Definition student_update_ok (r : AttendanceRecord) (a : AttendanceInput) : Prop :=
  in_studentId a <> ""
  /\ contains_student (in_studentId a) r = true
  /\ in_sessions a <> []
  /\ Forall update_ok (in_sessions a).

(** ** Reading the records *)

(** A date bound of the query: [Some None] when the parameter is absent,
    [Some (Some d)] when it parses to the day [d], [None] when it does not
    parse. *)
Definition view_bound (parseDate : string -> option Z) (s : string)
  : option (option Z) :=
  if truthy s then option_map Some (parseDate s) else Some None.

(** The query asking for page [p] of the same selection. *)
Definition with_page (q : ViewQuery) (p : Z) : ViewQuery :=
  mkViewQuery (q_classSectionId q) (q_subjectId q) (q_startDate q) (q_endDate q)
    p (q_limit q).

(** The records a response carries (none when the handler answers an error). *)
Definition records_of {E} (out : Result E ViewResponse * Database)
  : list AttendanceRecord :=
  match fst out with
  | Ok resp => v_records resp
  | Err _ => []
  end.

(** A store with three records of teacher 1, and the query for pages of
    two records. *)
Definition db_three : Database :=
  mkDatabase [teacher1; teacher2] [] []
    [sample_record "R1" 2 1; sample_record "R2" 3 1; sample_record "R3" 1 1].

Definition pages_of_two : ViewQuery := mkViewQuery "" "" "" "" 1 2.

(** ** The routes *)

(** Each of the five teacher routes is answered by the gate with [status],
    the store staying as it is. *)
Definition gate_answers (parseDate : string -> option Z) (formatDate : Z -> string)
  (status : Z) (user : option User) (db : Database) : Prop :=
  (forall clock req,
      post_attendance parseDate formatDate clock req user db = (Err (Gate status), db))
  /\ (forall q, get_attendance parseDate q user db = (Err (Gate status), db))
  /\ (forall clock rid patch,
         patch_attendance clock rid patch user db = (Err (Gate status), db))
  /\ get_classes user db = (Err (Gate status), db)
  /\ (forall csid, get_class_students csid user db = (Err (Gate status), db)).

(** An administrator who has no teacher profile. *)
Definition admin_user : User := mkUser "admin1" USER_ROLES.ADMIN.

(** ** Rosters *)

(** The entry of the student on the roster, if any. *)
Definition member (studentId : ObjectId) (students : list SectionStudent)
  : option SectionStudent :=
  find (is_member studentId) students.

(** The student is on the roster as an active member. *)
Definition active_member (studentId : ObjectId) (students : list SectionStudent) : bool :=
  match member studentId students with
  | Some s => is_active s
  | None => false
  end.

(** No student has two entries, and an active entry has no withdrawal time. *)
Definition roster_ok (students : list SectionStudent) : Prop :=
  NoDup (map ss_studentId students)
  /\ Forall (fun s => is_active s = true -> ss_withdrawnAt s = None) students.

(** A roster with one active and one withdrawn student. *)
Definition sample_roster : list SectionStudent :=
  [mkSectionStudent "s1" 100 "active" None;
   mkSectionStudent "s2" 100 "withdrawn" (Some 200)].

(** ** What a student is shown *)

(** The formatted record of [r] for the student: the sessions of the
    student's own entry (none when the record has no such entry). *)
Definition own_sessions (student_id : ObjectId) (r : AttendanceRecord)
  : string * list FormattedSession :=
  (recordId r,
   match find (is_student student_id) (attendance r) with
   | Some sa => format_sessions r sa
   | None => []
   end).

(** Sample lookups: user "su1" is student 1; the only subject is subject 1. *)
Definition sample_Student_findOne (userId : ObjectId) : option Student :=
  if String.eqb userId "su1" then Some student1 else None.

Definition sample_Subject_findById (subjectId : ObjectId) : option Subject :=
  if String.eqb subjectId (subj_id subject1) then Some subject1 else None.

(** ** Bulk additions *)

(** [Student.findById(studentId)] finds a student. *)
Definition student_exists (db : Database) (studentId : ObjectId) : bool :=
  existsb (fun s => String.eqb (st_id s) studentId) (students db).

(* ================================================================== *)
(** * Properties *)

(** ** Time strings and the session breakdown *)

Lemma digit_between_In (lo hi : nat) (c : ascii) :
  digit_between lo hi c = true ->
  In c (map (fun d => ascii_of_nat (48 + d)) (seq lo (hi - lo + 1))).
Proof.
  unfold digit_between. intros H.
  apply andb_true_iff in H. destruct H as [H1 H2].
  apply Nat.leb_le in H1. apply Nat.leb_le in H2.
  apply in_map_iff. exists (nat_of_ascii c - 48)%nat. split.
  - replace (48 + (nat_of_ascii c - 48))%nat with (nat_of_ascii c) by lia.
    apply ascii_nat_embedding.
  - apply in_seq. lia.
Qed.

Lemma is_digit_In (c : ascii) :
  is_digit c = true -> In c (map (fun d => ascii_of_nat (48 + d)) (seq 0 10)).
Proof. intros H. apply (digit_between_In 0 9 c). exact H. Qed.

Lemma regex_strings_read_back :
  forallb (fun h1 => forallb (fun h2 => forallb (fun m1 => forallb (fun m2 =>
    implb (timeRegex_test (hhmm h1 h2 m1 m2)) (reads_back (hhmm h1 h2 m1 m2)))
    (digit_chars 0 10)) (digit_chars 0 6)) (digit_chars 0 10)) (digit_chars 0 3)
  = true.
Proof. vm_compute. reflexivity. Qed.

Lemma timeRegex_reads_back (s : string) :
  timeRegex_test s = true -> reads_back s = true.
Proof.
  intros H.
  destruct s as [|h1 [|h2 [|c [|m1 [|m2 [|x s]]]]]]; try discriminate H.
  assert (Hs := H). cbn [timeRegex_test] in H.
  repeat (apply andb_true_iff in H; destruct H as [H ?]).
  assert (Hc : c = ":"%char) by (apply Ascii.eqb_eq; assumption). subst c.
  assert (Hh1 : In h1 (digit_chars 0 3)).
  { apply orb_true_iff in H. destruct H as [H | H];
      apply andb_true_iff in H; destruct H as [Ha Hb].
    - apply (digit_between_In 0 1) in Ha. cbn in Ha |- *. tauto.
    - apply Ascii.eqb_eq in Ha. subst h1. cbn. tauto. }
  assert (Hh2 : In h2 (digit_chars 0 10)).
  { apply orb_true_iff in H. destruct H as [H | H];
      apply andb_true_iff in H; destruct H as [Ha Hb].
    - apply is_digit_In. assumption.
    - apply (digit_between_In 0 3) in Hb. cbn in Hb |- *. tauto. }
  assert (Hm1 : In m1 (digit_chars 0 6)) by (apply (digit_between_In 0 5); assumption).
  assert (Hm2 : In m2 (digit_chars 0 10)) by (apply is_digit_In; assumption).
  pose proof regex_strings_read_back as A.
  rewrite forallb_forall in A. specialize (A h1 Hh1).
  rewrite forallb_forall in A. specialize (A h2 Hh2).
  rewrite forallb_forall in A. specialize (A m1 Hm1).
  rewrite forallb_forall in A. specialize (A m2 Hm2).
  unfold hhmm in A. rewrite Hs in A. exact A.
Qed.

Lemma timeRegex_minutes (s : string) :
  timeRegex_test s = true ->
  exists k, minutes_of s = Some k /\ 0 <= k < 1440 /\ timeString k = s.
Proof.
  intros H. apply timeRegex_reads_back in H. unfold reads_back in H.
  destruct (minutes_of s) as [k|]; [|discriminate].
  exists k. repeat (apply andb_true_iff in H; destruct H as [H ?]).
  apply String.eqb_eq in H0. split; [reflexivity|]. split; [lia | assumption].
Qed.

Lemma timeString_mod (t : Z) : timeString t = timeString (t mod 1440).
Proof.
  unfold timeString.
  assert (E1 : (t mod 1440) mod 60 = t mod 60)
    by (Z.to_euclidean_division_equations; lia).
  assert (E2 : (t mod 1440 / 60) mod 24 = (t / 60) mod 24)
    by (Z.to_euclidean_division_equations; lia).
  rewrite E1, E2. reflexivity.
Qed.

Lemma minutes_of_timeString_day :
  forallb (fun k => match minutes_of (timeString k) with
                    | Some m => m =? k
                    | None => false
                    end)
          (map Z.of_nat (seq 0 1440)) = true.
Proof. vm_compute. reflexivity. Qed.

Lemma minutes_of_timeString (t : Z) :
  minutes_of (timeString t) = Some (t mod 1440).
Proof.
  rewrite timeString_mod.
  assert (Hb : 0 <= t mod 1440 < 1440) by (apply Z.mod_pos_bound; lia).
  pose proof minutes_of_timeString_day as A.
  rewrite forallb_forall in A.
  specialize (A (t mod 1440)).
  assert (Hin : In (t mod 1440) (map Z.of_nat (seq 0 1440))).
  { apply in_map_iff. exists (Z.to_nat (t mod 1440)). split; [lia|].
    apply in_seq. lia. }
  specialize (A Hin).
  destruct (minutes_of (timeString (t mod 1440))) as [m|]; [|discriminate].
  apply Z.eqb_eq in A. congruence.
Qed.

(** ** Dates in the server's zone *)

Lemma time_value_components (t : Z) :
  MakeDate (Day t)
    (MakeTime (HourFromTime t) (MinFromTime t) (SecFromTime t) (msFromTime t)) = t.
Proof.
  unfold MakeDate, MakeTime, Day, HourFromTime, MinFromTime, SecFromTime, msFromTime,
    msPerDay, msPerHour, msPerMinute, msPerSecond.
  Z.to_euclidean_division_equations; lia.
Qed.

Lemma setMinutes_local (t m : Z) :
  MakeDate (Day t) (MakeTime (HourFromTime t) m (SecFromTime t) (msFromTime t))
  = t + (m - MinFromTime t) * msPerMinute.
Proof.
  pose proof (time_value_components t) as H.
  unfold MakeDate, MakeTime, msPerMinute in *. lia.
Qed.

(** The hours and minutes of a whole number of minutes after a midnight. *)
Lemma local_reading (D T : Z) :
  HourFromTime (D * msPerDay + T * msPerMinute) = (T / 60) mod 24
  /\ MinFromTime (D * msPerDay + T * msPerMinute) = T mod 60.
Proof.
  unfold HourFromTime, MinFromTime, msPerDay, msPerHour, msPerMinute.
  split; Z.to_euclidean_division_equations; lia.
Qed.

Lemma clockString_reading zone c D T :
  LocalTZA_utc zone (D * msPerDay + T * msPerMinute - c) = c ->
  clockString zone (Some (D * msPerDay + T * msPerMinute - c)) = timeString T.
Proof.
  intros H. unfold clockString, JSDate.getHours, JSDate.getMinutes, LocalTime.
  rewrite H.
  replace (D * msPerDay + T * msPerMinute - c + c)
    with (D * msPerDay + T * msPerMinute) by lia.
  destruct (local_reading D T) as [-> ->]. reflexivity.
Qed.

Lemma TimeClip_in_range (t : Z) : Z.abs t <= maxTimeValue -> TimeClip t = Some t.
Proof.
  intros H. unfold TimeClip. destruct (Z.leb_spec (Z.abs t) maxTimeValue); [reflexivity|lia].
Qed.

Lemma TimeClip_out_of_range (t : Z) : maxTimeValue < Z.abs t -> TimeClip t = None.
Proof.
  intros H. unfold TimeClip. destruct (Z.leb_spec (Z.abs t) maxTimeValue); [lia|reflexivity].
Qed.


Lemma breakdown_loop_numbers zone (k : nat) :
  forall i d,
    map slot_sessionNumber (breakdown_loop zone k i d)
    = map (fun j => i + Z.of_nat j) (seq 0 k).
Proof.
  induction k as [|k IH]; intros i d; [reflexivity|].
  cbn [breakdown_loop map seq slot_sessionNumber]. rewrite IH.
  f_equal; [lia|].
  rewrite <- seq_shift, map_map. apply map_ext. intros; lia.
Qed.


Lemma generateSessionBreakdown_numbers clock startTime endTime numSessions :
  map slot_sessionNumber (generateSessionBreakdown clock startTime endTime numSessions)
  = expectedSessions numSessions.
Proof.
  unfold generateSessionBreakdown. rewrite breakdown_loop_numbers.
  unfold expectedSessions. rewrite <- seq_shift, map_map. apply map_ext. intros; lia.
Qed.

(** Slot [j] of the wall-clock slots started at number [i] and minute [t]
    is the clock reading of the minutes [t + 45 j] and [t + 45 (j + 1)]. *)
Lemma wall_slots_nth (k : nat) :
  forall (i : Z) (t : Z) (j : nat),
    (j < k)%nat ->
    nth_error (wall_slots k i t) j
    = Some (mkSlot (i + Z.of_nat j)
                   (timeString (t + SESSION_DURATION * Z.of_nat j))
                   (timeString (t + SESSION_DURATION * (Z.of_nat j + 1)))).
Proof.
  induction k as [|k IH]; intros i t j Hj; [lia|].
  cbn [wall_slots].
  destruct j as [|j].
  - cbn [nth_error].
    replace (i + Z.of_nat 0) with i by lia.
    replace (t + SESSION_DURATION * Z.of_nat 0) with t by lia.
    replace (t + SESSION_DURATION * (Z.of_nat 0 + 1)) with (t + SESSION_DURATION) by lia.
    reflexivity.
  - cbn [nth_error]. rewrite IH by lia.
    replace (i + 1 + Z.of_nat j) with (i + Z.of_nat (S j)) by lia.
    replace (t + SESSION_DURATION + SESSION_DURATION * Z.of_nat j)
      with (t + SESSION_DURATION * Z.of_nat (S j)) by lia.
    replace (t + SESSION_DURATION + SESSION_DURATION * (Z.of_nat j + 1))
      with (t + SESSION_DURATION * (Z.of_nat (S j) + 1)) by lia.
    reflexivity.
Qed.

Lemma wall_slots_length (k : nat) :
  forall i t, List.length (wall_slots k i t) = k.
Proof.
  induction k as [|k IH]; intros i t; cbn; [reflexivity|]. now rewrite IH.
Qed.

(** While the offset stays [c], the loop reads a wall clock. *)
Lemma breakdown_loop_steady zone c D (k : nat) :
  forall i T,
    (forall tl,
        D * msPerDay + T * msPerMinute <= tl
        <= D * msPerDay + (T + SESSION_DURATION * Z.of_nat k) * msPerMinute ->
        LocalTZA_local zone tl = c
        /\ LocalTZA_utc zone (tl - c) = c
        /\ Z.abs (tl - c) <= maxTimeValue) ->
    breakdown_loop zone k i (Some (D * msPerDay + T * msPerMinute - c))
    = wall_slots k i T.
Proof.
  induction k as [|k IH]; intros i T H; [reflexivity|].
  destruct (H (D * msPerDay + T * msPerMinute)) as (L0 & U0 & R0);
    [unfold SESSION_DURATION, msPerMinute; lia|].
  destruct (H (D * msPerDay + (T + SESSION_DURATION) * msPerMinute)) as (L1 & U1 & R1);
    [unfold SESSION_DURATION, msPerMinute; lia|].
  assert (Enext :
            JSDate.setMinutes zone (Some (D * msPerDay + T * msPerMinute - c))
              (option_map (fun m => m + SESSION_DURATION)
                 (JSDate.getMinutes zone (Some (D * msPerDay + T * msPerMinute - c))))
            = Some (D * msPerDay + (T + SESSION_DURATION) * msPerMinute - c)).
  { unfold JSDate.setMinutes, JSDate.getMinutes, option_map, LocalTime. rewrite U0.
    replace (D * msPerDay + T * msPerMinute - c + c)
      with (D * msPerDay + T * msPerMinute) by lia.
    rewrite setMinutes_local.
    replace (D * msPerDay + T * msPerMinute
             + (MinFromTime (D * msPerDay + T * msPerMinute) + SESSION_DURATION
                - MinFromTime (D * msPerDay + T * msPerMinute)) * msPerMinute)
      with (D * msPerDay + (T + SESSION_DURATION) * msPerMinute) by lia.
    unfold UTC. rewrite L1. now apply TimeClip_in_range. }
  cbn [breakdown_loop wall_slots]. cbv zeta. rewrite Enext.
  rewrite (clockString_reading zone c D T U0), (clockString_reading zone c D _ U1).
  f_equal. apply IH. intros tl Htl. apply H.
  rewrite Nat2Z.inj_succ. unfold SESSION_DURATION, msPerMinute in *. lia.
Qed.

Lemma steady_sub clock c lo hi lo' hi' :
  steady clock c lo hi -> lo <= lo' -> hi' <= hi -> steady clock c lo' hi'.
Proof.
  intros (H2 & H3) Hlo Hhi. split; [exact H2|].
  intros tl Htl. apply H3. unfold msPerMinute in *. lia.
Qed.

(** What [setHours] makes of [new Date()] when no clock change hides the
    time asked for. *)
Lemma setHours_steady clock c h m :
  steady clock c (h * 60 + m) (h * 60 + m) ->
  JSDate.setHours (zone clock) (JSDate.current clock) h m
  = Some (Day (LocalTime (zone clock) (now clock)) * msPerDay
          + (h * 60 + m) * msPerMinute - c).
Proof.
  intros (H2 & H3).
  unfold JSDate.current. rewrite (TimeClip_in_range _ H2).
  unfold JSDate.setHours.
  assert (E : MakeDate (Day (LocalTime (zone clock) (now clock))) (MakeTime h m 0 0)
              = local_midnight clock + (h * 60 + m) * msPerMinute).
  { unfold MakeDate, MakeTime, local_midnight, msPerHour, msPerMinute, msPerSecond. lia. }
  rewrite E.
  destruct (H3 (local_midnight clock + (h * 60 + m) * msPerMinute)) as (L & _ & R);
    [lia|].
  unfold UTC. rewrite L. now apply TimeClip_in_range.
Qed.

(** In a steady zone [generateSessionBreakdown] returns the wall-clock
    slots from the start time on. *)
Lemma generateSessionBreakdown_steady clock c startTime endTime numSessions t0 :
  minutes_of startTime = Some t0 ->
  0 <= numSessions ->
  steady clock c t0 (t0 + SESSION_DURATION * numSessions) ->
  generateSessionBreakdown clock startTime endTime numSessions
  = wall_slots (Z.to_nat numSessions) 1 t0.
Proof.
  intros Hm Hn Hs. unfold generateSessionBreakdown. unfold minutes_of in Hm.
  destruct (parse_hour_minute startTime) as [[h m]|]; [|discriminate].
  injection Hm as Hm. subst t0.
  rewrite (setHours_steady clock c h m)
    by (apply (steady_sub _ _ _ _ _ _ Hs); unfold SESSION_DURATION; lia).
  apply breakdown_loop_steady. intros tl Htl.
  destruct Hs as (_ & H3). apply H3. unfold local_midnight.
  rewrite Z2Nat.id in Htl by lia. exact Htl.
Qed.

(** A zone without clock changes is steady over any two days. *)
Lemma offset_is_steady clock c lo hi :
  offset_is clock c -> - 2 * 1440 <= lo -> hi <= 4 * 1440 ->
  steady clock c lo hi.
Proof.
  intros (H1 & H2 & H3 & H4) Hlo Hhi.
  split; [unfold msPerDay in *; lia|].
  intros tl Htl. split; [apply H2|]. split; [apply H1|].
  unfold local_midnight, LocalTime in Htl. rewrite H1 in Htl.
  unfold Day, msPerDay, msPerMinute, maxTimeValue in *.
  Z.to_euclidean_division_equations. lia.
Qed.

Lemma fixed_offset_steady clock lo hi :
  fixed_offset clock -> 0 <= lo -> hi <= 2 * 1440 ->
  exists c, steady clock c lo hi.
Proof.
  intros (c & H) Hlo Hhi. exists c. apply offset_is_steady; [exact H|lia|lia].
Qed.

(** The breakdown for a start time in HH:MM format, slot by slot. *)
Lemma generateSessionBreakdown_partition_core
  (clock : Clock) (c : Z) (startTime endTime : string) (numSessions t0 : Z) :
  minutes_of startTime = Some t0 ->
  1 <= numSessions ->
  steady clock c t0 (t0 + SESSION_DURATION * numSessions) ->
  Z.of_nat (List.length (generateSessionBreakdown clock startTime endTime numSessions))
  = numSessions
  /\ (forall j,
        (j < List.length (generateSessionBreakdown clock startTime endTime numSessions))%nat ->
        nth_error (generateSessionBreakdown clock startTime endTime numSessions) j
        = Some (mkSlot (Z.of_nat j + 1)
                  (timeString (t0 + SESSION_DURATION * Z.of_nat j))
                  (timeString (t0 + SESSION_DURATION * Z.of_nat j + SESSION_DURATION))))
  /\ generateSessionBreakdown clock startTime endTime numSessions
     = wall_slots (Z.to_nat numSessions) 1 t0.
Proof.
  intros Hm Hn Hs.
  assert (Hb := generateSessionBreakdown_steady clock c startTime endTime numSessions t0
                  Hm ltac:(lia) Hs).
  rewrite Hb, wall_slots_length.
  split; [lia|]. split; [|reflexivity].
  intros j Hj. rewrite wall_slots_nth by lia.
  replace (1 + Z.of_nat j) with (Z.of_nat j + 1) by lia.
  replace (t0 + SESSION_DURATION * (Z.of_nat j + 1))
    with (t0 + SESSION_DURATION * Z.of_nat j + SESSION_DURATION)
    by (unfold SESSION_DURATION; lia).
  reflexivity.
Qed.

Lemma sample_clock_steady lo hi :
  0 <= lo -> hi <= 2 * 1440 -> steady sample_clock 19800000 lo hi.
Proof.
  intros Hlo Hhi. split; [vm_compute; discriminate|].
  intros tl Htl. split; [reflexivity|]. split; [reflexivity|].
  change (local_midnight sample_clock) with 1762473600000 in Htl.
  unfold msPerMinute, maxTimeValue in *. lia.
Qed.

Example breakdown_0900 :
  generateSessionBreakdown sample_clock "09:00" "10:30" 2
  = [mkSlot 1 "09:00" "09:45"; mkSlot 2 "09:45" "10:30"].
Proof. vm_compute. reflexivity. Qed.

(** Past midnight the printed times wrap. *)
Example breakdown_2330 :
  generateSessionBreakdown sample_clock "23:30" "10:30" 2
  = [mkSlot 1 "23:30" "00:15"; mkSlot 2 "00:15" "01:00"].
Proof. vm_compute. reflexivity. Qed.

(** On the night the clocks go from 02:00 to 03:00 the slot that spans the
    change ends 105 minutes after it starts on the printed times, and a
    class at 02:00 is given a first slot at 03:00; a class later that day is
    not affected. *)
Example breakdown_clock_change :
  generateSessionBreakdown dst_clock "01:30" "03:45" 3
  = [mkSlot 1 "01:30" "03:15"; mkSlot 2 "03:15" "04:00"; mkSlot 3 "04:00" "04:45"]
  /\ generateSessionBreakdown dst_clock "02:00" "02:45" 1
     = [mkSlot 1 "03:00" "03:45"]
  /\ generateSessionBreakdown dst_clock "09:00" "10:30" 2
     = [mkSlot 1 "09:00" "09:45"; mkSlot 2 "09:45" "10:30"].
Proof. repeat split; vm_compute; reflexivity. Qed.




(** ** Handlers that only read the store *)

Lemma pure_read_ret {E A} (a : A) : pure_read (@ret E A a).
Proof. intros db. reflexivity. Qed.

Lemma pure_read_sendError {E A} (e : E) : pure_read (@sendError E A e).
Proof. intros db. reflexivity. Qed.

Lemma pure_read_lift {E A} (r : Result E A) : pure_read (lift r).
Proof. intros db. reflexivity. Qed.

Lemma pure_read_reject_if {E} (c : bool) (e : E) : pure_read (reject_if c e).
Proof. intros db. unfold reject_if. destruct c; reflexivity. Qed.

Lemma pure_read_bind {E A B} (m : M E A) (k : A -> M E B) :
  pure_read m -> (forall a, pure_read (k a)) -> pure_read (bindM m k).
Proof.
  intros Hm Hk db. unfold bindM. specialize (Hm db).
  destruct (m db) as [[a|e] db1]; cbn in Hm; subst db1; [apply Hk | reflexivity].
Qed.

Lemma pure_read_err_preserves {E A} (m : M E A) : pure_read m -> err_preserves m.
Proof. intros H db e db' Hm. specialize (H db). rewrite Hm in H. now cbn in H. Qed.

Lemma err_preserves_bind {E A B} (m : M E A) (k : A -> M E B) :
  pure_read m -> (forall a, err_preserves (k a)) -> err_preserves (bindM m k).
Proof.
  intros Hm Hk db e db' H. unfold bindM in H. specialize (Hm db).
  destruct (m db) as [[a|e1] db1]; cbn in Hm; subst db1.
  - eapply Hk; eassumption.
  - now inversion H.
Qed.

Lemma pure_read_Teacher_findOne {E} u : pure_read (@Teacher_findOne u E).
Proof. intros db. reflexivity. Qed.

Lemma pure_read_ClassSection_findById {E} i : pure_read (@ClassSection_findById i E).
Proof. intros db. reflexivity. Qed.

Lemma pure_read_Student_findById {E} i : pure_read (@Student_findById i E).
Proof. intros db. reflexivity. Qed.

Lemma pure_read_AttendanceRecord_findOne {E} i : pure_read (@AttendanceRecord_findOne i E).
Proof. intros db. reflexivity. Qed.

Lemma err_preserves_create {E} (dup : E) doc :
  err_preserves (AttendanceRecord_create dup doc).
Proof.
  intros db e db' H. unfold AttendanceRecord_create in H.
  destruct (existsb _ _); now inversion H.
Qed.

Create HintDb readonly.

#[local] Hint Resolve pure_read_ret pure_read_sendError pure_read_lift
  pure_read_reject_if pure_read_Teacher_findOne pure_read_ClassSection_findById
  pure_read_Student_findById pure_read_AttendanceRecord_findOne : readonly.

Lemma pure_read_validate_student cs n a : pure_read (validate_student cs n a).
Proof.
  unfold validate_student.
  apply pure_read_bind; [auto with readonly|]. intros [student|]; [|auto with readonly].
  repeat (apply pure_read_bind; [auto with readonly | intros _]).
  auto with readonly.
Qed.

Lemma pure_read_validate_loop cs n attendance :
  forall acc, pure_read (validate_loop cs n attendance acc).
Proof.
  induction attendance as [|a rest IH]; intros acc; cbn [validate_loop].
  - auto with readonly.
  - apply pure_read_bind; [apply pure_read_validate_student | intros; apply IH].
Qed.

(** An entry the loop body rejects makes the whole loop end in an error. *)
Lemma validate_loop_rejects cs n attendance :
  forall acc db a,
    In a attendance ->
    is_ok (fst (validate_student cs n a db)) = false ->
    is_ok (fst (validate_loop cs n attendance acc db)) = false.
Proof.
  induction attendance as [|x rest IH]; intros acc db a Hin Hbad; [contradiction|].
  cbn [validate_loop]. unfold bindM.
  pose proof (pure_read_validate_student cs n x db) as Hp.
  destruct (validate_student cs n x db) as [[entry|e] db1] eqn:Hx; cbn in Hp; subst db1.
  - destruct Hin as [-> | Hin].
    + rewrite Hx in Hbad. discriminate.
    + eapply IH; eassumption.
  - reflexivity.
Qed.

(** The entries a successful loop appends are the results of the body, in
    order. *)
Lemma validate_loop_ok cs n attendance :
  forall acc db out db',
    validate_loop cs n attendance acc db = (Ok out, db') ->
    exists entries,
      out = (acc ++ entries)%list /\
      Forall2 (fun a entry => validate_student cs n a db = (Ok entry, db))
              attendance entries.
Proof.
  induction attendance as [|x rest IH]; intros acc db out db' H; cbn [validate_loop] in H.
  - inversion H; subst. exists []. split; [now rewrite app_nil_r | constructor].
  - unfold bindM in H.
    pose proof (pure_read_validate_student cs n x db) as Hp.
    destruct (validate_student cs n x db) as [[entry|e] db1] eqn:Hx; cbn in Hp; subst db1;
      [|discriminate].
    apply IH in H. destruct H as (entries & -> & HF).
    exists (entry :: entries). split; [now rewrite <- app_assoc | now constructor].
Qed.

Lemma bind_reject_ok {E B} (c : bool) (e : E) (k : unit -> M E B) db r db' :
  bindM (reject_if c e) k db = (Ok r, db') ->
  c = false /\ k tt db = (Ok r, db').
Proof.
  unfold bindM, reject_if. destruct c; cbn; [discriminate | auto].
Qed.

Lemma bind_reject_true {E B} (c : bool) (e : E) (k : unit -> M E B) db :
  c = true -> bindM (reject_if c e) k db = (Err e, db).
Proof. intros ->. reflexivity. Qed.

Lemma bind_reject_false {E B} (c : bool) (e : E) (k : unit -> M E B) db :
  c = false -> bindM (reject_if c e) k db = k tt db.
Proof. intros ->. reflexivity. Qed.

Lemma markAttendance_err_preserves parseDate formatDate clock userId req :
  err_preserves (markAttendance parseDate formatDate clock userId req).
Proof.
  unfold markAttendance. cbv zeta.
  repeat (apply err_preserves_bind; [auto with readonly | intros _]).
  apply err_preserves_bind; [auto with readonly | intros [teacher|]];
    [|apply pure_read_err_preserves; auto with readonly].
  apply err_preserves_bind; [auto with readonly | intros [cs|]];
    [|apply pure_read_err_preserves; auto with readonly].
  repeat (apply err_preserves_bind; [auto with readonly | intros _]).
  destruct (parseDate (req_date req)) as [d|];
    [|apply pure_read_err_preserves; auto with readonly].
  apply err_preserves_bind; [auto with readonly | intros _].
  apply err_preserves_bind; [apply pure_read_validate_loop | intros validated].
  apply err_preserves_create.
Qed.

(** What a successful [markAttendance] has checked and stored. *)
Lemma markAttendance_inversion parseDate formatDate clock userId req db r db' :
  markAttendance parseDate formatDate clock userId req db = (Ok r, db') ->
  exists teacher cs attendanceDate,
    find (fun t => String.eqb (t_userId t) userId) (teachers db) = Some teacher
    /\ find (fun c => String.eqb (cs_id c) (req_classSectionId req)) (classSections db)
       = Some cs
    /\ cs_isActive cs = true
    /\ cs_teacherId cs = t_id teacher
    /\ parseDate (req_date req) = Some attendanceDate
    /\ attendanceDate <= today clock
    /\ 1 <= req_numSessions req <= MAX_SESSIONS_PER_CLASS
    /\ timeRegex_test (req_startTime req) = true
    /\ timeRegex_test (req_endTime req) = true
    /\ Forall2 (fun a entry =>
                  validate_student cs (req_numSessions req) a db = (Ok entry, db))
               (req_attendance req) (attendance r)
    /\ r = mkRecord (uppercase (make_recordId formatDate clock attendanceDate cs))
             (subj_id (cs_subjectId cs)) (t_id teacher) (req_classSectionId req)
             attendanceDate (req_startTime req) (req_endTime req) (cs_semester cs)
             (req_numSessions req)
             (generateSessionBreakdown clock (req_startTime req) (req_endTime req)
                (req_numSessions req))
             (attendance r) (t_id teacher) (now clock) None None false
    /\ existsb (fun r0 => String.eqb (recordId r0) (recordId r)) (attendanceRecords db)
       = false
    /\ db' = set_attendanceRecords db (attendanceRecords db ++ [r]).
Proof.
  unfold markAttendance. cbv zeta. intros H.
  apply bind_reject_ok in H. destruct H as [C1 H].
  apply bind_reject_ok in H. destruct H as [C2 H].
  apply bind_reject_ok in H. destruct H as [C3 H].
  apply bind_reject_ok in H. destruct H as [C4 H].
  apply bind_reject_ok in H. destruct H as [C5 H].
  apply bind_reject_ok in H. destruct H as [C6 H].
  apply bind_reject_ok in H. destruct H as [C7 H].
  unfold bindM at 1 in H. unfold Teacher_findOne at 1 in H.
  destruct (find _ (teachers db)) as [teacher|] eqn:Ht; [|discriminate H].
  unfold bindM at 1 in H. unfold ClassSection_findById at 1 in H.
  destruct (find _ (classSections db)) as [cs|] eqn:Hc; [|discriminate H].
  apply bind_reject_ok in H. destruct H as [C8 H].
  apply bind_reject_ok in H. destruct H as [C9 H].
  destruct (parseDate (req_date req)) as [d|] eqn:Hd; [|discriminate H].
  apply bind_reject_ok in H. destruct H as [C10 H].
  unfold bindM at 1 in H.
  destruct (validate_loop cs (req_numSessions req) (req_attendance req) [] db)
    as [[validated|e] db1] eqn:Hl; [|discriminate H].
  pose proof (pure_read_validate_loop cs (req_numSessions req) (req_attendance req) [] db)
    as Hp. rewrite Hl in Hp. cbn in Hp. subst db1.
  apply validate_loop_ok in Hl. destruct Hl as (entries & -> & HF). cbn [app] in H.
  unfold AttendanceRecord_create in H. cbn [recordId] in H.
  destruct (existsb _ (attendanceRecords db)) eqn:Hex; [discriminate H|].
  inversion H; subst r db'; clear H. cbn [attendance recordId].
  exists teacher, cs, d.
  apply negb_false_iff in C3, C4, C8, C9.
  apply orb_false_iff in C2. destruct C2 as [C2a C2b].
  apply Z.ltb_ge in C2a, C2b, C10. apply String.eqb_eq in C9.
  repeat split; auto; lia.
Qed.

(** ** The checks on a sessions array *)

Lemma includes_values (s : string) :
  includes ATTENDANCE_STATUS.values s = true <-> valid_status s.
Proof.
  unfold includes, valid_status, ATTENDANCE_STATUS.values. cbn [existsb].
  rewrite !orb_true_iff, !String.eqb_eq. intuition discriminate.
Qed.

(** Decide the comparisons between the two status constants. *)
Ltac status_eqb :=
  change (String.eqb ATTENDANCE_STATUS.PRESENT ATTENDANCE_STATUS.PRESENT) with true in *;
  change (String.eqb ATTENDANCE_STATUS.ABSENT ATTENDANCE_STATUS.ABSENT) with true in *;
  change (String.eqb ATTENDANCE_STATUS.PRESENT ATTENDANCE_STATUS.ABSENT) with false in *;
  change (String.eqb ATTENDANCE_STATUS.ABSENT ATTENDANCE_STATUS.PRESENT) with false in *.

Lemma count_status_cons (st : string) (s : Session) (l : list Session) :
  count_status st (s :: l)
  = (if String.eqb (status s) st then 1 else 0) + count_status st l.
Proof.
  unfold count_status. cbn [filter].
  destruct (String.eqb (status s) st); cbn [List.length]; lia.
Qed.

Lemma count_status_nonneg st l : 0 <= count_status st l.
Proof. unfold count_status. lia. Qed.

(** With only valid statuses the two counts add up to the length. *)
Lemma count_status_total (l : list Session) :
  Forall (fun s => valid_status (status s)) l ->
  count_status ATTENDANCE_STATUS.PRESENT l + count_status ATTENDANCE_STATUS.ABSENT l
  = Z.of_nat (List.length l).
Proof.
  induction 1 as [|s l Hs _ IH]; [reflexivity|].
  rewrite !count_status_cons. cbn [List.length].
  destruct Hs as [Hs | Hs]; rewrite Hs; status_eqb; lia.
Qed.

Lemma count_sessions_ok studentId n (sessions : list Session) :
  forall p a p' a',
    count_sessions studentId n sessions p a = Ok (p', a') ->
    Forall (fun s => 1 <= sessionNumber s <= n /\ valid_status (status s)) sessions
    /\ p' = p + count_status ATTENDANCE_STATUS.PRESENT sessions
    /\ a' = a + count_status ATTENDANCE_STATUS.ABSENT sessions.
Proof.
  induction sessions as [|s rest IH]; intros p a p' a' H; cbn [count_sessions] in H.
  - inversion H; subst. unfold count_status. cbn. repeat split; [constructor | lia | lia].
  - destruct ((sessionNumber s <? 1) || (n <? sessionNumber s)) eqn:Hr; [discriminate|].
    destruct (includes ATTENDANCE_STATUS.values (status s)) eqn:Hv; [|discriminate].
    cbn [negb] in H.
    apply orb_false_iff in Hr. destruct Hr as [R1 R2].
    apply Z.ltb_ge in R1, R2. apply includes_values in Hv.
    rewrite !count_status_cons.
    destruct (String.eqb (status s) ATTENDANCE_STATUS.PRESENT) eqn:Hp.
    + apply IH in H. destruct H as (HF & -> & ->).
      split; [constructor; [split; [lia|assumption]|assumption]|].
      apply String.eqb_eq in Hp. rewrite Hp. status_eqb. split; lia.
    + apply IH in H. destruct H as (HF & -> & ->).
      split; [constructor; [split; [lia|assumption]|assumption]|].
      destruct Hv as [Hv | Hv]; [rewrite Hv in Hp; discriminate|].
      rewrite Hv. status_eqb. split; lia.
Qed.

Lemma count_sessions_total studentId n (sessions : list Session) :
  Forall (fun s => 1 <= sessionNumber s <= n /\ valid_status (status s)) sessions ->
  forall p a, exists p' a', count_sessions studentId n sessions p a = Ok (p', a').
Proof.
  induction 1 as [|s rest [Hr Hv] _ IH]; intros p a; cbn [count_sessions].
  - eauto.
  - replace ((sessionNumber s <? 1) || (n <? sessionNumber s)) with false
      by (symmetry; apply orb_false_iff; split; apply Z.ltb_ge; lia).
    apply includes_values in Hv. rewrite Hv. cbn [negb].
    destruct (String.eqb (status s) ATTENDANCE_STATUS.PRESENT); apply IH.
Qed.

(** The first rejection of the counting loop, when the numbers are in range,
    is a bad status. *)
Lemma count_sessions_err studentId n (sessions : list Session) :
  Forall (fun s => 1 <= sessionNumber s <= n) sessions ->
  forall p a e,
    count_sessions studentId n sessions p a = Err e ->
    exists s, In s sessions /\ ~ valid_status (status s)
              /\ e = StatusInvalid studentId (status s).
Proof.
  induction 1 as [|s rest Hr _ IH]; intros p a e H; cbn [count_sessions] in H;
    [discriminate|].
  replace ((sessionNumber s <? 1) || (n <? sessionNumber s)) with false in H
    by (symmetry; apply orb_false_iff; split; apply Z.ltb_ge; lia).
  destruct (includes ATTENDANCE_STATUS.values (status s)) eqn:Hv; cbn [negb] in H.
  - destruct (String.eqb (status s) ATTENDANCE_STATUS.PRESENT);
      apply IH in H; destruct H as (s0 & Hin & Hs0);
      exists s0; (split; [now right | exact Hs0]).
  - exists s. split; [now left|]. split; [|congruence].
    intros Hc. apply includes_values in Hc. congruence.
Qed.

Lemma nodup_length_le (l : list Z) :
  (List.length (nodup Z.eq_dec l) <= List.length l)%nat.
Proof.
  induction l as [|x l IH]; cbn; [lia|]. destruct (in_dec Z.eq_dec x l); cbn; lia.
Qed.

(** [new Set(l).size === l.length] exactly when [l] has no duplicate. *)
Lemma nodup_length_NoDup (l : list Z) :
  List.length (nodup Z.eq_dec l) = List.length l <-> NoDup l.
Proof.
  split.
  - induction l as [|x l IH]; intros H; [constructor|].
    cbn in H. destruct (in_dec Z.eq_dec x l) as [Hin|Hnin].
    + pose proof (nodup_length_le l). lia.
    + cbn in H. constructor; [assumption | apply IH; lia].
  - intros H. now rewrite nodup_fixed_point.
Qed.

Lemma In_expectedSessions (n k : Z) : In k (expectedSessions n) <-> 1 <= k <= n.
Proof.
  unfold expectedSessions. rewrite in_map_iff. split.
  - intros (j & <- & Hj). apply in_seq in Hj. lia.
  - intros H. exists (Z.to_nat k). split; [lia | apply in_seq; lia].
Qed.

Lemma NoDup_expectedSessions (n : Z) : NoDup (expectedSessions n).
Proof.
  unfold expectedSessions. apply Finite.Injective_map_NoDup; [|apply seq_NoDup].
  intros x y. apply Nat2Z.inj.
Qed.

Lemma missingSessions_nil (n : Z) (l : list Z) :
  missingSessions n l = [] <-> (forall k, 1 <= k <= n -> In k l).
Proof.
  unfold missingSessions. split.
  - intros H k Hk. apply In_expectedSessions in Hk.
    destruct (existsb (Z.eqb k) l) eqn:E.
    + apply existsb_exists in E. destruct E as (x & Hx & Ex).
      apply Z.eqb_eq in Ex. now subst.
    + assert (In k (filter (fun num => negb (existsb (Z.eqb num) l)) (expectedSessions n)))
        by (apply filter_In; split; [assumption | now rewrite E]).
      rewrite H in H0. contradiction.
  - intros H.
    destruct (filter _ (expectedSessions n)) as [|k rest] eqn:E; [reflexivity|].
    assert (Hin : In k (filter (fun num => negb (existsb (Z.eqb num) l))
                          (expectedSessions n))) by (rewrite E; now left).
    apply filter_In in Hin. destruct Hin as [Hk Hneg].
    apply In_expectedSessions in Hk. specialize (H k Hk).
    assert (existsb (Z.eqb k) l = true)
      by (apply existsb_exists; exists k; split; [assumption | apply Z.eqb_refl]).
    rewrite H0 in Hneg. discriminate.
Qed.

(** What a [sessions] array has passed when [validate_sessions] accepts it. *)
Lemma validate_sessions_inversion studentId n sessions entry :
  validate_sessions studentId n sessions = Ok entry ->
  Z.of_nat (List.length sessions) = n
  /\ Forall (fun s => 1 <= sessionNumber s <= n /\ valid_status (status s)) sessions
  /\ NoDup (map sessionNumber sessions)
  /\ (forall k, 1 <= k <= n -> In k (map sessionNumber sessions))
  /\ entry = mkStudentAttendance studentId sessions
               (count_status ATTENDANCE_STATUS.PRESENT sessions)
               (count_status ATTENDANCE_STATUS.ABSENT sessions)
               (JSNumber.percentage (count_status ATTENDANCE_STATUS.PRESENT sessions) n).
Proof.
  unfold validate_sessions. intros H.
  destruct (Z.of_nat (List.length sessions) =? n) eqn:Hlen; [|discriminate].
  cbn [negb] in H. apply Z.eqb_eq in Hlen.
  destruct (count_sessions studentId n sessions 0 0) as [[p a]|e] eqn:Hc; [|discriminate].
  cbn [bind fst snd] in H.
  destruct (Nat.eqb _ _) eqn:Hd; [|discriminate]. cbn [negb] in H.
  apply Nat.eqb_eq in Hd. symmetry in Hd. apply nodup_length_NoDup in Hd.
  destruct (Nat.ltb 0 _) eqn:Hm; [discriminate|]. apply Nat.ltb_ge in Hm.
  assert (Hnil : missingSessions n (map sessionNumber sessions) = [])
    by (destruct (missingSessions n (map sessionNumber sessions)); [reflexivity | cbn in Hm; lia]).
  apply count_sessions_ok in Hc. destruct Hc as (HF & -> & ->).
  inversion H; subst entry. cbn [Z.add].
  repeat split; try assumption. now apply missingSessions_nil.
Qed.

Lemma count_sessions_err_status studentId n sessions :
  forall p a e,
    count_sessions studentId n sessions p a = Err e ->
    mark_status e = HTTP_STATUS.BAD_REQUEST.
Proof.
  induction sessions as [|s rest IH]; intros p a e H; cbn [count_sessions] in H;
    [discriminate|].
  destruct ((sessionNumber s <? 1) || (n <? sessionNumber s));
    [inversion H; reflexivity|].
  destruct (negb (includes ATTENDANCE_STATUS.values (status s)));
    [inversion H; reflexivity|].
  destruct (String.eqb (status s) ATTENDANCE_STATUS.PRESENT); eapply IH; eassumption.
Qed.

Lemma validate_sessions_err_status studentId n sessions e :
  validate_sessions studentId n sessions = Err e ->
  mark_status e = HTTP_STATUS.BAD_REQUEST.
Proof.
  unfold validate_sessions. intros H.
  destruct (negb (Z.of_nat (List.length sessions) =? n)); [inversion H; reflexivity|].
  destruct (count_sessions studentId n sessions 0 0) as [[p a]|e0] eqn:Hc.
  - cbn [bind fst snd] in H.
    destruct (negb (Nat.eqb _ _)); [inversion H; reflexivity|].
    destruct (Nat.ltb 0 _); [inversion H; reflexivity | discriminate].
  - cbn [bind] in H. inversion H; subst. eapply count_sessions_err_status; eassumption.
Qed.

(** What the loop body has checked when it accepts an entry. *)
Lemma validate_student_inversion cs n a db entry db' :
  validate_student cs n a db = (Ok entry, db') ->
  exists student,
    find (fun s => String.eqb (st_id s) (in_studentId a)) (students db) = Some student
    /\ isEnrolled student cs = true
    /\ isInSection cs (in_studentId a) = true
    /\ validate_sessions (in_studentId a) n (in_sessions a) = Ok entry.
Proof.
  unfold validate_student. cbv zeta. intros H.
  unfold bindM at 1 in H. unfold Student_findById at 1 in H.
  destruct (find _ (students db)) as [student|]; [|discriminate H].
  apply bind_reject_ok in H. destruct H as [C1 H].
  apply bind_reject_ok in H. destruct H as [C2 H].
  unfold lift in H. inversion H; subst.
  apply negb_false_iff in C1, C2. exists student. auto.
Qed.

Lemma Forall2_In_l {A B} (R : A -> B -> Prop) (l : list A) (l' : list B) (a : A) :
  Forall2 R l l' -> In a l -> exists b, In b l' /\ R a b.
Proof.
  induction 1 as [|x y l l' Hxy _ IH]; intros Hin; [contradiction|].
  destruct Hin as [-> | Hin].
  - exists y. split; [now left | assumption].
  - destruct (IH Hin) as (b & Hb & HR). exists b. split; [now right | assumption].
Qed.

Lemma Forall2_In_r {A B} (R : A -> B -> Prop) (l : list A) (l' : list B) (b : B) :
  Forall2 R l l' -> In b l' -> exists a, In a l /\ R a b.
Proof.
  induction 1 as [|x y l l' Hxy _ IH]; intros Hin; [contradiction|].
  destruct Hin as [-> | Hin].
  - exists x. split; [now left | assumption].
  - destruct (IH Hin) as (a & Ha & HR). exists a. split; [now right | assumption].
Qed.

(** C2.  On creation, a sessions array that repeats a session number or
    omits one of 1..numSessions is rejected with a 400 (validation) error,
    and so is the whole call, which stores nothing; a sessions array whose
    numbers are a permutation of 1..numSessions passes the count, range,
    duplicate and coverage checks: the only rejection left is a status that
    is neither "present" nor "absent", and with valid statuses the entry is
    accepted. *)
Theorem session_coverage_enforced
  (studentId : ObjectId) (numSessions : Z) (sessions : list Session) :
  (bad_coverage numSessions sessions ->
   exists e, validate_sessions studentId numSessions sessions = Err e
             /\ mark_status e = HTTP_STATUS.BAD_REQUEST)
  /\ (forall parseDate formatDate clock userId req db,
        In (mkInput studentId sessions) (req_attendance req) ->
        numSessions = req_numSessions req ->
        bad_coverage numSessions sessions ->
        exists e, markAttendance parseDate formatDate clock userId req db = (Err e, db))
  /\ (0 <= numSessions ->
      Permutation (map sessionNumber sessions) (expectedSessions numSessions) ->
      (forall e, validate_sessions studentId numSessions sessions = Err e ->
         exists s, In s sessions /\ ~ valid_status (status s)
                   /\ e = StatusInvalid studentId (status s))
      /\ (Forall (fun s => valid_status (status s)) sessions ->
          exists entry,
            validate_sessions studentId numSessions sessions = Ok entry
            /\ sa_sessions entry = sessions)).
Proof.
  assert (Hbad : bad_coverage numSessions sessions ->
                 forall sid entry, validate_sessions sid numSessions sessions <> Ok entry).
  { intros Hb sid entry Hok. apply validate_sessions_inversion in Hok.
    destruct Hok as (_ & _ & Hnd & Hcov & _).
    destruct Hb as [Hb | (k & Hk & Hnin)]; [contradiction | apply Hnin, Hcov, Hk]. }
  split; [|split].
  - intros Hb.
    destruct (validate_sessions studentId numSessions sessions) as [entry|e] eqn:Hv.
    + exfalso. eapply Hbad; eassumption.
    + exists e. split; [reflexivity | eapply validate_sessions_err_status; eassumption].
  - intros parseDate formatDate clock userId req db Hin Hn Hb.
    destruct (markAttendance parseDate formatDate clock userId req db) as [[r|e] db'] eqn:Hm.
    + exfalso. apply markAttendance_inversion in Hm.
      destruct Hm as (teacher & cs & d & _ & _ & _ & _ & _ & _ & _ & _ & _ & HF & _).
      destruct (Forall2_In_l _ _ _ _ HF Hin) as (entry & _ & Hv).
      apply validate_student_inversion in Hv.
      destruct Hv as (student & _ & _ & _ & Hv). cbn [in_studentId in_sessions] in Hv.
      rewrite <- Hn in Hv. eapply Hbad; eassumption.
    + exists e. f_equal. eapply markAttendance_err_preserves; eassumption.
  - intros Hn Hperm.
    assert (Hlen : Z.of_nat (List.length sessions) = numSessions).
    { rewrite <- (length_map sessionNumber), (Permutation_length Hperm).
      unfold expectedSessions. rewrite length_map, length_seq. lia. }
    assert (Hrange : Forall (fun s => 1 <= sessionNumber s <= numSessions) sessions).
    { apply Forall_forall. intros s Hs. apply In_expectedSessions.
      eapply Permutation_in; [exact Hperm|]. now apply in_map. }
    assert (Hnd : NoDup (map sessionNumber sessions)).
    { eapply Permutation_NoDup; [symmetry; exact Hperm | apply NoDup_expectedSessions]. }
    assert (Hcov : missingSessions numSessions (map sessionNumber sessions) = []).
    { apply missingSessions_nil. intros k Hk.
      eapply Permutation_in; [symmetry; exact Hperm | now apply In_expectedSessions]. }
    assert (Hsz : Nat.eqb (List.length (map sessionNumber sessions))
                    (List.length (nodup Z.eq_dec (map sessionNumber sessions))) = true).
    { apply Nat.eqb_eq. symmetry. now apply nodup_length_NoDup. }
    split.
    + intros e He. unfold validate_sessions in He.
      rewrite Hlen, Z.eqb_refl in He. cbn [negb] in He.
      destruct (count_sessions studentId numSessions sessions 0 0) as [[p a]|e0] eqn:Hc.
      * cbn [bind fst snd] in He. rewrite Hsz, Hcov in He. discriminate.
      * cbn [bind] in He. inversion He; subst e0.
        eapply count_sessions_err; eassumption.
    + intros Hst.
      assert (HF : Forall (fun s => 1 <= sessionNumber s <= numSessions
                                    /\ valid_status (status s)) sessions).
      { apply Forall_forall. intros s Hs. split.
        - revert s Hs. now apply Forall_forall.
        - revert s Hs. now apply Forall_forall. }
      destruct (count_sessions_total studentId numSessions sessions HF 0 0) as (p & a & Hc).
      unfold validate_sessions. rewrite Hlen, Z.eqb_refl. cbn [negb].
      rewrite Hc. cbn [bind fst snd]. rewrite Hsz, Hcov. cbn.
      eexists. split; reflexivity.
Qed.

(** ** Creation is all-or-nothing *)

(** C4.  A [markAttendance] call that ends in an error leaves the store
    exactly as it was; and a call in which any validation step fails for any
    student entry does end in an error, so no AttendanceRecord is persisted.
    (A call that succeeds adds exactly the one record it returns.) *)
Theorem markAttendance_all_or_nothing
  (parseDate : string -> option Z) (formatDate : Z -> string)
  (clock : Clock) (userId : ObjectId) (req : MarkRequest) (db : Database) :
  (forall e db',
      markAttendance parseDate formatDate clock userId req db = (Err e, db') ->
      db' = db)
  /\ (forall a,
        In a (req_attendance req) ->
        (forall cs,
            find (fun c => String.eqb (cs_id c) (req_classSectionId req))
                 (classSections db) = Some cs ->
            entry_step_fails db cs (req_numSessions req) a) ->
        exists e,
          markAttendance parseDate formatDate clock userId req db = (Err e, db)
          /\ attendanceRecords (snd (markAttendance parseDate formatDate clock userId req db))
             = attendanceRecords db)
  /\ (forall r db',
        markAttendance parseDate formatDate clock userId req db = (Ok r, db') ->
        attendanceRecords db' = (attendanceRecords db ++ [r])%list).
Proof.
  split; [|split].
  - intros e db' H. eapply markAttendance_err_preserves; eassumption.
  - intros a Hin Hfail.
    destruct (markAttendance parseDate formatDate clock userId req db) as [[r|e] db'] eqn:Hm.
    + exfalso. apply markAttendance_inversion in Hm.
      destruct Hm as (teacher & cs & d & _ & Hcs & _ & _ & _ & _ & _ & _ & _ & HF & _).
      destruct (Forall2_In_l _ _ _ _ HF Hin) as (entry & _ & Hv).
      apply validate_student_inversion in Hv.
      destruct Hv as (student & Hst & Hen & Hsec & Hv).
      destruct (Hfail cs Hcs) as [F | [(st' & F1 & F2) | [F | F]]].
      * congruence.
      * rewrite Hst in F1. inversion F1; subst st'. congruence.
      * congruence.
      * rewrite Hv in F. discriminate.
    + assert (db' = db) by (eapply markAttendance_err_preserves; eassumption).
      subst db'. exists e. split; reflexivity.
  - intros r db' H. apply markAttendance_inversion in H.
    destruct H as (teacher & cs & d & H). decompose [and] H. subst db'. reflexivity.
Qed.

(** ** The invariant of stored records *)

Lemma entry_ok_sum n sa : entry_ok n sa -> totalPresent sa + totalAbsent sa = n.
Proof.
  intros (Hlen & Hv & Hp & Ha & _). rewrite Hp, Ha, count_status_total; assumption.
Qed.

Lemma entry_ok_bounds n sa : entry_ok n sa -> 0 <= totalPresent sa <= n.
Proof.
  intros H. pose proof (entry_ok_sum _ _ H) as Hs.
  destruct H as (_ & _ & Hp & Ha & _).
  pose proof (count_status_nonneg ATTENDANCE_STATUS.PRESENT (sa_sessions sa)).
  pose proof (count_status_nonneg ATTENDANCE_STATUS.ABSENT (sa_sessions sa)).
  lia.
Qed.

Lemma Forall_update_first {A} (Q : A -> Prop) (p : A -> bool) (f : A -> A) (l : list A) :
  Forall Q l -> (forall x, In x l -> Q x -> p x = true -> Q (f x)) ->
  Forall Q (update_first p f l).
Proof.
  induction 1 as [|x l Hx Hl IH]; intros Hf; cbn [update_first]; [constructor|].
  destruct (p x) eqn:Hp.
  - constructor; [apply Hf; [now left | assumption | assumption] | assumption].
  - constructor; [assumption|]. apply IH. intros y Hy. apply Hf. now right.
Qed.

Lemma find_update_first {A} (p : A -> bool) (f : A -> A) (l : list A) :
  (forall x, p (f x) = p x) ->
  find p (update_first p f l) = option_map f (find p l).
Proof.
  intros Hpf. induction l as [|x l IH]; [reflexivity|]. cbn [update_first find].
  destruct (p x) eqn:Hp; cbn [find].
  - now rewrite Hpf, Hp.
  - now rewrite Hp.
Qed.

Lemma update_first_compose {A} (p : A -> bool) (f g : A -> A) (l : list A) :
  (forall x, p (f x) = p x) ->
  update_first p g (update_first p f l) = update_first p (fun x => g (f x)) l.
Proof.
  intros Hpf. induction l as [|x l IH]; [reflexivity|]. cbn [update_first].
  destruct (p x) eqn:Hp; cbn [update_first].
  - now rewrite Hpf, Hp.
  - now rewrite Hp, IH.
Qed.

Lemma set_session_status_length n st l :
  List.length (set_session_status n st l) = List.length l.
Proof.
  unfold set_session_status. induction l as [|s l IH]; [reflexivity|].
  cbn [update_first]. destruct (sessionNumber s =? n); cbn [List.length]; congruence.
Qed.

Lemma set_session_status_valid n st l :
  valid_status st ->
  Forall (fun s => valid_status (status s)) l ->
  Forall (fun s => valid_status (status s)) (set_session_status n st l).
Proof.
  intros Hst Hl. unfold set_session_status. apply Forall_update_first; [assumption|].
  intros; assumption.
Qed.

Lemma apply_session_updates_ok (sessionsData : list Session) :
  forall sessions sessions',
    apply_session_updates sessionsData sessions = Ok sessions' ->
    Forall (fun s => valid_status (status s)) sessions ->
    List.length sessions' = List.length sessions
    /\ Forall (fun s => valid_status (status s)) sessions'.
Proof.
  induction sessionsData as [|u rest IH]; intros sessions sessions' H Hv;
    cbn [apply_session_updates] in H.
  - inversion H; subst. auto.
  - destruct ((sessionNumber u =? 0) || String.eqb (status u) ""); [discriminate|].
    destruct (includes ATTENDANCE_STATUS.values (status u)) eqn:Hu; [|discriminate].
    cbn [negb] in H. apply includes_values in Hu.
    apply IH in H; [|now apply set_session_status_valid].
    rewrite set_session_status_length in H. exact H.
Qed.

(** The first matching entry gets new sessions and freshly computed totals. *)
Lemma recompute_entry_ok (n : Z) (sessions' : list Session) (sa : StudentAttendance) :
  Z.of_nat (List.length sessions') = n ->
  Forall (fun s => valid_status (status s)) sessions' ->
  entry_ok n
    (set_totals (count_status ATTENDANCE_STATUS.PRESENT sessions')
                (count_status ATTENDANCE_STATUS.ABSENT sessions') n
                (set_sessions sessions' sa)).
Proof.
  intros Hlen Hv. unfold entry_ok, set_totals, set_sessions. cbn. auto.
Qed.

Lemma is_student_set_sessions sid s x :
  is_student sid (set_sessions s x) = is_student sid x.
Proof. reflexivity. Qed.

(** Replacing the sessions of the student's entry and recomputing its
    totals, as [updateStudentSession] and [updateStudentAllSessions] do,
    keeps the record well formed. *)
Lemma replace_and_recalculate_ok (this : AttendanceRecord) (studentId : ObjectId)
  (sa : StudentAttendance) (sessions' : list Session) (r : AttendanceRecord) :
  record_ok this ->
  find (is_student studentId) (attendance this) = Some sa ->
  List.length sessions' = List.length (sa_sessions sa) ->
  Forall (fun s => valid_status (status s)) sessions' ->
  calculateStudentTotals
    (set_attendance this
       (update_first (is_student studentId) (set_sessions sessions') (attendance this)))
    studentId = Ok r ->
  record_ok r /\ same_identity this r
  /\ lastModifiedBy r = lastModifiedBy this /\ lastModifiedAt r = lastModifiedAt this.
Proof.
  intros [Hn Hall] Hfind Hlen Hv H.
  unfold calculateStudentTotals in H. cbn [attendance set_attendance numSessions] in H.
  rewrite find_update_first in H by (intros; apply is_student_set_sessions).
  rewrite Hfind in H. cbn [option_map set_sessions sa_sessions] in H.
  destruct (negb _); [discriminate|]. inversion H; subst r; clear H.
  unfold same_identity.
  cbn [set_attendance numSessions recordId isFinalized lastModifiedBy lastModifiedAt
         attendance startTime endTime sessionBreakdown].
  repeat split; try apply Hn.
  rewrite update_first_compose by (intros; apply is_student_set_sessions).
  apply Forall_update_first; [assumption|].
  intros x Hx Hok Hp.
  assert (Hsa : entry_ok (numSessions this) sa).
  { apply find_some in Hfind. destruct Hfind as [Hin _].
    rewrite Forall_forall in Hall. now apply Hall. }
  apply recompute_entry_ok; [|assumption].
  rewrite Hlen. apply Hsa.
Qed.

Lemma updateStudentAllSessions_ok this studentId sessionsData modifiedBy now r :
  record_ok this ->
  updateStudentAllSessions this studentId sessionsData modifiedBy now = Ok r ->
  record_ok r /\ same_identity this r
  /\ lastModifiedBy r = Some modifiedBy /\ lastModifiedAt r = Some now.
Proof.
  intros Hok H. unfold updateStudentAllSessions in H.
  destruct (find (is_student studentId) (attendance this)) as [sa|] eqn:Hfind;
    [|discriminate].
  destruct (Nat.eqb _ 0); [discriminate|].
  destruct (apply_session_updates sessionsData (sa_sessions sa)) as [s'|e] eqn:Hu;
    [|discriminate].
  cbn [bind] in H.
  destruct (calculateStudentTotals _ studentId) as [r2|e] eqn:Hc; [|discriminate].
  cbn [bind] in H. inversion H; subst r; clear H.
  assert (Hsa : entry_ok (numSessions this) sa).
  { apply find_some in Hfind. destruct Hfind as [Hin _].
    destruct Hok as [_ Hall]. rewrite Forall_forall in Hall. now apply Hall. }
  apply apply_session_updates_ok in Hu; [|apply Hsa]. destruct Hu as [Hlen Hv].
  destruct (replace_and_recalculate_ok _ _ _ _ _ Hok Hfind Hlen Hv Hc)
    as ([Hn Hall] & (En & Ei & Ef & Es & Ee & Eb) & _).
  unfold record_ok, same_identity, updateWithAudit. cbn.
  repeat split; auto; try apply Hn.
Qed.

Lemma updateAttendance_ok (newAttendanceData : list AttendanceInput) :
  forall this modifiedBy now r,
    record_ok this ->
    updateAttendance this newAttendanceData modifiedBy now = Ok r ->
    record_ok r /\ same_identity this r
    /\ (newAttendanceData <> [] ->
        lastModifiedBy r = Some modifiedBy /\ lastModifiedAt r = Some now)
    /\ (newAttendanceData = [] -> r = this).
Proof.
  induction newAttendanceData as [|u rest IH]; intros this modifiedBy now r Hok H;
    cbn [updateAttendance] in H.
  - inversion H; subst. unfold same_identity.
    split; [assumption|]. split; [repeat split|].
    split; [intros F; now elim F | reflexivity].
  - destruct (String.eqb (in_studentId u) ""); [discriminate|].
    destruct (updateStudentAllSessions this (in_studentId u) (in_sessions u) modifiedBy now)
      as [this'|e] eqn:Hu; [|discriminate].
    cbn [bind] in H.
    apply updateStudentAllSessions_ok in Hu; [|assumption].
    destruct Hu as (Hok' & (E1 & E2 & E3 & E4 & E5 & E6) & Hby & Hat).
    destruct (IH _ _ _ _ Hok' H) as (Hr & (F1 & F2 & F3 & F4 & F5 & F6) & Haud & Hnil).
    split; [assumption|]. split; [unfold same_identity; repeat split; congruence|].
    split; [|discriminate].
    intros _. destruct rest as [|v rest'].
    + rewrite (Hnil eq_refl). auto.
    + apply Haud. discriminate.
Qed.

Lemma updateStudentSession_ok this studentId n newStatus modifiedBy now r :
  record_ok this ->
  updateStudentSession this studentId n newStatus modifiedBy now = Ok r ->
  record_ok r /\ same_identity this r.
Proof.
  intros Hok H. unfold updateStudentSession in H.
  destruct (includes ATTENDANCE_STATUS.values newStatus) eqn:Hs; [|discriminate].
  cbn [negb] in H. apply includes_values in Hs.
  destruct (find (is_student studentId) (attendance this)) as [sa|] eqn:Hfind;
    [|discriminate].
  destruct (find _ (sa_sessions sa)); [|discriminate].
  destruct (calculateStudentTotals _ studentId) as [r2|e] eqn:Hc; [|discriminate].
  cbn [bind] in H. inversion H; subst r; clear H.
  assert (Hsa : entry_ok (numSessions this) sa).
  { apply find_some in Hfind. destruct Hfind as [Hin _].
    destruct Hok as [_ Hall]. rewrite Forall_forall in Hall. now apply Hall. }
  assert (Hv : Forall (fun s => valid_status (status s))
                 (set_session_status n newStatus (sa_sessions sa)))
    by (apply set_session_status_valid; [assumption | apply Hsa]).
  destruct (replace_and_recalculate_ok _ _ _ _ _ Hok Hfind
              (set_session_status_length n newStatus (sa_sessions sa)) Hv Hc)
    as ([Hn Hall] & (En & Ei & Ef & Es & Ee & Eb) & _).
  unfold record_ok, same_identity, updateWithAudit. cbn.
  repeat split; auto; try apply Hn.
Qed.

Lemma recalculateAllTotals_ok this :
  record_ok this ->
  record_ok (recalculateAllTotals this) /\ same_identity this (recalculateAllTotals this).
Proof.
  intros [Hn Hall]. unfold record_ok, same_identity, recalculateAllTotals.
  cbn [set_attendance numSessions attendance recordId isFinalized startTime endTime
         sessionBreakdown].
  repeat split; try apply Hn.
  apply Forall_map. eapply Forall_impl; [|exact Hall].
  intros sa (Hlen & Hv & _). unfold entry_ok. cbn.
  replace (0 <? numSessions this) with true by (symmetry; apply Z.ltb_lt; lia).
  auto.
Qed.

(** What [validate_sessions] accepts is a well-formed entry. *)
Lemma validate_sessions_entry_ok studentId n sessions entry :
  validate_sessions studentId n sessions = Ok entry -> entry_ok n entry.
Proof.
  intros H. apply validate_sessions_inversion in H.
  destruct H as (Hlen & HF & _ & _ & ->). unfold entry_ok. cbn.
  repeat split; auto.
  eapply Forall_impl; [|exact HF]. intros s [_ Hs]. exact Hs.
Qed.

Lemma markAttendance_record_ok parseDate formatDate clock userId req db r db' :
  markAttendance parseDate formatDate clock userId req db = (Ok r, db') ->
  record_ok r.
Proof.
  intros H. apply markAttendance_inversion in H.
  destruct H as (teacher & cs & d & _ & _ & _ & _ & _ & _ & Hn & _ & _ & HF & Hr & _).
  assert (En : numSessions r = req_numSessions req) by (rewrite Hr; reflexivity).
  split; [rewrite En; exact Hn|].
  apply Forall_forall. intros entry Hin.
  destruct (Forall2_In_r _ _ _ _ HF Hin) as (a & _ & Hv).
  apply validate_student_inversion in Hv. destruct Hv as (_ & _ & _ & _ & Hv).
  rewrite En. eapply validate_sessions_entry_ok; eassumption.
Qed.

(** ** editAttendanceRecord, step by step *)

Lemma editAttendanceRecord_err_preserves clock userId rid patch :
  err_preserves (editAttendanceRecord clock userId rid patch).
Proof.
  unfold editAttendanceRecord. cbv zeta.
  apply err_preserves_bind; [auto with readonly | intros [teacher|]];
    [|apply pure_read_err_preserves; auto with readonly].
  apply err_preserves_bind; [auto with readonly | intros [r0|]];
    [|apply pure_read_err_preserves; auto with readonly].
  repeat (apply err_preserves_bind; [auto with readonly | intros _]).
  apply err_preserves_bind.
  - destruct (p_attendance patch) as [a|]; [|auto with readonly].
    destruct (updateAttendance r0 a userId (now clock)); auto with readonly.
  - intros r1 db e db' H. unfold bindM, AttendanceRecord_save, ret in H. discriminate.
Qed.

Lemma editAttendanceRecord_inversion clock userId rid patch db r' db' :
  editAttendanceRecord clock userId rid patch db = (Ok r', db') ->
  exists teacher r0 r1,
    find_teacher userId db = Some teacher
    /\ find_record (cast_recordId rid) db = Some r0
    /\ rec_teacherId r0 = t_id teacher
    /\ isFinalized r0 = false
    /\ (truthy (p_startTime patch) = true -> timeRegex_test (p_startTime patch) = true)
    /\ (truthy (p_endTime patch) = true -> timeRegex_test (p_endTime patch) = true)
    /\ match p_attendance patch with
       | Some a => updateAttendance r0 a userId (now clock) = Ok r1
       | None => r1 = r0
       end
    /\ r' = edited_record clock patch r1
    /\ db' = saved r' db.
Proof.
  unfold editAttendanceRecord. cbv zeta. intros H.
  unfold bindM at 1 in H. unfold Teacher_findOne at 1 in H.
  destruct (find _ (teachers db)) as [teacher|] eqn:Ht; [|discriminate H].
  unfold bindM at 1 in H. unfold AttendanceRecord_findOne at 1 in H.
  destruct (find _ (attendanceRecords db)) as [r0|] eqn:Hr; [|discriminate H].
  apply bind_reject_ok in H. destruct H as [C1 H].
  apply bind_reject_ok in H. destruct H as [C2 H].
  apply bind_reject_ok in H. destruct H as [C3 H].
  apply bind_reject_ok in H. destruct H as [C4 H].
  apply negb_false_iff, String.eqb_eq in C1.
  unfold bindM at 1 in H.
  assert (Hr1 : exists r1,
             match p_attendance patch with
             | Some a => updateAttendance r0 a userId (now clock) = Ok r1
             | None => r1 = r0
             end
             /\ (Ok r', db')
                = (Ok (edited_record clock patch r1) : Result EditError AttendanceRecord,
                   saved (edited_record clock patch r1) db)).
  { destruct (p_attendance patch) as [a|].
    - destruct (updateAttendance r0 a userId (now clock)) as [r1|e]; [|discriminate H].
      exists r1. split; [reflexivity|]. rewrite <- H. reflexivity.
    - exists r0. split; [reflexivity|]. rewrite <- H. reflexivity. }
  destruct Hr1 as (r1 & Hup & E). inversion E; subst r'.
  exists teacher, r0, r1. unfold find_teacher, find_record.
  repeat split; auto.
  - intros T. rewrite T in C3. cbn in C3. now apply negb_false_iff in C3.
  - intros T. rewrite T in C4. cbn in C4. now apply negb_false_iff in C4.
Qed.

(** The other direction: an edit whose checks all pass succeeds. *)
Lemma editAttendanceRecord_success clock userId rid patch db teacher r0 r1 :
  find_teacher userId db = Some teacher ->
  find_record (cast_recordId rid) db = Some r0 ->
  rec_teacherId r0 = t_id teacher ->
  isFinalized r0 = false ->
  (truthy (p_startTime patch) = true -> timeRegex_test (p_startTime patch) = true) ->
  (truthy (p_endTime patch) = true -> timeRegex_test (p_endTime patch) = true) ->
  match p_attendance patch with
  | Some a => updateAttendance r0 a userId (now clock) = Ok r1
  | None => r1 = r0
  end ->
  editAttendanceRecord clock userId rid patch db
  = (Ok (edited_record clock patch r1), saved (edited_record clock patch r1) db).
Proof.
  unfold find_teacher, find_record. intros Ht Hr Hown Hfin Hs He Hup.
  unfold editAttendanceRecord. cbv zeta.
  unfold bindM at 1. unfold Teacher_findOne at 1. rewrite Ht.
  unfold bindM at 1. unfold AttendanceRecord_findOne at 1. rewrite Hr.
  rewrite bind_reject_false by (rewrite Hown, String.eqb_refl; reflexivity).
  rewrite bind_reject_false by assumption.
  rewrite bind_reject_false
    by (destruct (truthy (p_startTime patch)); [rewrite Hs; reflexivity | reflexivity]).
  rewrite bind_reject_false
    by (destruct (truthy (p_endTime patch)); [rewrite He; reflexivity | reflexivity]).
  unfold bindM at 1.
  destruct (p_attendance patch) as [a|].
  - rewrite Hup. reflexivity.
  - subst r1. reflexivity.
Qed.

Lemma edited_record_attendance clock patch r1 :
  attendance (edited_record clock patch r1) = attendance r1
  /\ numSessions (edited_record clock patch r1) = numSessions r1
  /\ recordId (edited_record clock patch r1) = recordId r1.
Proof.
  unfold edited_record.
  destruct (truthy (p_startTime patch)), (truthy (p_endTime patch)),
    (p_isFinalized patch); cbn; auto.
Qed.

Lemma edited_record_ok clock patch r1 :
  record_ok r1 -> record_ok (edited_record clock patch r1).
Proof.
  unfold record_ok. destruct (edited_record_attendance clock patch r1) as (-> & -> & _).
  auto.
Qed.

(** ** Reachable stores *)

Lemma method_edit_ok r r' : record_ok r -> method_edit r r' -> record_ok r'.
Proof.
  intros Hok H. destruct H as [? ? ? ? ? ? H | ? ? ? ? ? H | ? ? ? ? H | ].
  - eapply updateStudentSession_ok; eassumption.
  - eapply updateStudentAllSessions_ok; eassumption.
  - eapply updateAttendance_ok; eassumption.
  - now apply recalculateAllTotals_ok.
Qed.

Lemma saved_ok doc db : db_ok db -> record_ok doc -> db_ok (saved doc db).
Proof.
  unfold db_ok, saved, AttendanceRecord_save. cbn. intros Hdb Hdoc.
  apply Forall_update_first; auto.
Qed.

Lemma db_step_ok parseDate formatDate db db' :
  db_ok db -> db_step parseDate formatDate db db' -> db_ok db'.
Proof.
  intros Hok Hstep. destruct Hstep as [clock u req db | clock u rid patch db | db r r' Hin Hm | db ts cs ss].
  - destruct (markAttendance parseDate formatDate clock u req db) as [[r|e] db'] eqn:Hm;
      cbn [snd].
    + pose proof (markAttendance_record_ok _ _ _ _ _ _ _ _ Hm) as Hr.
      apply markAttendance_inversion in Hm.
      destruct Hm as (teacher & cs & d & H). decompose [and] H. subst db'.
      unfold db_ok. cbn. apply Forall_app. split; [exact Hok | now constructor].
    + apply markAttendance_err_preserves in Hm. now subst.
  - destruct (editAttendanceRecord clock u rid patch db) as [[r|e] db'] eqn:He; cbn [snd].
    + apply editAttendanceRecord_inversion in He.
      destruct He as (teacher & r0 & r1 & _ & Hr0 & _ & _ & _ & _ & Hup & -> & ->).
      assert (Hok0 : record_ok r0).
      { apply find_some in Hr0. destruct Hr0 as [Hin _].
        unfold db_ok in Hok. rewrite Forall_forall in Hok. now apply Hok. }
      apply saved_ok; [assumption|]. apply edited_record_ok.
      destruct (p_attendance patch) as [a|].
      * eapply updateAttendance_ok; eassumption.
      * now subst.
    + apply editAttendanceRecord_err_preserves in He. now subst.
  - apply saved_ok; [assumption|]. eapply method_edit_ok; [|eassumption].
    unfold db_ok in Hok. rewrite Forall_forall in Hok. now apply Hok.
  - exact Hok.
Qed.

Lemma reachable_db_ok parseDate formatDate db :
  reachable parseDate formatDate db -> db_ok db.
Proof.
  induction 1 as [db Hnil | db db' _ IH Hstep].
  - unfold db_ok. rewrite Hnil. constructor.
  - eapply db_step_ok; eassumption.
Qed.

(** C1.  In every record a successful [markAttendance] creates, and in
    every record of every store reachable through the handlers and the
    model's editing methods, each student entry satisfies
    [totalPresent + totalAbsent = numSessions]. *)
Theorem totals_add_up_to_numSessions
  (parseDate : string -> option Z) (formatDate : Z -> string) :
  (forall clock userId req db r db' sa,
      markAttendance parseDate formatDate clock userId req db = (Ok r, db') ->
      In sa (attendance r) ->
      totalPresent sa + totalAbsent sa = numSessions r)
  /\ (forall clock userId rid patch db r db' sa,
        db_ok db ->
        editAttendanceRecord clock userId rid patch db = (Ok r, db') ->
        In sa (attendance r) ->
        totalPresent sa + totalAbsent sa = numSessions r)
  /\ (forall db r sa,
        reachable parseDate formatDate db ->
        In r (attendanceRecords db) ->
        In sa (attendance r) ->
        totalPresent sa + totalAbsent sa = numSessions r).
Proof.
  assert (K : forall r sa, record_ok r -> In sa (attendance r) ->
                           totalPresent sa + totalAbsent sa = numSessions r).
  { intros r sa [_ Hall] Hin. rewrite Forall_forall in Hall.
    apply entry_ok_sum. now apply Hall. }
  split; [|split].
  - intros clock userId req db r db' sa Hm Hin.
    apply K; [|assumption]. eapply markAttendance_record_ok; eassumption.
  - intros clock userId rid patch db r db' sa Hok He Hin.
    apply K; [|assumption].
    apply editAttendanceRecord_inversion in He.
    destruct He as (teacher & r0 & r1 & _ & Hr0 & _ & _ & _ & _ & Hup & -> & _).
    assert (Hok0 : record_ok r0).
    { apply find_some in Hr0. destruct Hr0 as [Hin0 _].
      unfold db_ok in Hok. rewrite Forall_forall in Hok. now apply Hok. }
    apply edited_record_ok.
    destruct (p_attendance patch) as [a|].
    + eapply updateAttendance_ok; eassumption.
    + now subst.
  - intros db r sa Hreach Hr Hin.
    apply K; [|assumption].
    apply reachable_db_ok in Hreach. unfold db_ok in Hreach.
    rewrite Forall_forall in Hreach. now apply Hreach.
Qed.

(** ** The percentage *)

Lemma agree_upto_spec (N : nat) :
  agree_upto N = true ->
  forall p n, 1 <= n <= Z.of_nat N -> 0 <= p <= n ->
    JSNumber.percentage p n = decimal2 (round2_half_up p n).
Proof.
  unfold agree_upto. intros H p n Hn Hp.
  rewrite forallb_forall in H.
  specialize (H (Z.to_nat n)). rewrite forallb_forall in H.
  assert (Hin : In (Z.to_nat n) (seq 1 N)) by (apply in_seq; lia).
  specialize (H Hin (Z.to_nat p)).
  assert (Hip : In (Z.to_nat p) (seq 0 (S (Z.to_nat n)))) by (apply in_seq; lia).
  specialize (H Hip). rewrite !Z2Nat.id in H by lia.
  unfold agrees in H. unfold JSNumber.percentage, decimal2.
  destruct (JSNumber.percentage_digits p n) as [h|]; [|discriminate].
  apply Z.eqb_eq in H. now subst.
Qed.

Lemma agree_upto_159 : agree_upto 159 = true.
Proof. vm_compute. reflexivity. Qed.

Lemma float_neq (x y : float) : Prim2SF x <> Prim2SF y -> x <> y.
Proof. intros H E. apply H. now rewrite E. Qed.


(** The bound 159 is sharp, far beyond the session count of any record:
    with 23 sessions present out of 160 the exact percentage is 14.375, which
    rounds to 14.38 (a tie going up, or to the even digit), while the double
    [(23 / 160) * 100] is just below it and [toFixed(2)] prints 14.37. *)
Example attendancePercentage_23_of_160 :
  0 <= 23 <= 160 /\ 1 <= 160
  /\ 10000 * 23 * 2 = (2 * 1437 + 1) * 160
  /\ round2_half_up 23 160 = 1438
  /\ round2_half_even 23 160 = 1438
  /\ JSNumber.percentage_digits 23 160 = Some 1437
  /\ JSNumber.percentage 23 160 <> decimal2 (round2_half_up 23 160).
Proof.
  split; [lia|]. split; [lia|]. split; [lia|].
  split; [vm_compute; reflexivity|]. split; [vm_compute; reflexivity|].
  split; [vm_compute; reflexivity|].
  apply float_neq. vm_compute. discriminate.
Qed.

(** ** The subject-level summary *)

Lemma find_existsb {A} (p : A -> bool) (l : list A) :
  existsb p l = true -> exists x, find p l = Some x.
Proof.
  induction l as [|x l IH]; cbn; [discriminate|].
  destruct (p x); [eauto | exact IH].
Qed.

Lemma find_none_existsb {A} (p : A -> bool) (l : list A) :
  existsb p l = false -> find p l = None.
Proof.
  induction l as [|x l IH]; cbn; [reflexivity|].
  destruct (p x); [discriminate | exact IH].
Qed.

(** The counters after the loop, from any starting values. *)
Lemma fold_accumulate (student_id : ObjectId) (records : list AttendanceRecord) :
  forall a b c,
    fold_left (accumulate student_id) records (a, b, c)
    = (a + sumZ (map numSessions (filter (contains_student student_id) records)),
       b + sumZ (map (present_in student_id) records),
       c + sumZ (map (absent_in student_id) records)).
Proof.
  induction records as [|r rest IH]; intros a b c; cbn [fold_left].
  - cbn. now rewrite !Z.add_0_r.
  - assert (Hacc : accumulate student_id (a, b, c) r
                   = (a + (if contains_student student_id r then numSessions r else 0),
                      b + present_in student_id r,
                      c + absent_in student_id r)).
    { unfold accumulate, present_in, absent_in, contains_student.
      destruct (existsb (is_student student_id) (attendance r)) eqn:E.
      - destruct (find_existsb _ _ E) as (sa & ->). reflexivity.
      - rewrite (find_none_existsb _ _ E). now rewrite !Z.add_0_r. }
    rewrite Hacc, IH. cbn [map filter].
    destruct (contains_student student_id r); cbn [map sumZ fold_right];
      fold (sumZ (map numSessions (filter (contains_student student_id) rest)));
      fold (sumZ (map (present_in student_id) rest));
      fold (sumZ (map (absent_in student_id) rest));
      f_equal; [f_equal; lia | lia | f_equal; lia | lia].
Qed.

Lemma filter_all {A} (p : A -> bool) (l : list A) :
  Forall (fun x => p x = true) l -> filter p l = l.
Proof.
  induction 1 as [|x l Hx _ IH]; [reflexivity|]. cbn. now rewrite Hx, IH.
Qed.

(** Every record the query returns has an entry of the student. *)
Lemma query_results_contain_student subjectId student_id gte lte
  (stored : list AttendanceRecord) :
  Forall (fun r => contains_student student_id r = true)
         (filter (matches_query subjectId student_id gte lte) stored).
Proof.
  apply Forall_forall. intros r Hin. apply filter_In in Hin. destruct Hin as [_ Hm].
  unfold matches_query in Hm.
  repeat (apply andb_true_iff in Hm; destruct Hm as [Hm ?]). assumption.
Qed.

Lemma attendanceSummary_sums
  (student_id : ObjectId) (attendanceRecords : list AttendanceRecord) :
  Forall (fun r => contains_student student_id r = true) attendanceRecords ->
  let s := attendanceSummary attendanceRecords student_id in
  totalClasses s
  = Z.of_nat (List.length (filter (contains_student student_id) attendanceRecords))
  /\ totalSessions s = sumZ (map numSessions attendanceRecords)
  /\ presentCount s = sumZ (map (present_in student_id) attendanceRecords)
  /\ absentCount s = sumZ (map (absent_in student_id) attendanceRecords)
  /\ sum_attendancePercentage s
     = if 0 <? totalSessions s
       then JSNumber.percentage (presentCount s) (totalSessions s)
       else 0%float.
Proof.
  intros Hall s.
  assert (Hs : s = attendanceSummary attendanceRecords student_id) by reflexivity.
  unfold attendanceSummary in Hs. rewrite fold_accumulate in Hs.
  rewrite (filter_all _ _ Hall) in Hs |- *. rewrite !Z.add_0_l in Hs.
  destruct attendanceRecords as [|r rest]; rewrite Hs.
  - cbn [List.length Nat.eqb map sumZ fold_right totalClasses totalSessions presentCount
           absentCount sum_attendancePercentage Z.of_nat].
    repeat split; reflexivity.
  - cbn [List.length Nat.eqb totalClasses totalSessions presentCount absentCount
           sum_attendancePercentage].
    repeat split; reflexivity.
Qed.

(** C7, as the code has it.  For the records the query returned (each
    contains the student), the summary reports totalClasses = the number of
    those records, totalSessions = the sum of their [numSessions],
    presentCount and absentCount = the sums of the student's stored totals,
    and a percentage that is 0 when totalSessions is 0 and otherwise
    [parseFloat(((presentCount / totalSessions) * 100).toFixed(2))]; this is
    presentCount / totalSessions * 100 rounded to two decimals (a tie going
    up) whenever totalSessions is below 160.  Two records with 2 and 3
    sessions and 2 and 1 present give 5, 3 and 60.00. *)
Theorem attendanceSummary_aggregates
  (student_id : ObjectId) (attendanceRecords : list AttendanceRecord) :
  Forall (fun r => contains_student student_id r = true) attendanceRecords ->
  let s := attendanceSummary attendanceRecords student_id in
  totalClasses s
  = Z.of_nat (List.length (filter (contains_student student_id) attendanceRecords))
  /\ totalSessions s = sumZ (map numSessions attendanceRecords)
  /\ presentCount s = sumZ (map (present_in student_id) attendanceRecords)
  /\ absentCount s = sumZ (map (absent_in student_id) attendanceRecords)
  /\ (totalSessions s <= 0 -> sum_attendancePercentage s = 0%float)
  /\ (0 < totalSessions s ->
      sum_attendancePercentage s
      = JSNumber.percentage (presentCount s) (totalSessions s))
  /\ (0 < totalSessions s < 160 ->
      0 <= presentCount s <= totalSessions s ->
      sum_attendancePercentage s
      = decimal2 (round2_half_up (presentCount s) (totalSessions s)))
  /\ attendanceSummary [sample_record "R1" 2 2; sample_record "R2" 3 1] "s1"
     = mkSummary 2 5 3 2 60%float.
Proof.
  intros Hall s.
  destruct (attendanceSummary_sums student_id attendanceRecords Hall)
    as (H1 & H2 & H3 & H4 & H5).
  fold s in H1, H2, H3, H4, H5.
  split; [exact H1|]. split; [exact H2|]. split; [exact H3|]. split; [exact H4|].
  split.
  { intros Hle. rewrite H5.
    replace (0 <? totalSessions s) with false by (symmetry; apply Z.ltb_ge; lia).
    reflexivity. }
  assert (Hpct : 0 < totalSessions s ->
                 sum_attendancePercentage s
                 = JSNumber.percentage (presentCount s) (totalSessions s)).
  { intros Hpos. rewrite H5. apply Z.ltb_lt in Hpos. now rewrite Hpos. }
  split; [exact Hpct|]. split.
  { intros Hn Hp. rewrite Hpct by lia.
    apply (agree_upto_spec 159 agree_upto_159); lia. }
  vm_compute. reflexivity.
Qed.

Lemma attendanceSummary_aggregates_witness :
  Forall (fun r => contains_student "s1" r = true)
         [sample_record "R1" 2 2; sample_record "R2" 3 1]
  /\ totalSessions
       (attendanceSummary [sample_record "R1" 2 2; sample_record "R2" 3 1] "s1")
     = sumZ (map numSessions [sample_record "R1" 2 2; sample_record "R2" 3 1]).
Proof.
  assert (H : Forall (fun r => contains_student "s1" r = true)
                [sample_record "R1" 2 2; sample_record "R2" 3 1])
    by (repeat constructor).
  split; [exact H|].
  exact (proj1 (proj2 (attendanceSummary_aggregates "s1" _ H))).
Defined.

(** C7 as stated fails on the percentage: over the sixteen classes the
    student has 23 sessions present out of 160, the exact percentage 14.375
    rounds to 14.38 (a tie going up, or to the even digit), and the summary
    reports 14.37. *)
Lemma attendanceSummary_23_of_160 :
  Forall (fun r => contains_student "s1" r = true) sixteen_classes
  /\ Forall record_ok sixteen_classes
  /\ totalSessions (attendanceSummary sixteen_classes "s1") = 160
  /\ presentCount (attendanceSummary sixteen_classes "s1") = 23
  /\ round2_half_up 23 160 = 1438
  /\ round2_half_even 23 160 = 1438
  /\ sum_attendancePercentage (attendanceSummary sixteen_classes "s1") = decimal2 1437
  /\ sum_attendancePercentage (attendanceSummary sixteen_classes "s1")
     <> decimal2 (round2_half_up
                    (presentCount (attendanceSummary sixteen_classes "s1"))
                    (totalSessions (attendanceSummary sixteen_classes "s1"))).
Proof.
  split; [repeat constructor|].
  split.
  { unfold sixteen_classes. cbn [repeat].
    repeat (apply Forall_cons; [|]); try apply Forall_nil;
      (split; [vm_compute; split; discriminate|]);
      (apply Forall_cons; [|apply Forall_nil]);
      (unfold entry_ok; cbn [sa_sessions totalPresent totalAbsent attendancePercentage
                               sample_record attendance numSessions];
       split; [vm_compute; reflexivity|];
       split; [unfold sample_sessions; cbn; repeat constructor;
               (first [left; reflexivity | right; reflexivity])|];
       split; [vm_compute; reflexivity|];
       split; [vm_compute; reflexivity|]; reflexivity). }
  split; [vm_compute; reflexivity|]. split; [vm_compute; reflexivity|].
  split; [vm_compute; reflexivity|]. split; [vm_compute; reflexivity|].
  split; [vm_compute; reflexivity|].
  apply float_neq. vm_compute. discriminate.
Qed.

(** ** The sample university *)

(** The request of the handler's documentation, for one student. *)
Example markAttendance_sample :
  fst (markAttendance sample_parseDate sample_formatDate sample_clock "u1"
         sample_request (sample_db [mkRosterEntry "s1" "active"]))
  = Ok (mkRecord "ATT_07112025_MAT101_SEM3_SECA_123" "subj1" "t1" "cs1" 20399
          "09:00" "10:30" 3 2
          [mkSlot 1 "09:00" "09:45"; mkSlot 2 "09:45" "10:30"]
          [mkStudentAttendance "s1" [mkSession 1 "present"; mkSession 2 "absent"]
             1 1 50%float]
          "t1" 1762500000123 None None false).
Proof. vm_compute. reflexivity. Qed.

(** A second student entry for a stranger, a future date, a class that is
    too short: each is answered with its own error. *)
Example markAttendance_rejections :
  fst (markAttendance sample_parseDate sample_formatDate sample_clock "u1"
         request_with_stranger (sample_db [mkRosterEntry "s1" "active"]))
  = Err (StudentNotFound "nobody")
  /\ fst (markAttendance sample_parseDate sample_formatDate
            (mkClock 20398 0 (fixed_zone 0)) "u1"
            sample_request (sample_db [mkRosterEntry "s1" "active"]))
     = Err FutureDate
  /\ fst (markAttendance sample_parseDate sample_formatDate sample_clock "u1"
            (mkMarkRequest "cs1" "07-11-2025" "09:00" "10:29" 2
               [mkInput "s1" [mkSession 1 "present"; mkSession 2 "absent"]])
            (sample_db [mkRosterEntry "s1" "active"]))
     = Err (DurationTooShort (Some 89) (Some 90))
  /\ fst (markAttendance sample_parseDate sample_formatDate sample_clock "u2"
            sample_request (sample_db [mkRosterEntry "s1" "active"]))
     = Err NotAssigned.
Proof. vm_compute. repeat split; reflexivity. Qed.

Example db_marked_record :
  option_map (fun r => (numSessions r, isFinalized r, lastModifiedBy r, lastModifiedAt r))
             (find_record sample_recordId db_marked)
  = Some (2, false, None, None).
Proof. vm_compute. reflexivity. Qed.

(** ** Finalization *)

(** C3.  An edit call on a finalized record, made by the teacher the
    record belongs to (the calls that get past the checks the handler makes
    first), returns [AlreadyFinalized] (a 400) whatever the patch, another
    finalize included, and leaves the whole store, hence every field of the
    record, unchanged.  No other caller changes anything either: a user
    without a teacher profile is answered 404 and a teacher who does not own
    the record 403, with the store as it was.  The record is looked up by
    the id of the call as the filter casts it (trimmed, in upper case). *)
Theorem finalized_record_is_locked
  (clock : Clock) (userId : ObjectId) (rid : string) (patch : EditPatch)
  (db : Database) (r0 : AttendanceRecord) (teacher : Teacher) :
  find_record (cast_recordId rid) db = Some r0 ->
  isFinalized r0 = true ->
  find_teacher userId db = Some teacher ->
  rec_teacherId r0 = t_id teacher ->
  editAttendanceRecord clock userId rid patch db = (Err AlreadyFinalized, db)
  /\ edit_status AlreadyFinalized = HTTP_STATUS.BAD_REQUEST
  /\ find_record (cast_recordId rid) (snd (editAttendanceRecord clock userId rid patch db))
     = Some r0
  /\ (forall clock' userId' patch',
        find_teacher userId' db = None ->
        editAttendanceRecord clock' userId' rid patch' db
        = (Err EditTeacherProfileNotFound, db))
  /\ (forall clock' userId' patch' teacher',
        find_teacher userId' db = Some teacher' ->
        rec_teacherId r0 <> t_id teacher' ->
        editAttendanceRecord clock' userId' rid patch' db = (Err NotOwnRecord, db))
  /\ (forall clock' userId' patch' teacher',
        find_teacher userId' db = Some teacher' ->
        rec_teacherId r0 = t_id teacher' ->
        editAttendanceRecord clock' userId' rid patch' db = (Err AlreadyFinalized, db)).
Proof.
  unfold find_record, find_teacher. intros Hr Hfin Ht Hown.
  assert (Hrun : forall clock' userId' patch',
             editAttendanceRecord clock' userId' rid patch' db
             = match find (fun t => String.eqb (t_userId t) userId') (teachers db) with
               | None => (Err EditTeacherProfileNotFound, db)
               | Some teacher =>
                   if String.eqb (rec_teacherId r0) (t_id teacher)
                   then (Err AlreadyFinalized, db)
                   else (Err NotOwnRecord, db)
               end).
  { intros clock' userId' patch'. unfold editAttendanceRecord. cbv zeta.
    unfold bindM at 1. unfold Teacher_findOne at 1.
    destruct (find (fun t => String.eqb (t_userId t) userId') (teachers db))
      as [teacher'|]; [|reflexivity].
    unfold bindM at 1. unfold AttendanceRecord_findOne at 1. rewrite Hr.
    destruct (String.eqb (rec_teacherId r0) (t_id teacher')) eqn:Hown'.
    - rewrite bind_reject_false by reflexivity.
      rewrite bind_reject_true by assumption. reflexivity.
    - rewrite bind_reject_true by reflexivity. reflexivity. }
  assert (Hmine : editAttendanceRecord clock userId rid patch db
                  = (Err AlreadyFinalized, db))
    by (rewrite Hrun, Ht, Hown, String.eqb_refl; reflexivity).
  split; [exact Hmine|]. split; [reflexivity|].
  split; [rewrite Hmine; exact Hr|].
  split; [|split].
  - intros clock' userId' patch' Hn. rewrite Hrun, Hn. reflexivity.
  - intros clock' userId' patch' teacher' Ht' Hne. rewrite Hrun, Ht'.
    destruct (String.eqb_spec (rec_teacherId r0) (t_id teacher')); [contradiction|].
    reflexivity.
  - intros clock' userId' patch' teacher' Ht' He. rewrite Hrun, Ht', He, String.eqb_refl.
    reflexivity.
Qed.

Lemma finalized_record_is_locked_witness :
  cast_recordId " att_07112025_mat101_sem3_seca_123 " = sample_recordId
  /\ option_map isFinalized (find_record sample_recordId db_finalized) = Some true
  /\ editAttendanceRecord sample_clock "u1" " att_07112025_mat101_sem3_seca_123 "
       (mkPatch None "09:15" "" true) db_finalized
     = (Err AlreadyFinalized, db_finalized).
Proof.
  split; [vm_compute; reflexivity|]. split; [vm_compute; reflexivity|].
  refine (proj1 (finalized_record_is_locked sample_clock "u1"
                   " att_07112025_mat101_sem3_seca_123 "
                   (mkPatch None "09:15" "" true) db_finalized
                   (stored_record db_finalized) teacher1 _ _ _ _));
    vm_compute; reflexivity.
Defined.

(** The ownership check comes before the finalization check: teacher 2
    editing the finalized record of teacher 1 is answered 403 "You can only
    edit your own attendance records". *)
Example finalized_edit_by_other_teacher :
  option_map isFinalized (find_record sample_recordId db_finalized) = Some true
  /\ editAttendanceRecord sample_clock "u2" sample_recordId finalize_patch db_finalized
     = (Err NotOwnRecord, db_finalized)
  /\ NotOwnRecord <> AlreadyFinalized
  /\ edit_status NotOwnRecord = HTTP_STATUS.FORBIDDEN.
Proof.
  split; [vm_compute; reflexivity|]. split; [vm_compute; reflexivity|].
  split; [discriminate | reflexivity].
Qed.

(** ** The roster check *)

Lemma existsb_false_forall {A} (p : A -> bool) (l : list A) :
  (forall x, In x l -> p x = false) -> existsb p l = false.
Proof.
  induction l as [|x l IH]; intros H; cbn; [reflexivity|].
  rewrite (H x) by now left. apply IH. intros y Hy. apply H. now right.
Qed.

(** C8 on the code.  A student who has no entry on the section's roster is
    rejected with [NotInSection] (a 400); but [isInSection] looks only at the
    student id of a roster entry, so an entry of any status (withdrawn,
    transferred) passes, and in the sample university [markAttendance]
    creates a record with an entry for a student whose only roster entry is
    withdrawn. *)
Theorem roster_status_not_checked :
  (forall cs n a db student,
      find (fun s => String.eqb (st_id s) (in_studentId a)) (students db) = Some student ->
      isEnrolled student cs = true ->
      (forall e, In e (cs_students cs) -> ro_studentId e <> in_studentId a) ->
      validate_student cs n a db = (Err (NotInSection (in_studentId a)), db)
      /\ mark_status (NotInSection (in_studentId a)) = HTTP_STATUS.BAD_REQUEST)
  /\ (forall cs studentId st,
        In (mkRosterEntry studentId st) (cs_students cs) ->
        isInSection cs studentId = true)
  /\ (let db := sample_db [mkRosterEntry "s1" "withdrawn"] in
      let out := markAttendance sample_parseDate sample_formatDate sample_clock "u1"
                   sample_request db in
      is_ok (fst out) = true
      /\ map recordId (attendanceRecords (snd out)) = [sample_recordId]
      /\ map (fun r => map sa_studentId (attendance r)) (attendanceRecords (snd out))
         = [["s1"]]).
Proof.
  split; [|split].
  - intros cs n a db student Hst Hen Hno. split; [|reflexivity].
    unfold validate_student. cbv zeta.
    unfold bindM at 1. unfold Student_findById at 1. rewrite Hst.
    rewrite bind_reject_false by (rewrite Hen; reflexivity).
    apply bind_reject_true. apply negb_true_iff. unfold isInSection.
    apply existsb_false_forall. intros e He. apply String.eqb_neq. now apply Hno.
  - intros cs studentId st Hin. unfold isInSection. apply existsb_exists.
    exists (mkRosterEntry studentId st). split; [assumption | apply String.eqb_refl].
  - vm_compute. repeat split; reflexivity.
Qed.

(** ** The audit fields *)

Lemma edited_record_audit clock patch r1 :
  lastModifiedBy (edited_record clock patch r1) = lastModifiedBy r1
  /\ lastModifiedAt (edited_record clock patch r1) = Some (now clock).
Proof.
  unfold edited_record.
  destruct (truthy (p_startTime patch)), (truthy (p_endTime patch)),
    (p_isFinalized patch); cbn; auto.
Qed.

(** C9 on the code.  Every successful edit sets [lastModifiedAt]; but
    [lastModifiedBy] is set only by [updateWithAudit], which runs for each
    student of a non-empty attendance patch.  An edit that only changes the
    times or finalizes (or whose attendance array is empty) leaves
    [lastModifiedBy] as it was: finalizing the freshly marked sample record
    succeeds with [lastModifiedAt] set and [lastModifiedBy] still unset. *)
Theorem edit_audit_trail :
  (forall clock userId rid patch db r' db',
      db_ok db ->
      editAttendanceRecord clock userId rid patch db = (Ok r', db') ->
      lastModifiedAt r' = Some (now clock)
      /\ (forall a, p_attendance patch = Some a -> a <> [] ->
                    lastModifiedBy r' = Some userId)
      /\ (p_attendance patch = None \/ p_attendance patch = Some [] ->
          forall r0, find_record (cast_recordId rid) db = Some r0 ->
                     lastModifiedBy r' = lastModifiedBy r0))
  /\ (let out := editAttendanceRecord sample_clock "u1" sample_recordId finalize_patch
                   db_marked in
      is_ok (fst out) = true
      /\ option_map (fun r => (isFinalized r, lastModifiedAt r, lastModifiedBy r))
                    (find_record sample_recordId (snd out))
         = Some (true, Some (now sample_clock), None))
  /\ (let out := editAttendanceRecord sample_clock "u1" sample_recordId
                   (mkPatch None "10:00" "11:30" false) db_marked in
      is_ok (fst out) = true
      /\ option_map (fun r => (startTime r, lastModifiedAt r, lastModifiedBy r))
                    (find_record sample_recordId (snd out))
         = Some ("10:00", Some (now sample_clock), None)).
Proof.
  split; [|split].
  - intros clock userId rid patch db r' db' Hdb He.
    apply editAttendanceRecord_inversion in He.
    destruct He as (teacher & r0 & r1 & _ & Hr0 & _ & _ & _ & _ & Hup & -> & _).
    destruct (edited_record_audit clock patch r1) as [Eby Eat].
    assert (Hok0 : record_ok r0).
    { unfold find_record in Hr0. apply find_some in Hr0. destruct Hr0 as [Hin _].
      unfold db_ok in Hdb. rewrite Forall_forall in Hdb. now apply Hdb. }
    split; [exact Eat|]. split.
    + intros a Ha Hne. rewrite Ha in Hup. rewrite Eby.
      apply updateAttendance_ok in Hup; [|assumption].
      destruct Hup as (_ & _ & Haud & _). now apply Haud.
    + intros Hp r0' Hr0'. rewrite Hr0 in Hr0'. inversion Hr0'; subst r0'. rewrite Eby.
      destruct Hp as [Hp | Hp]; rewrite Hp in Hup.
      * now subst.
      * cbn in Hup. now inversion Hup.
  - vm_compute. split; reflexivity.
  - vm_compute. split; reflexivity.
Qed.

(** ** Editing the times *)





(** ** The properties at concrete inputs *)

Lemma db_marked_reachable : reachable sample_parseDate sample_formatDate db_marked.
Proof.
  apply (reachable_step _ _ (sample_db [mkRosterEntry "s1" "active"])).
  - apply reachable_init. reflexivity.
  - apply step_markAttendance.
Qed.

Lemma totals_add_up_to_numSessions_witness :
  reachable sample_parseDate sample_formatDate db_marked
  /\ In (stored_record db_marked) (attendanceRecords db_marked)
  /\ In (first_entry (stored_record db_marked)) (attendance (stored_record db_marked))
  /\ totalPresent (first_entry (stored_record db_marked))
     + totalAbsent (first_entry (stored_record db_marked))
     = numSessions (stored_record db_marked).
Proof.
  assert (R : reachable sample_parseDate sample_formatDate db_marked)
    by exact db_marked_reachable.
  assert (I1 : In (stored_record db_marked) (attendanceRecords db_marked))
    by (vm_compute; left; reflexivity).
  assert (I2 : In (first_entry (stored_record db_marked))
                 (attendance (stored_record db_marked)))
    by (vm_compute; left; reflexivity).
  split; [exact R|]. split; [exact I1|]. split; [exact I2|].
  exact (proj2 (proj2 (totals_add_up_to_numSessions sample_parseDate sample_formatDate))
           db_marked _ _ R I1 I2).
Defined.

Lemma session_coverage_enforced_witness :
  bad_coverage 2 [mkSession 1 "present"; mkSession 1 "absent"]
  /\ (exists e,
         validate_sessions "s1" 2 [mkSession 1 "present"; mkSession 1 "absent"] = Err e
         /\ mark_status e = HTTP_STATUS.BAD_REQUEST)
  /\ Permutation (map sessionNumber [mkSession 2 "absent"; mkSession 1 "present"])
                 (expectedSessions 2)
  /\ (exists entry,
         validate_sessions "s1" 2 [mkSession 2 "absent"; mkSession 1 "present"] = Ok entry
         /\ sa_sessions entry = [mkSession 2 "absent"; mkSession 1 "present"]).
Proof.
  assert (B : bad_coverage 2 [mkSession 1 "present"; mkSession 1 "absent"]).
  { left. cbn. intros H. inversion H as [|x l Hnin _]. apply Hnin. now left. }
  assert (P : Permutation (map sessionNumber [mkSession 2 "absent"; mkSession 1 "present"])
                (expectedSessions 2)) by (cbn; apply perm_swap).
  split; [exact B|]. split.
  - exact (proj1 (session_coverage_enforced "s1" 2
                    [mkSession 1 "present"; mkSession 1 "absent"]) B).
  - split; [exact P|].
    refine (proj2 (proj2 (proj2 (session_coverage_enforced "s1" 2
                     [mkSession 2 "absent"; mkSession 1 "present"]))
                     ltac:(lia) P) _).
    apply Forall_cons; [right; reflexivity|].
    apply Forall_cons; [left; reflexivity|]. apply Forall_nil.
Defined.

Lemma markAttendance_all_or_nothing_witness :
  In (mkInput "nobody" [mkSession 1 "present"; mkSession 2 "absent"])
     (req_attendance request_with_stranger)
  /\ exists e,
      markAttendance sample_parseDate sample_formatDate sample_clock "u1"
        request_with_stranger (sample_db [mkRosterEntry "s1" "active"])
      = (Err e, sample_db [mkRosterEntry "s1" "active"])
      /\ attendanceRecords
           (snd (markAttendance sample_parseDate sample_formatDate sample_clock "u1"
                   request_with_stranger (sample_db [mkRosterEntry "s1" "active"])))
         = attendanceRecords (sample_db [mkRosterEntry "s1" "active"]).
Proof.
  assert (I : In (mkInput "nobody" [mkSession 1 "present"; mkSession 2 "absent"])
                (req_attendance request_with_stranger))
    by (right; left; reflexivity).
  split; [exact I|].
  refine (proj1 (proj2 (markAttendance_all_or_nothing sample_parseDate sample_formatDate
                          sample_clock "u1" request_with_stranger
                          (sample_db [mkRosterEntry "s1" "active"])))
            _ I _).
  intros cs _. left. reflexivity.
Defined.




(* ================================================================== *)
(** * Further properties of the handlers and the models *)

(** ** Which errors a handler can answer *)

Lemma errs_in_ret {E A} (P : E -> Prop) (a : A) : errs_in P (@ret E A a).
Proof. intros db e db' H. discriminate H. Qed.

Lemma errs_in_sendError {E A} (P : E -> Prop) (e : E) : P e -> errs_in P (@sendError E A e).
Proof. intros He db e' db' H. inversion H; subst. exact He. Qed.

Lemma errs_in_reject_if {E} (P : E -> Prop) (c : bool) (e : E) :
  P e -> errs_in P (reject_if c e).
Proof.
  intros He db e' db' H. unfold reject_if in H.
  destruct c; inversion H; subst. exact He.
Qed.

Lemma errs_in_lift {E A} (P : E -> Prop) (r : Result E A) :
  (forall e, r = Err e -> P e) -> errs_in P (lift r).
Proof. intros Hr db e db' H. inversion H; subst. now apply Hr. Qed.

Lemma errs_in_bind {E A B} (P : E -> Prop) (m : M E A) (k : A -> M E B) :
  errs_in P m -> (forall a, errs_in P (k a)) -> errs_in P (bindM m k).
Proof.
  intros Hm Hk db e db' H. unfold bindM in H.
  destruct (m db) as [[a|e1] db1] eqn:Em.
  - eapply Hk; eassumption.
  - inversion H; subst. eapply Hm; eassumption.
Qed.

Lemma errs_in_find {E A} (P : E -> Prop) (m : M E A) :
  (forall db, exists a, m db = (Ok a, db)) -> errs_in P m.
Proof. intros Hm db e db' H. destruct (Hm db) as [a Ha]. congruence. Qed.

(** After the count, range and duplicate checks nothing can be missing: a
    list of [n] distinct numbers of 1..n contains each of them. *)
Lemma distinct_in_range_covers (n : Z) (l : list Z) :
  Z.of_nat (List.length l) = n ->
  Forall (fun k => 1 <= k <= n) l ->
  NoDup l ->
  missingSessions n l = [].
Proof.
  intros Hlen Hr Hnd. apply missingSessions_nil. intros k Hk.
  apply In_expectedSessions in Hk.
  assert (Hincl : incl (expectedSessions n) l).
  { apply NoDup_length_incl.
    - exact Hnd.
    - unfold expectedSessions. rewrite length_map, length_seq. lia.
    - intros x Hx. apply In_expectedSessions.
      rewrite Forall_forall in Hr. now apply Hr. }
  now apply Hincl.
Qed.

Lemma count_sessions_never_missing studentId n sessions :
  forall p a e,
    count_sessions studentId n sessions p a = Err e -> is_missing_error e = false.
Proof.
  induction sessions as [|s rest IH]; intros p a e H; cbn [count_sessions] in H;
    [discriminate|].
  destruct ((sessionNumber s <? 1) || (n <? sessionNumber s));
    [inversion H; reflexivity|].
  destruct (negb (includes ATTENDANCE_STATUS.values (status s)));
    [inversion H; reflexivity|].
  destruct (String.eqb (status s) ATTENDANCE_STATUS.PRESENT); eapply IH; eassumption.
Qed.

Lemma validate_sessions_never_missing studentId n sessions e :
  validate_sessions studentId n sessions = Err e -> is_missing_error e = false.
Proof.
  unfold validate_sessions. intros H.
  destruct (Z.of_nat (List.length sessions) =? n) eqn:Hlen; cbn [negb] in H;
    [|inversion H; reflexivity].
  apply Z.eqb_eq in Hlen.
  destruct (count_sessions studentId n sessions 0 0) as [[p a]|e0] eqn:Hc.
  - cbn [bind fst snd] in H.
    destruct (Nat.eqb _ _) eqn:Hd; cbn [negb] in H; [|inversion H; reflexivity].
    apply Nat.eqb_eq in Hd. symmetry in Hd. apply nodup_length_NoDup in Hd.
    apply count_sessions_ok in Hc. destruct Hc as (HF & _ & _).
    assert (Hnil : missingSessions n (map sessionNumber sessions) = []).
    { apply distinct_in_range_covers.
      - now rewrite length_map.
      - apply Forall_map. eapply Forall_impl; [|exact HF]. intros s [Hs _]. exact Hs.
      - exact Hd. }
    rewrite Hnil in H. discriminate H.
  - cbn [bind] in H. inversion H; subst e0.
    eapply count_sessions_never_missing; eassumption.
Qed.

Lemma errs_in_validate_student (P : MarkError -> Prop) cs n a :
  (forall e, is_missing_error e = false -> P e) ->
  errs_in P (validate_student cs n a).
Proof.
  intros HP. unfold validate_student. cbv zeta.
  apply errs_in_bind; [apply errs_in_find; intros db; eexists; reflexivity|].
  intros [student|]; [|apply errs_in_sendError; now apply HP].
  apply errs_in_bind; [apply errs_in_reject_if; now apply HP | intros _].
  apply errs_in_bind; [apply errs_in_reject_if; now apply HP | intros _].
  apply errs_in_lift. intros e He. apply HP.
  eapply validate_sessions_never_missing; eassumption.
Qed.

Lemma errs_in_validate_loop (P : MarkError -> Prop) cs n attendance :
  (forall e, is_missing_error e = false -> P e) ->
  forall acc, errs_in P (validate_loop cs n attendance acc).
Proof.
  intros HP. induction attendance as [|a rest IH]; intros acc; cbn [validate_loop].
  - apply errs_in_ret.
  - apply errs_in_bind; [now apply errs_in_validate_student | intros entry; apply IH].
Qed.

(** X1.  On requests whose session numbers are whole numbers (the values
    a [Session] holds), [markAttendance] never answers "is missing session
    number(s)": once an entry has exactly [numSessions] sessions, each a
    whole number within 1..numSessions and no number twice, every number is
    present, so the check after "FIX #1" cannot fail.  An array of whole
    numbers with a gap is rejected earlier, for its out-of-range or repeated
    number. *)
Theorem missing_sessions_never_reported
  (parseDate : string -> option Z) (formatDate : Z -> string)
  (clock : Clock) (userId : ObjectId) (req : MarkRequest) (db db' : Database)
  (e : MarkError) :
  markAttendance parseDate formatDate clock userId req db = (Err e, db') ->
  is_missing_error e = false.
Proof.
  revert db e db'.
  change (errs_in (fun e => is_missing_error e = false)
            (markAttendance parseDate formatDate clock userId req)).
  unfold markAttendance. cbv zeta.
  repeat (apply errs_in_bind; [apply errs_in_reject_if; reflexivity | intros _]).
  apply errs_in_bind; [apply errs_in_find; intros db; eexists; reflexivity|].
  intros [teacher|]; [|apply errs_in_sendError; reflexivity].
  apply errs_in_bind; [apply errs_in_find; intros db; eexists; reflexivity|].
  intros [cs|]; [|apply errs_in_sendError; reflexivity].
  repeat (apply errs_in_bind; [apply errs_in_reject_if; reflexivity | intros _]).
  destruct (parseDate (req_date req)) as [d|]; [|apply errs_in_sendError; reflexivity].
  apply errs_in_bind; [apply errs_in_reject_if; reflexivity | intros _].
  apply errs_in_bind; [apply errs_in_validate_loop; auto | intros validated].
  intros db e db' H. unfold AttendanceRecord_create in H.
  destruct (existsb _ _); inversion H; reflexivity.
Qed.

(** Sessions 1 and 3 of 2: the gap shows as a number out of range. *)
Lemma missing_sessions_never_reported_witness :
  markAttendance sample_parseDate sample_formatDate sample_clock "u1"
    (mkMarkRequest "cs1" "07-11-2025" "09:00" "10:30" 2
       [mkInput "s1" [mkSession 1 "present"; mkSession 3 "absent"]])
    (sample_db [mkRosterEntry "s1" "active"])
  = (Err (SessionNumberInvalid "s1" 3), sample_db [mkRosterEntry "s1" "active"])
  /\ is_missing_error (SessionNumberInvalid "s1" 3) = false.
Proof.
  assert (H : markAttendance sample_parseDate sample_formatDate sample_clock "u1"
                (mkMarkRequest "cs1" "07-11-2025" "09:00" "10:30" 2
                   [mkInput "s1" [mkSession 1 "present"; mkSession 3 "absent"]])
                (sample_db [mkRosterEntry "s1" "active"])
              = (Err (SessionNumberInvalid "s1" 3),
                 sample_db [mkRosterEntry "s1" "active"]))
    by (vm_compute; reflexivity).
  split; [exact H|].
  exact (missing_sessions_never_reported _ _ _ _ _ _ _ _ H).
Defined.

(** ** What a created record looks like *)

(** The two checks on the order and the distance of the times, which a
    successful call has passed. *)
Lemma markAttendance_times_checked parseDate formatDate clock userId req db r db' :
  markAttendance parseDate formatDate clock userId req db = (Ok r, db') ->
  exists s e,
    minutes_of (req_startTime req) = Some s /\ minutes_of (req_endTime req) = Some e
    /\ 0 <= s /\ s < e /\ e < 1440
    /\ s + SESSION_DURATION * req_numSessions req <= e.
Proof.
  intros H. pose proof (markAttendance_inversion _ _ _ _ _ _ _ _ H) as Hinv.
  destruct Hinv as (teacher & cs & d & _ & _ & _ & _ & _ & _ & Hn & Hs & He & _).
  destruct (timeRegex_minutes _ Hs) as (s & Ms & Bs & _).
  destruct (timeRegex_minutes _ He) as (e & Me & Be & _).
  unfold markAttendance in H. cbv zeta in H.
  apply bind_reject_ok in H. destruct H as [_ H].
  apply bind_reject_ok in H. destruct H as [_ H].
  apply bind_reject_ok in H. destruct H as [_ H].
  apply bind_reject_ok in H. destruct H as [_ H].
  apply bind_reject_ok in H. destruct H as [C5 H].
  apply bind_reject_ok in H. destruct H as [C6 _].
  rewrite Ms, Me in C5, C6. cbn [js_leb js_ltb js_sub] in C5, C6.
  apply Z.leb_gt in C5. apply Z.ltb_ge in C6.
  exists s, e. unfold SESSION_DURATION in *. repeat split; auto; lia.
Qed.

(** X2.  In a record [markAttendance] has created, while the server's
    offset from UTC does not change (from the start of the class to the end
    of the last slot, on the server's local day of the call), the session
    breakdown fits the class: the class starts before it ends, its [numSessions] slots of 45
    minutes start at the start time, follow one another without passing
    midnight, and the last one ends no later than the end time. *)
Theorem created_breakdown_within_class
  (parseDate : string -> option Z) (formatDate : Z -> string)
  (clock : Clock) (userId : ObjectId) (req : MarkRequest) (db db' : Database)
  (r : AttendanceRecord) (offset s : Z) :
  markAttendance parseDate formatDate clock userId req db = (Ok r, db') ->
  minutes_of (startTime r) = Some s ->
  steady clock offset s (s + SESSION_DURATION * numSessions r) ->
  exists e,
    minutes_of (endTime r) = Some e
    /\ 0 <= s /\ s < e /\ e < 1440
    /\ Z.of_nat (List.length (sessionBreakdown r)) = numSessions r
    /\ forall j slot,
         nth_error (sessionBreakdown r) j = Some slot ->
         slot_sessionNumber slot = Z.of_nat j + 1
         /\ minutes_of (slot_startTime slot) = Some (s + SESSION_DURATION * Z.of_nat j)
         /\ minutes_of (slot_endTime slot)
            = Some (s + SESSION_DURATION * Z.of_nat j + SESSION_DURATION)
         /\ s + SESSION_DURATION * Z.of_nat j + SESSION_DURATION <= e.
Proof.
  intros H Hms Hst.
  destruct (markAttendance_times_checked _ _ _ _ _ _ _ _ H)
    as (s' & e & Ms & Me & Bs & Hse & Be & Hfit).
  apply markAttendance_inversion in H.
  destruct H as (teacher & cs & d & _ & _ & _ & _ & _ & _ & Hn & Hs & He & _ & Hr & _).
  assert (Est : startTime r = req_startTime req) by (rewrite Hr; reflexivity).
  assert (Een : endTime r = req_endTime req) by (rewrite Hr; reflexivity).
  assert (En : numSessions r = req_numSessions req) by (rewrite Hr; reflexivity).
  assert (Eb : sessionBreakdown r
               = generateSessionBreakdown clock (req_startTime req) (req_endTime req)
                   (req_numSessions req)) by (rewrite Hr; reflexivity).
  rewrite Est in Hms. rewrite En in Hst.
  assert (s' = s) by congruence. subst s'.
  destruct (generateSessionBreakdown_partition_core clock offset (req_startTime req)
              (req_endTime req) (req_numSessions req) s Ms (proj1 Hn) Hst)
    as (Hlen & Hnth & _).
  rewrite <- Eb in Hlen, Hnth.
  exists e. rewrite Een, En.
  split; [exact Me|]. split; [exact Bs|]. split; [exact Hse|].
  split; [exact Be|]. split; [exact Hlen|].
  intros j slot Hj.
  assert (Hlt : (j < List.length (sessionBreakdown r))%nat)
    by (apply nth_error_Some; congruence).
  rewrite (Hnth j Hlt) in Hj. inversion Hj; subst slot.
  cbn [slot_sessionNumber slot_startTime slot_endTime].
  rewrite !minutes_of_timeString.
  assert (Hj' : Z.of_nat j + 1 <= req_numSessions req) by lia.
  unfold SESSION_DURATION in *.
  split; [reflexivity|].
  split; [f_equal; apply Z.mod_small; lia|].
  split; [f_equal; apply Z.mod_small; lia | lia].
Qed.

Lemma created_breakdown_within_class_witness :
  markAttendance sample_parseDate sample_formatDate sample_clock "u1" sample_request
    (sample_db [mkRosterEntry "s1" "active"])
  = (Ok (stored_record db_marked), db_marked)
  /\ minutes_of (startTime (stored_record db_marked)) = Some 540
  /\ steady sample_clock 19800000 540
       (540 + SESSION_DURATION * numSessions (stored_record db_marked))
  /\ Z.of_nat (List.length (sessionBreakdown (stored_record db_marked)))
     = numSessions (stored_record db_marked).
Proof.
  assert (H : markAttendance sample_parseDate sample_formatDate sample_clock "u1"
                sample_request (sample_db [mkRosterEntry "s1" "active"])
              = (Ok (stored_record db_marked), db_marked))
    by (vm_compute; reflexivity).
  assert (Hm : minutes_of (startTime (stored_record db_marked)) = Some 540)
    by (vm_compute; reflexivity).
  assert (Hs : steady sample_clock 19800000 540
                 (540 + SESSION_DURATION * numSessions (stored_record db_marked)))
    by (apply sample_clock_steady; vm_compute; discriminate).
  split; [exact H|]. split; [exact Hm|]. split; [exact Hs|].
  destruct (created_breakdown_within_class _ _ _ _ _ _ _ _ _ _ H Hm Hs)
    as (e & _ & _ & _ & _ & Hlen & _).
  exact Hlen.
Defined.

Lemma find_app_none {A} (p : A -> bool) (l l' : list A) :
  find p l = None -> find p (l ++ l') = find p l'.
Proof.
  induction l as [|x l IH]; intros H; [reflexivity|]. cbn in H |- *.
  destruct (p x); [discriminate | now apply IH].
Qed.

(** X3.  A record is created only for the caller's own teacher profile,
    on an active class section that this teacher teaches, for a date that is
    not in the future and under a record id that was not in use; it is
    stored as returned, unfinalized, with [markedBy] the teacher and no
    modification recorded yet. *)
Theorem created_record_provenance
  (parseDate : string -> option Z) (formatDate : Z -> string)
  (clock : Clock) (userId : ObjectId) (req : MarkRequest) (db db' : Database)
  (r : AttendanceRecord) :
  markAttendance parseDate formatDate clock userId req db = (Ok r, db') ->
  exists teacher cs,
    find_teacher userId db = Some teacher
    /\ find (fun c => String.eqb (cs_id c) (req_classSectionId req)) (classSections db)
       = Some cs
    /\ cs_isActive cs = true
    /\ cs_teacherId cs = t_id teacher
    /\ rec_teacherId r = t_id teacher /\ markedBy r = t_id teacher
    /\ markedAt r = now clock
    /\ rec_classSectionId r = cs_id cs
    /\ rec_subjectId r = subj_id (cs_subjectId cs)
    /\ rec_semester r = cs_semester cs
    /\ parseDate (req_date req) = Some (rec_date r) /\ rec_date r <= today clock
    /\ isFinalized r = false /\ lastModifiedBy r = None /\ lastModifiedAt r = None
    /\ find_record (recordId r) db = None
    /\ find_record (recordId r) db' = Some r
    /\ List.length (attendanceRecords db') = S (List.length (attendanceRecords db)).
Proof.
  intros H. apply markAttendance_inversion in H.
  destruct H as (teacher & cs & d & Ht & Hc & Hact & Hasg & Hd & Hle & _ & _ & _ & _
                 & Hr & Hfresh & Hdb).
  exists teacher, cs.
  assert (Hid : cs_id cs = req_classSectionId req).
  { apply find_some in Hc. destruct Hc as [_ Hc]. now apply String.eqb_eq in Hc. }
  assert (Hnone : find_record (recordId r) db = None)
    by (unfold find_record; apply find_none_existsb; exact Hfresh).
  assert (F1 : rec_teacherId r = t_id teacher) by (rewrite Hr; reflexivity).
  assert (F2 : markedBy r = t_id teacher) by (rewrite Hr; reflexivity).
  assert (F3 : markedAt r = now clock) by (rewrite Hr; reflexivity).
  assert (F4 : rec_classSectionId r = cs_id cs) by (rewrite Hr, Hid; reflexivity).
  assert (F5 : rec_subjectId r = subj_id (cs_subjectId cs)) by (rewrite Hr; reflexivity).
  assert (F6 : rec_semester r = cs_semester cs) by (rewrite Hr; reflexivity).
  assert (F7 : rec_date r = d) by (rewrite Hr; reflexivity).
  assert (F8 : isFinalized r = false) by (rewrite Hr; reflexivity).
  assert (F9 : lastModifiedBy r = None) by (rewrite Hr; reflexivity).
  assert (F10 : lastModifiedAt r = None) by (rewrite Hr; reflexivity).
  rewrite F7.
  split; [exact Ht|]. split; [exact Hc|]. split; [exact Hact|]. split; [exact Hasg|].
  split; [exact F1|]. split; [exact F2|]. split; [exact F3|]. split; [exact F4|].
  split; [exact F5|]. split; [exact F6|]. split; [exact Hd|]. split; [exact Hle|].
  split; [exact F8|]. split; [exact F9|]. split; [exact F10|].
  split; [exact Hnone|]. split.
  - subst db'. unfold find_record, set_attendanceRecords. cbn [attendanceRecords].
    unfold find_record in Hnone. rewrite (find_app_none _ _ _ Hnone).
    cbn [find]. now rewrite String.eqb_refl.
  - subst db'. cbn [set_attendanceRecords attendanceRecords].
    rewrite length_app. cbn [List.length]. lia.
Qed.

Lemma created_record_provenance_witness :
  markAttendance sample_parseDate sample_formatDate sample_clock "u1" sample_request
    (sample_db [mkRosterEntry "s1" "active"])
  = (Ok (stored_record db_marked), db_marked)
  /\ exists teacher cs,
      find_teacher "u1" (sample_db [mkRosterEntry "s1" "active"]) = Some teacher
      /\ cs_teacherId cs = t_id teacher
      /\ markedBy (stored_record db_marked) = t_id teacher.
Proof.
  assert (H : markAttendance sample_parseDate sample_formatDate sample_clock "u1"
                sample_request (sample_db [mkRosterEntry "s1" "active"])
              = (Ok (stored_record db_marked), db_marked))
    by (vm_compute; reflexivity).
  split; [exact H|].
  destruct (created_record_provenance _ _ _ _ _ _ _ _ H)
    as (teacher & cs & Ht & _ & _ & Ha & _ & Hm & _).
  exists teacher, cs. auto.
Defined.

Lemma Forall2_map_eq {A B C} (f : B -> C) (g : A -> C) (l : list A) (l' : list B) :
  Forall2 (fun a b => f b = g a) l l' -> map f l' = map g l.
Proof. induction 1 as [|a b l l' E _ IH]; cbn; [reflexivity | now rewrite E, IH]. Qed.

Lemma Forall2_Forall_r {A B} (Q : B -> Prop) (l : list A) (l' : list B) :
  Forall2 (fun _ b => Q b) l l' -> Forall Q l'.
Proof. induction 1; constructor; assumption. Qed.

(** X4.  The attendance of a created record mirrors the request: one entry
    per request entry, in the same order, with the same student and the same
    sessions; each of these students exists, is enrolled in the section's
    subject and is on the section's roster; and each entry's sessions carry
    the numbers 1..numSessions exactly once, with valid statuses. *)
Theorem created_record_mirrors_request
  (parseDate : string -> option Z) (formatDate : Z -> string)
  (clock : Clock) (userId : ObjectId) (req : MarkRequest) (db db' : Database)
  (r : AttendanceRecord) :
  markAttendance parseDate formatDate clock userId req db = (Ok r, db') ->
  map sa_studentId (attendance r) = map in_studentId (req_attendance req)
  /\ map sa_sessions (attendance r) = map in_sessions (req_attendance req)
  /\ attendance r <> []
  /\ exists cs,
       find (fun c => String.eqb (cs_id c) (req_classSectionId req)) (classSections db)
       = Some cs
       /\ Forall (fun sa =>
                    (exists student,
                        find (fun s => String.eqb (st_id s) (sa_studentId sa))
                             (students db) = Some student
                        /\ isEnrolled student cs = true)
                    /\ isInSection cs (sa_studentId sa) = true
                    /\ Permutation (map sessionNumber (sa_sessions sa))
                         (expectedSessions (numSessions r))
                    /\ Forall (fun s => valid_status (status s)) (sa_sessions sa))
                 (attendance r).
Proof.
  intros H.
  assert (Hne : req_attendance req <> []).
  { intros E. unfold markAttendance in H. cbv zeta in H.
    do 6 (apply bind_reject_ok in H; destruct H as [_ H]).
    apply bind_reject_ok in H. destruct H as [C _]. rewrite E in C. discriminate C. }
  apply markAttendance_inversion in H.
  destruct H as (teacher & cs & d & _ & Hc & _ & _ & _ & _ & _ & _ & _ & HF & Hr & _).
  assert (En : numSessions r = req_numSessions req) by (rewrite Hr; reflexivity).
  assert (Hentry : Forall2 (fun a sa =>
             sa_studentId sa = in_studentId a /\ sa_sessions sa = in_sessions a
             /\ (exists student,
                    find (fun s => String.eqb (st_id s) (sa_studentId sa)) (students db)
                    = Some student /\ isEnrolled student cs = true)
             /\ isInSection cs (sa_studentId sa) = true
             /\ Permutation (map sessionNumber (sa_sessions sa))
                  (expectedSessions (numSessions r))
             /\ Forall (fun s => valid_status (status s)) (sa_sessions sa))
            (req_attendance req) (attendance r)).
  { eapply Forall2_impl; [|exact HF]. intros a sa Hv.
    apply validate_student_inversion in Hv.
    destruct Hv as (student & Hst & Hen & Hsec & Hv).
    apply validate_sessions_inversion in Hv.
    destruct Hv as (Hlen & HFs & Hnd & Hcov & ->).
    cbn [sa_studentId sa_sessions]. rewrite En.
    split; [reflexivity|]. split; [reflexivity|]. split; [eauto|]. split; [assumption|].
    split.
    - apply NoDup_Permutation; [assumption | apply NoDup_expectedSessions|].
      intros k. rewrite In_expectedSessions. split.
      + intros Hk. apply in_map_iff in Hk. destruct Hk as (s0 & <- & Hs0).
        rewrite Forall_forall in HFs. now apply HFs.
      + apply Hcov.
    - eapply Forall_impl; [|exact HFs]. intros s0 [_ Hs0]. exact Hs0. }
  split.
  { apply Forall2_map_eq. eapply Forall2_impl; [|exact Hentry].
    intros a sa (E & _). exact E. }
  split.
  { apply Forall2_map_eq. eapply Forall2_impl; [|exact Hentry].
    intros a sa (_ & E & _). exact E. }
  split.
  { intros E. rewrite E in Hentry. inversion Hentry as [E0|]. now apply Hne. }
  exists cs. split; [exact Hc|].
  eapply Forall2_Forall_r. eapply Forall2_impl; [|exact Hentry].
  intros a sa (_ & _ & Hrest). exact Hrest.
Qed.

Lemma created_record_mirrors_request_witness :
  markAttendance sample_parseDate sample_formatDate sample_clock "u1" sample_request
    (sample_db [mkRosterEntry "s1" "active"])
  = (Ok (stored_record db_marked), db_marked)
  /\ map sa_studentId (attendance (stored_record db_marked))
     = map in_studentId (req_attendance sample_request).
Proof.
  assert (H : markAttendance sample_parseDate sample_formatDate sample_clock "u1"
                sample_request (sample_db [mkRosterEntry "s1" "active"])
              = (Ok (stored_record db_marked), db_marked))
    by (vm_compute; reflexivity).
  split; [exact H|].
  exact (proj1 (created_record_mirrors_request _ _ _ _ _ _ _ _ H)).
Defined.

(** ** When a creation goes through *)

Lemma validate_sessions_accepts studentId n sessions :
  0 <= n ->
  Permutation (map sessionNumber sessions) (expectedSessions n) ->
  Forall (fun s => valid_status (status s)) sessions ->
  validate_sessions studentId n sessions
  = Ok (mkStudentAttendance studentId sessions
          (count_status ATTENDANCE_STATUS.PRESENT sessions)
          (count_status ATTENDANCE_STATUS.ABSENT sessions)
          (JSNumber.percentage (count_status ATTENDANCE_STATUS.PRESENT sessions) n)).
Proof.
  intros Hn Hperm Hst.
  assert (Hlen : Z.of_nat (List.length sessions) = n).
  { rewrite <- (length_map sessionNumber), (Permutation_length Hperm).
    unfold expectedSessions. rewrite length_map, length_seq. lia. }
  assert (HF : Forall (fun s => 1 <= sessionNumber s <= n /\ valid_status (status s))
                 sessions).
  { rewrite Forall_forall in Hst |- *. intros s Hs. split; [|now apply Hst].
    apply In_expectedSessions. eapply Permutation_in; [exact Hperm|]. now apply in_map. }
  assert (Hnd : NoDup (map sessionNumber sessions))
    by (eapply Permutation_NoDup; [symmetry; exact Hperm | apply NoDup_expectedSessions]).
  assert (Hcov : missingSessions n (map sessionNumber sessions) = []).
  { apply missingSessions_nil. intros k Hk.
    eapply Permutation_in; [symmetry; exact Hperm | now apply In_expectedSessions]. }
  destruct (count_sessions_total studentId n sessions HF 0 0) as (p & a & Hc).
  pose proof (count_sessions_ok _ _ _ _ _ _ _ Hc) as (_ & Hp & Ha).
  unfold validate_sessions. rewrite Hlen, Z.eqb_refl. cbn [negb].
  rewrite Hc. cbn [bind fst snd].
  replace (Nat.eqb (List.length (map sessionNumber sessions))
             (List.length (nodup Z.eq_dec (map sessionNumber sessions)))) with true
    by (symmetry; apply Nat.eqb_eq; symmetry; now apply nodup_length_NoDup).
  rewrite Hcov. cbn [negb List.length Nat.ltb Nat.leb]. subst p a. reflexivity.
Qed.

Lemma validate_student_accepts cs n a db student entry :
  find (fun s => String.eqb (st_id s) (in_studentId a)) (students db) = Some student ->
  isEnrolled student cs = true ->
  isInSection cs (in_studentId a) = true ->
  validate_sessions (in_studentId a) n (in_sessions a) = Ok entry ->
  validate_student cs n a db = (Ok entry, db).
Proof.
  intros Hst Hen Hsec Hv. unfold validate_student. cbv zeta.
  unfold bindM at 1. unfold Student_findById at 1. rewrite Hst.
  rewrite bind_reject_false by (rewrite Hen; reflexivity).
  rewrite bind_reject_false by (rewrite Hsec; reflexivity).
  unfold lift. now rewrite Hv.
Qed.

Lemma validate_loop_accepts cs n db attendance :
  forall entries acc,
    Forall2 (fun a entry => validate_student cs n a db = (Ok entry, db))
            attendance entries ->
    validate_loop cs n attendance acc db = (Ok (acc ++ entries)%list, db).
Proof.
  induction attendance as [|a rest IH]; intros entries acc HF; inversion HF; subst;
    cbn [validate_loop].
  - now rewrite app_nil_r.
  - unfold bindM. rewrite H1. rewrite (IH _ _ H3). now rewrite <- app_assoc.
Qed.

(** X5.  A request that meets every check is accepted: well-formed times
    at least [numSessions] * 45 minutes apart, 1..10 sessions, a non-empty
    attendance list, the caller's teacher profile assigned to the active
    section, a date that parses and is not in the future, every student
    existing, enrolled and on the roster with sessions numbered 1..numSessions
    once each and valid statuses, and a record id not yet in use.  The record
    is then appended to the store, with one computed entry per request entry. *)
Theorem markAttendance_accepts
  (parseDate : string -> option Z) (formatDate : Z -> string)
  (clock : Clock) (userId : ObjectId) (req : MarkRequest) (db : Database)
  (teacher : Teacher) (cs : ClassSection) (d s e : Z) :
  req_classSectionId req <> "" ->
  req_date req <> "" ->
  timeRegex_test (req_startTime req) = true ->
  timeRegex_test (req_endTime req) = true ->
  minutes_of (req_startTime req) = Some s ->
  minutes_of (req_endTime req) = Some e ->
  s + SESSION_DURATION * req_numSessions req <= e ->
  1 <= req_numSessions req <= MAX_SESSIONS_PER_CLASS ->
  req_attendance req <> [] ->
  find_teacher userId db = Some teacher ->
  find (fun c => String.eqb (cs_id c) (req_classSectionId req)) (classSections db)
  = Some cs ->
  cs_isActive cs = true ->
  cs_teacherId cs = t_id teacher ->
  parseDate (req_date req) = Some d ->
  d <= today clock ->
  Forall (fun a =>
            (exists student,
                find (fun st => String.eqb (st_id st) (in_studentId a)) (students db)
                = Some student
                /\ isEnrolled student cs = true)
            /\ isInSection cs (in_studentId a) = true
            /\ Permutation (map sessionNumber (in_sessions a))
                 (expectedSessions (req_numSessions req))
            /\ Forall (fun x => valid_status (status x)) (in_sessions a))
         (req_attendance req) ->
  find_record (uppercase (make_recordId formatDate clock d cs)) db = None ->
  exists r,
    markAttendance parseDate formatDate clock userId req db
    = (Ok r, set_attendanceRecords db (attendanceRecords db ++ [r]))
    /\ recordId r = uppercase (make_recordId formatDate clock d cs)
    /\ attendance r = map (accepted_entry (req_numSessions req)) (req_attendance req).
Proof.
  intros Hcs Hdate Hrs Hre Ms Me Hfit Hn Hne Ht Hc Hact Hasg Hd Hle Hall Hfresh.
  assert (Hstart : req_startTime req <> "")
    by (intros E; rewrite E in Hrs; discriminate).
  assert (Hend : req_endTime req <> "")
    by (intros E; rewrite E in Hre; discriminate).
  assert (Hloop : validate_loop cs (req_numSessions req) (req_attendance req) [] db
                  = (Ok (map (accepted_entry (req_numSessions req)) (req_attendance req)),
                     db)).
  { rewrite (validate_loop_accepts cs (req_numSessions req) db (req_attendance req)
               (map (accepted_entry (req_numSessions req)) (req_attendance req)) []);
      [reflexivity|].
    clear Hne. induction Hall as [|a rest Ha _ IH]; cbn [map]; constructor; [|exact IH].
    destruct Ha as ((student & Hst & Hen) & Hsec & Hperm & Hval).
    eapply validate_student_accepts; try eassumption.
    apply validate_sessions_accepts; [lia | assumption | assumption]. }
  unfold find_teacher in Ht. unfold find_record in Hfresh.
  eexists. split; [|split].
  - unfold markAttendance. cbv zeta.
    rewrite bind_reject_false.
    2:{ apply String.eqb_neq in Hcs, Hdate, Hstart, Hend.
        rewrite Hcs, Hdate, Hstart, Hend. cbn [orb]. apply Z.eqb_neq. lia. }
    rewrite bind_reject_false
      by (apply orb_false_iff; split; apply Z.ltb_ge; lia).
    rewrite bind_reject_false by (rewrite Hrs; reflexivity).
    rewrite bind_reject_false by (rewrite Hre; reflexivity).
    rewrite Ms, Me. cbn [js_leb js_sub js_ltb].
    rewrite bind_reject_false
      by (apply Z.leb_gt; unfold SESSION_DURATION in Hfit; lia).
    rewrite bind_reject_false
      by (apply Z.ltb_ge; unfold SESSION_DURATION in *; lia).
    rewrite bind_reject_false
      by (destruct (req_attendance req); [now elim Hne | reflexivity]).
    unfold bindM at 1. unfold Teacher_findOne at 1. rewrite Ht.
    unfold bindM at 1. unfold ClassSection_findById at 1. rewrite Hc.
    rewrite bind_reject_false by (rewrite Hact; reflexivity).
    rewrite bind_reject_false by (rewrite Hasg, String.eqb_refl; reflexivity).
    rewrite Hd.
    rewrite bind_reject_false by (apply Z.ltb_ge; lia).
    unfold bindM at 1. rewrite Hloop.
    unfold AttendanceRecord_create. cbn [recordId].
    replace (existsb _ (attendanceRecords db)) with false; [reflexivity|].
    symmetry. destruct (existsb _ (attendanceRecords db)) eqn:Ex; [|reflexivity].
    destruct (find_existsb _ _ Ex) as (x & Hx). congruence.
  - reflexivity.
  - reflexivity.
Qed.

Lemma markAttendance_accepts_witness :
  exists r,
    markAttendance sample_parseDate sample_formatDate sample_clock "u1" sample_request
      (sample_db [mkRosterEntry "s1" "active"])
    = (Ok r, set_attendanceRecords (sample_db [mkRosterEntry "s1" "active"])
               (attendanceRecords (sample_db [mkRosterEntry "s1" "active"]) ++ [r]))
    /\ recordId r = sample_recordId.
Proof.
  destruct (markAttendance_accepts sample_parseDate sample_formatDate sample_clock "u1"
              sample_request (sample_db [mkRosterEntry "s1" "active"])
              teacher1 (section1 [mkRosterEntry "s1" "active"]) 20399 540 630)
    as (r & Hm & Hid & _).
  - discriminate.
  - discriminate.
  - reflexivity.
  - reflexivity.
  - reflexivity.
  - reflexivity.
  - vm_compute. discriminate.
  - vm_compute. split; discriminate.
  - discriminate.
  - reflexivity.
  - reflexivity.
  - reflexivity.
  - reflexivity.
  - reflexivity.
  - vm_compute. discriminate.
  - constructor; [|constructor]. split; [exists student1; split; reflexivity|].
    split; [reflexivity|]. split; [apply Permutation_refl|].
    constructor; [left; reflexivity|]. constructor; [right; reflexivity | constructor].
  - reflexivity.
  - exists r. split; [exact Hm|]. rewrite Hid. vm_compute. reflexivity.
Defined.

(** ** What no edit changes *)

Lemma status_edit_of_refl r : status_edit_of r r.
Proof. unfold status_edit_of. repeat split. Qed.

Lemma status_edit_of_trans r1 r2 r3 :
  status_edit_of r1 r2 -> status_edit_of r2 r3 -> status_edit_of r1 r3.
Proof.
  unfold status_edit_of. intros (A1 & A2 & A3 & A4 & A5 & A6) (B1 & B2 & B3 & B4 & B5 & B6).
  repeat split; congruence.
Qed.

Lemma map_update_first {A B} (g : A -> B) (p : A -> bool) (f : A -> A) (l : list A) :
  (forall x, g (f x) = g x) -> map g (update_first p f l) = map g l.
Proof.
  intros H. induction l as [|x l IH]; [reflexivity|]. cbn [update_first].
  destruct (p x); cbn [map]; [now rewrite H | now rewrite IH].
Qed.

Lemma set_session_status_numbers n st l :
  map sessionNumber (set_session_status n st l) = map sessionNumber l.
Proof. unfold set_session_status. apply map_update_first. reflexivity. Qed.

Lemma apply_session_updates_numbers (sessionsData : list Session) :
  forall sessions sessions',
    apply_session_updates sessionsData sessions = Ok sessions' ->
    map sessionNumber sessions' = map sessionNumber sessions.
Proof.
  induction sessionsData as [|u rest IH]; intros sessions sessions' H;
    cbn [apply_session_updates] in H.
  - now inversion H.
  - destruct ((sessionNumber u =? 0) || String.eqb (status u) ""); [discriminate|].
    destruct (negb (includes ATTENDANCE_STATUS.values (status u))); [discriminate|].
    apply IH in H. now rewrite set_session_status_numbers in H.
Qed.

Lemma calculateStudentTotals_status_edit this studentId r :
  calculateStudentTotals this studentId = Ok r -> status_edit_of this r.
Proof.
  unfold calculateStudentTotals. intros H.
  destruct (find _ (attendance this)); [|inversion H; apply status_edit_of_refl].
  destruct (negb _); [discriminate|]. inversion H; subst r.
  unfold status_edit_of, immutable_fields, record_shape. cbn.
  repeat split. apply map_update_first. reflexivity.
Qed.

(** Replacing the sessions of the student's entry by sessions with the same
    numbers. *)
Lemma replace_sessions_status_edit this studentId sa sessions' :
  find (is_student studentId) (attendance this) = Some sa ->
  map sessionNumber sessions' = map sessionNumber (sa_sessions sa) ->
  status_edit_of this
    (set_attendance this
       (update_first (is_student studentId) (set_sessions sessions') (attendance this))).
Proof.
  intros Hfind Hnum. unfold status_edit_of, immutable_fields, record_shape. cbn.
  repeat split.
  clear - Hfind Hnum. induction (attendance this) as [|x l IH]; [reflexivity|].
  cbn [find] in Hfind. cbn [update_first].
  destruct (is_student studentId x) eqn:Hp.
  - inversion Hfind; subst x. cbn [map]. f_equal.
    unfold entry_shape. cbn. now rewrite Hnum.
  - cbn [map]. f_equal. now apply IH.
Qed.

Lemma updateWithAudit_status_edit this u now :
  status_edit_of this (updateWithAudit this u now).
Proof. unfold status_edit_of. repeat split. Qed.

Lemma updateStudentAllSessions_status_edit this studentId sessionsData modifiedBy now r :
  updateStudentAllSessions this studentId sessionsData modifiedBy now = Ok r ->
  status_edit_of this r.
Proof.
  unfold updateStudentAllSessions. intros H.
  destruct (find _ (attendance this)) as [sa|] eqn:Hfind; [|discriminate].
  destruct (Nat.eqb _ 0); [discriminate|].
  destruct (apply_session_updates _ _) as [s'|] eqn:Hu; [|discriminate]. cbn [bind] in H.
  destruct (calculateStudentTotals _ studentId) as [r2|] eqn:Hc; [|discriminate].
  cbn [bind] in H. inversion H; subst r.
  apply apply_session_updates_numbers in Hu.
  eapply status_edit_of_trans; [eapply replace_sessions_status_edit; eassumption|].
  eapply status_edit_of_trans; [eapply calculateStudentTotals_status_edit; eassumption|].
  apply updateWithAudit_status_edit.
Qed.

Lemma updateAttendance_status_edit (newAttendanceData : list AttendanceInput) :
  forall this modifiedBy now r,
    updateAttendance this newAttendanceData modifiedBy now = Ok r ->
    status_edit_of this r.
Proof.
  induction newAttendanceData as [|u rest IH]; intros this modifiedBy now r H;
    cbn [updateAttendance] in H.
  - inversion H; subst. apply status_edit_of_refl.
  - destruct (String.eqb (in_studentId u) ""); [discriminate|].
    destruct (updateStudentAllSessions _ _ _ _ _) as [this'|] eqn:Hu; [|discriminate].
    cbn [bind] in H.
    eapply status_edit_of_trans;
      [eapply updateStudentAllSessions_status_edit; eassumption | eapply IH; eassumption].
Qed.

Lemma updateStudentSession_status_edit this studentId n newStatus modifiedBy now r :
  updateStudentSession this studentId n newStatus modifiedBy now = Ok r ->
  status_edit_of this r.
Proof.
  unfold updateStudentSession. intros H.
  destruct (negb _); [discriminate|].
  destruct (find (is_student studentId) (attendance this)) as [sa|] eqn:Hfind;
    [|discriminate].
  destruct (find _ (sa_sessions sa)); [|discriminate].
  destruct (calculateStudentTotals _ studentId) as [r2|] eqn:Hc; [|discriminate].
  cbn [bind] in H. inversion H; subst r.
  eapply status_edit_of_trans;
    [eapply replace_sessions_status_edit;
     [eassumption | apply set_session_status_numbers]|].
  eapply status_edit_of_trans; [eapply calculateStudentTotals_status_edit; eassumption|].
  apply updateWithAudit_status_edit.
Qed.

Lemma recalculateAllTotals_status_edit this :
  status_edit_of this (recalculateAllTotals this).
Proof.
  unfold status_edit_of, immutable_fields, record_shape, recalculateAllTotals. cbn.
  repeat split. rewrite map_map. apply map_ext. reflexivity.
Qed.

Lemma method_edit_status_edit r r' : method_edit r r' -> status_edit_of r r'.
Proof.
  intros H. destruct H as [? ? ? ? ? ? H | ? ? ? ? ? H | ? ? ? ? H | ].
  - eapply updateStudentSession_status_edit; eassumption.
  - eapply updateStudentAllSessions_status_edit; eassumption.
  - eapply updateAttendance_status_edit; eassumption.
  - apply recalculateAllTotals_status_edit.
Qed.

(** ** Invariants of the reachable stores *)

Lemma range_NoDup_Permutation (n : Z) (l : list Z) :
  Forall (fun k => 1 <= k <= n) l -> NoDup l ->
  (forall k, 1 <= k <= n -> In k l) ->
  Permutation l (expectedSessions n).
Proof.
  intros Hr Hnd Hall. apply NoDup_Permutation; [assumption | apply NoDup_expectedSessions|].
  intros k. rewrite In_expectedSessions. rewrite Forall_forall in Hr. split; auto.
Qed.

Lemma sessions_complete_shape r r' :
  record_shape r' = record_shape r -> numSessions r' = numSessions r ->
  sessions_complete r -> sessions_complete r'.
Proof.
  unfold sessions_complete, record_shape. intros Hs Hn H. rewrite Hn.
  assert (G : forall l,
             Forall (fun sa => Permutation (map sessionNumber (sa_sessions sa))
                                 (expectedSessions (numSessions r))) l
             <-> Forall (fun sh => Permutation (snd sh) (expectedSessions (numSessions r)))
                        (map entry_shape l)).
  { intros l. rewrite Forall_map. reflexivity. }
  apply G. rewrite Hs. apply G. exact H.
Qed.

Lemma status_edit_of_numSessions r r' : status_edit_of r r' -> numSessions r' = numSessions r.
Proof.
  intros (H & _). unfold immutable_fields in H. congruence.
Qed.

Lemma status_edit_of_recordId r r' : status_edit_of r r' -> recordId r' = recordId r.
Proof.
  intros (H & _). unfold immutable_fields in H. congruence.
Qed.

Lemma status_edit_of_wf P r r' :
  status_edit_of r r' -> record_wf P r -> record_wf P r'.
Proof.
  intros Hse [Hc (Hs & He & Hr & Hb)].
  pose proof (status_edit_of_numSessions _ _ Hse) as Hn.
  destruct Hse as (_ & Hshape & Es & Ee & Eb & _).
  split; [now apply (sessions_complete_shape r)|].
  unfold schedule_ok. rewrite Es, Ee, Eb, Hn. auto.
Qed.

Lemma markAttendance_record_wf (P : Clock -> Prop)
  parseDate formatDate clock userId req db r db' :
  P clock ->
  markAttendance parseDate formatDate clock userId req db = (Ok r, db') ->
  record_wf P r.
Proof.
  intros HP H. apply markAttendance_inversion in H.
  destruct H as (teacher & cs & d & _ & _ & _ & _ & _ & _ & Hn & Hs & He & HF & Hr & _).
  assert (En : numSessions r = req_numSessions req) by (rewrite Hr; reflexivity).
  assert (Es : startTime r = req_startTime req) by (rewrite Hr; reflexivity).
  assert (Ee : endTime r = req_endTime req) by (rewrite Hr; reflexivity).
  assert (Eb : sessionBreakdown r
               = generateSessionBreakdown clock (req_startTime req) (req_endTime req)
                   (req_numSessions req)) by (rewrite Hr; reflexivity).
  split.
  - unfold sessions_complete. rewrite En. apply Forall_forall. intros entry Hin.
    destruct (Forall2_In_r _ _ _ _ HF Hin) as (a & _ & Hv).
    apply validate_student_inversion in Hv. destruct Hv as (st & _ & _ & _ & Hv).
    apply validate_sessions_inversion in Hv.
    destruct Hv as (_ & Hrange & Hnd & Hall & ->). cbn [sa_sessions].
    apply range_NoDup_Permutation; [|assumption|assumption].
    apply Forall_map. eapply Forall_impl; [|exact Hrange]. cbn. tauto.
  - unfold schedule_ok. rewrite Es, Ee, Eb, En.
    split; [exact Hs|]. split; [exact He|]. split; [exact Hn|].
    exists clock. split; [exact HP | reflexivity].
Qed.

Lemma edited_record_wf (P : Clock -> Prop) clock patch r1 :
  P clock ->
  (truthy (p_startTime patch) = true -> timeRegex_test (p_startTime patch) = true) ->
  (truthy (p_endTime patch) = true -> timeRegex_test (p_endTime patch) = true) ->
  record_wf P r1 -> record_wf P (edited_record clock patch r1).
Proof.
  intros HP Hs He [Hc (Ws & We & Wr & Wb)]. split.
  - destruct (edited_record_attendance clock patch r1) as (Ea & En & _).
    unfold sessions_complete. rewrite Ea, En. exact Hc.
  - unfold schedule_ok, edited_record.
    destruct (truthy (p_startTime patch)), (truthy (p_endTime patch)),
      (p_isFinalized patch); cbn;
      (split; [auto|]); (split; [auto|]); (split; [exact Wr|]);
      try exact Wb; exists clock; (split; [exact HP | reflexivity]).
Qed.

Lemma saved_ids doc db :
  map recordId (attendanceRecords (saved doc db)) = map recordId (attendanceRecords db).
Proof.
  unfold saved, AttendanceRecord_save. cbn.
  induction (attendanceRecords db) as [|x l IH]; [reflexivity|]. cbn [update_first].
  destruct (String.eqb (recordId x) (recordId doc)) eqn:E; cbn [map].
  - apply String.eqb_eq in E. now rewrite E.
  - now rewrite IH.
Qed.

Lemma saved_wf P doc db : db_wf P db -> record_wf P doc -> db_wf P (saved doc db).
Proof.
  intros [Hu Hf] Hdoc. split.
  - unfold unique_ids. now rewrite saved_ids.
  - unfold saved, AttendanceRecord_save. cbn. apply Forall_update_first; auto.
Qed.

Lemma existsb_eqb_not_In (rid : string) (l : list AttendanceRecord) :
  existsb (fun r0 => String.eqb (recordId r0) rid) l = false ->
  ~ In rid (map recordId l).
Proof.
  intros H Hin. apply in_map_iff in Hin. destruct Hin as (r0 & E & Hin).
  assert (T : existsb (fun r0 => String.eqb (recordId r0) rid) l = true).
  { apply existsb_exists. exists r0. split; [assumption|]. now apply String.eqb_eq. }
  congruence.
Qed.

Lemma db_step_with_wf P parseDate formatDate db db' :
  db_wf P db -> db_step_with P parseDate formatDate db db' -> db_wf P db'.
Proof.
  intros Hwf Hstep.
  destruct Hstep as [clock u req db HP | clock u rid patch db HP
                     | db r r' Hin Hm | db ts cs ss].
  - destruct (markAttendance parseDate formatDate clock u req db) as [[r|e] db'] eqn:Hm;
      cbn [snd].
    + pose proof (markAttendance_record_wf P _ _ _ _ _ _ _ _ HP Hm) as Hr.
      apply markAttendance_inversion in Hm.
      destruct Hm as (teacher & cs & d & H). decompose [and] H. subst db'.
      destruct Hwf as [Hu Hf]. split.
      * unfold unique_ids. cbn. rewrite map_app. cbn [map].
        apply NoDup_app; [exact Hu | repeat constructor; intros [] |].
        intros x Hx [<-|[]]. revert Hx. now apply existsb_eqb_not_In.
      * cbn. apply Forall_app. split; [exact Hf | now constructor].
    + apply markAttendance_err_preserves in Hm. now subst.
  - destruct (editAttendanceRecord clock u rid patch db) as [[r|e] db'] eqn:He; cbn [snd].
    + apply editAttendanceRecord_inversion in He.
      destruct He as (teacher & r0 & r1 & _ & Hr0 & _ & _ & Ts & Te & Hup & -> & ->).
      assert (Hwf0 : record_wf P r0).
      { apply find_some in Hr0. destruct Hr0 as [Hin _].
        destruct Hwf as [_ Hf]. rewrite Forall_forall in Hf. now apply Hf. }
      apply saved_wf; [assumption|].
      apply edited_record_wf; [assumption|assumption|assumption|].
      destruct (p_attendance patch) as [a|].
      * eapply status_edit_of_wf; [|exact Hwf0].
        eapply updateAttendance_status_edit; eassumption.
      * now subst.
    + apply editAttendanceRecord_err_preserves in He. now subst.
  - apply saved_wf; [assumption|].
    eapply status_edit_of_wf; [apply method_edit_status_edit; eassumption|].
    destruct Hwf as [_ Hf]. rewrite Forall_forall in Hf. now apply Hf.
  - exact Hwf.
Qed.

Lemma reachable_with_db_wf P parseDate formatDate db :
  reachable_with P parseDate formatDate db -> db_wf P db.
Proof.
  induction 1 as [db Hnil | db db' _ IH Hstep].
  - unfold db_wf, unique_ids. rewrite Hnil. split; constructor.
  - eapply db_step_with_wf; eassumption.
Qed.

(** Every reachable store is reachable with clocks of which nothing is
    asked. *)
Lemma reachable_with_any parseDate formatDate db :
  reachable parseDate formatDate db ->
  reachable_with (fun _ => True) parseDate formatDate db.
Proof.
  induction 1 as [db Hnil | db db' _ IH Hstep].
  - now apply reachable_with_init.
  - apply (reachable_with_step _ _ _ db); [exact IH|].
    destruct Hstep.
    + now apply step_with_markAttendance.
    + now apply step_with_editAttendanceRecord.
    + eapply step_with_method; eassumption.
    + apply step_with_catalog.
Qed.

Lemma reachable_with_reachable P parseDate formatDate db :
  reachable_with P parseDate formatDate db -> reachable parseDate formatDate db.
Proof.
  induction 1 as [db Hnil | db db' _ IH Hstep].
  - now apply reachable_init.
  - apply (reachable_step _ _ db); [exact IH|].
    destruct Hstep.
    + apply step_markAttendance.
    + apply step_editAttendanceRecord.
    + eapply step_method; eassumption.
    + apply step_catalog.
Qed.

Lemma reachable_db_wf parseDate formatDate db :
  reachable parseDate formatDate db -> db_wf (fun _ => True) db.
Proof.
  intros H. apply reachable_with_db_wf with (1 := reachable_with_any _ _ _ H).
Qed.

Lemma NoDup_find_In {A} (g : A -> string) (l : list A) (x : A) :
  NoDup (map g l) -> In x l ->
  find (fun y => String.eqb (g y) (g x)) l = Some x.
Proof.
  induction l as [|y l IH]; intros Hnd Hin; [destruct Hin|].
  cbn [map] in Hnd. inversion Hnd as [|? ? Hy Hl]; subst. cbn [find].
  destruct Hin as [-> | Hin].
  - now rewrite String.eqb_refl.
  - destruct (String.eqb (g y) (g x)) eqn:E.
    + apply String.eqb_eq in E. exfalso. apply Hy. rewrite E. now apply in_map.
    + now apply IH.
Qed.

Lemma db_retimed_reachable : reachable sample_parseDate sample_formatDate db_retimed.
Proof.
  apply (reachable_step _ _ db_marked).
  - exact db_marked_reachable.
  - apply step_editAttendanceRecord.
Qed.

(** X6.  Record ids stay unique: in every store reachable through the two
    handlers and the model's editing methods no two attendance records share
    a [recordId], so that looking a stored record up by its id returns that
    very record. *)
Theorem record_ids_stay_unique
  (parseDate : string -> option Z) (formatDate : Z -> string) (db : Database) :
  reachable parseDate formatDate db ->
  NoDup (map recordId (attendanceRecords db))
  /\ forall r, In r (attendanceRecords db) -> find_record (recordId r) db = Some r.
Proof.
  intros Hr. destruct (reachable_db_wf _ _ _ Hr) as [Hu _]. split; [exact Hu|].
  intros r Hin. unfold find_record. now apply NoDup_find_In.
Qed.

Lemma record_ids_stay_unique_witness :
  reachable sample_parseDate sample_formatDate db_retimed
  /\ NoDup (map recordId (attendanceRecords db_retimed))
  /\ forall r, In r (attendanceRecords db_retimed) ->
               find_record (recordId r) db_retimed = Some r.
Proof.
  split; [exact db_retimed_reachable|].
  exact (record_ids_stay_unique sample_parseDate sample_formatDate db_retimed
           db_retimed_reachable).
Defined.

(** X7.  Session numbers stay complete: in every reachable store each
    student entry of each record carries the session numbers
    1..numSessions, each exactly once.  No edit adds, drops or renumbers a
    session. *)
Theorem sessions_stay_complete
  (parseDate : string -> option Z) (formatDate : Z -> string) (db : Database)
  (r : AttendanceRecord) (sa : StudentAttendance) :
  reachable parseDate formatDate db ->
  In r (attendanceRecords db) -> In sa (attendance r) ->
  Permutation (map sessionNumber (sa_sessions sa)) (expectedSessions (numSessions r)).
Proof.
  intros Hr Hin Hsa. destruct (reachable_db_wf _ _ _ Hr) as [_ Hf].
  rewrite Forall_forall in Hf. destruct (Hf r Hin) as [Hc _].
  unfold sessions_complete in Hc. rewrite Forall_forall in Hc. now apply Hc.
Qed.

Lemma sessions_stay_complete_witness :
  reachable sample_parseDate sample_formatDate db_retimed
  /\ In (stored_record db_retimed) (attendanceRecords db_retimed)
  /\ In (first_entry (stored_record db_retimed)) (attendance (stored_record db_retimed))
  /\ Permutation
       (map sessionNumber (sa_sessions (first_entry (stored_record db_retimed))))
       (expectedSessions (numSessions (stored_record db_retimed))).
Proof.
  assert (I1 : In (stored_record db_retimed) (attendanceRecords db_retimed))
    by (vm_compute; left; reflexivity).
  assert (I2 : In (first_entry (stored_record db_retimed))
                 (attendance (stored_record db_retimed)))
    by (vm_compute; left; reflexivity).
  split; [exact db_retimed_reachable|]. split; [exact I1|]. split; [exact I2|].
  exact (sessions_stay_complete sample_parseDate sample_formatDate db_retimed _ _
           db_retimed_reachable I1 I2).
Defined.

Lemma sample_clock_offset : offset_is sample_clock 19800000.
Proof.
  split; [reflexivity|]. split; [reflexivity|]. split; vm_compute; discriminate.
Qed.


Lemma db_retimed_reachable_with :
  reachable_with (fun clock => clock = sample_clock) sample_parseDate sample_formatDate
    db_retimed.
Proof.
  apply (reachable_with_step _ _ _ db_marked).
  - apply (reachable_with_step _ _ _ (sample_db [mkRosterEntry "s1" "active"])).
    + apply reachable_with_init. reflexivity.
    + now apply step_with_markAttendance.
  - now apply step_with_editAttendanceRecord.
Qed.



(** ** What an edit changes in the store *)

Lemma update_first_unique {A} (g : A -> string) (k : string) (d : A) (l : list A) :
  NoDup (map g l) ->
  update_first (fun x => String.eqb (g x) k) (fun _ => d) l
  = map (fun x => if String.eqb (g x) k then d else x) l.
Proof.
  induction l as [|x l IH]; intros Hnd; [reflexivity|].
  cbn [map] in Hnd. inversion Hnd as [|? ? Hx Hl]; subst.
  cbn [update_first map]. destruct (String.eqb (g x) k) eqn:E.
  - f_equal. apply String.eqb_eq in E. subst k.
    clear - Hx. induction l as [|y l IH]; [reflexivity|]. cbn [map].
    destruct (String.eqb (g y) (g x)) eqn:E.
    + apply String.eqb_eq in E. exfalso. apply Hx. left. exact E.
    + f_equal. apply IH. intros Hin. apply Hx. now right.
  - f_equal. now apply IH.
Qed.

Lemma edited_record_immutable clock patch r1 :
  immutable_fields (edited_record clock patch r1) = immutable_fields r1
  /\ record_shape (edited_record clock patch r1) = record_shape r1.
Proof.
  unfold edited_record, immutable_fields, record_shape.
  destruct (truthy (p_startTime patch)), (truthy (p_endTime patch)),
    (p_isFinalized patch); cbn; auto.
Qed.

Lemma find_record_id rid db r : find_record rid db = Some r -> recordId r = rid.
Proof.
  unfold find_record. intros H. apply find_some in H. destruct H as [_ H].
  now apply String.eqb_eq.
Qed.

(** X9.  A successful edit touches one record and only its editable part.
    The record is the one whose id is the id of the call as the filter casts
    it, trimmed and in upper case (so an id in lower case finds the record).
    In a store with unique record ids, the saved record keeps the id,
    subject, teacher, class section, date, semester, session count and
    marking stamp of the record found, and the students and session numbers
    of its entries; the store afterwards is the old one with that single
    record replaced in place, every other record and the teachers, class
    sections and students being the same. *)
Theorem edit_touches_one_record
  (clock : Clock) (userId : ObjectId) (rid : string) (patch : EditPatch)
  (db db' : Database) (r' : AttendanceRecord) :
  unique_ids db ->
  editAttendanceRecord clock userId rid patch db = (Ok r', db') ->
  exists r0,
    find_record (cast_recordId rid) db = Some r0
    /\ immutable_fields r' = immutable_fields r0
    /\ record_shape r' = record_shape r0
    /\ attendanceRecords db'
       = map (fun r => if String.eqb (recordId r) (cast_recordId rid) then r' else r)
           (attendanceRecords db)
    /\ teachers db' = teachers db
    /\ classSections db' = classSections db
    /\ students db' = students db.
Proof.
  intros Hu H. apply editAttendanceRecord_inversion in H.
  destruct H as (teacher & r0 & r1 & _ & Hr0 & _ & _ & _ & _ & Hup & -> & ->).
  exists r0. split; [exact Hr0|].
  assert (Hse : status_edit_of r0 r1).
  { destruct (p_attendance patch) as [a|].
    - eapply updateAttendance_status_edit; eassumption.
    - subst. apply status_edit_of_refl. }
  destruct (edited_record_immutable clock patch r1) as [Ei Es].
  destruct Hse as (Hi & Hs & _).
  split; [congruence|]. split; [congruence|].
  split; [|repeat split].
  unfold saved, AttendanceRecord_save.
  cbn [snd attendanceRecords set_attendanceRecords].
  assert (Eid : recordId (edited_record clock patch r1) = cast_recordId rid).
  { apply find_record_id in Hr0. unfold immutable_fields in Ei, Hi. congruence. }
  rewrite Eid. now apply update_first_unique.
Qed.

Lemma edit_touches_one_record_witness :
  unique_ids db_marked
  /\ cast_recordId "  att_07112025_mat101_sem3_seca_123" = sample_recordId
  /\ exists r0,
       find_record sample_recordId db_marked = Some r0
       /\ immutable_fields (stored_record db_retimed) = immutable_fields r0
       /\ record_shape (stored_record db_retimed) = record_shape r0
       /\ attendanceRecords db_retimed
          = map (fun r => if String.eqb (recordId r) sample_recordId
                          then stored_record db_retimed else r)
              (attendanceRecords db_marked)
       /\ teachers db_retimed = teachers db_marked
       /\ classSections db_retimed = classSections db_marked
       /\ students db_retimed = students db_marked.
Proof.
  assert (U : unique_ids db_marked)
    by exact (proj1 (reachable_db_wf _ _ _ db_marked_reachable)).
  split; [exact U|]. split; [vm_compute; reflexivity|].
  apply (edit_touches_one_record sample_clock "u1" "  att_07112025_mat101_sem3_seca_123"
           retime_patch db_marked db_retimed (stored_record db_retimed) U).
  vm_compute. reflexivity.
Defined.

(** X10.  Neither handler changes a finalized record.  In a store with
    unique record ids, whatever request [markAttendance] or
    [editAttendanceRecord] is given and whatever it answers, a record that
    was finalized before is still stored afterwards, identical in every
    field, and is still the record its id retrieves. *)
Theorem handlers_keep_finalized_records
  (parseDate : string -> option Z) (formatDate : Z -> string)
  (db : Database) (r : AttendanceRecord) :
  unique_ids db ->
  In r (attendanceRecords db) ->
  isFinalized r = true ->
  (forall clock userId req,
      find_record (recordId r)
        (snd (markAttendance parseDate formatDate clock userId req db)) = Some r)
  /\ (forall clock userId rid patch,
         find_record (recordId r)
           (snd (editAttendanceRecord clock userId rid patch db)) = Some r).
Proof.
  intros Hu Hin Hfin.
  assert (Hfind : find_record (recordId r) db = Some r)
    by (unfold find_record; now apply NoDup_find_In).
  split.
  - intros clock userId req.
    destruct (markAttendance parseDate formatDate clock userId req db) as [[r1|e] db'] eqn:Hm;
      cbn [snd].
    + apply markAttendance_inversion in Hm.
      destruct Hm as (teacher & cs & d & H). decompose [and] H. subst db'.
      unfold find_record in *. cbn [attendanceRecords set_attendanceRecords].
      destruct (attendanceRecords db) as [|x l] eqn:El; [destruct Hin|].
      rewrite <- El in *. clear El x l.
      match goal with
      | |- find ?p (?l ++ _)%list = _ =>
          assert (G : forall l', find p l = Some r -> find p (l ++ l')%list = Some r)
      end.
      { intros l'. generalize (attendanceRecords db). intros l.
        induction l as [|y l IH]; cbn; [discriminate|].
        destruct (String.eqb (recordId y) (recordId r)); auto. }
      now apply G.
    + apply markAttendance_err_preserves in Hm. now subst.
  - intros clock userId rid patch.
    destruct (editAttendanceRecord clock userId rid patch db) as [[r1|e] db'] eqn:He;
      cbn [snd].
    + pose proof (edit_record_found := editAttendanceRecord_inversion _ _ _ _ _ _ _ He).
      destruct edit_record_found
        as (teacher & r0 & r1' & _ & Hr0 & _ & Hnf & _ & _ & Hup & Er1 & Edb).
      remember (cast_recordId rid) as crid eqn:Ecrid. clear Ecrid.
      assert (Hne : String.eqb (recordId r) crid = false).
      { destruct (String.eqb (recordId r) crid) eqn:E; [|reflexivity].
        apply String.eqb_eq in E. subst crid. congruence. }
      subst db'. unfold find_record, saved, AttendanceRecord_save.
      cbn [snd attendanceRecords set_attendanceRecords].
      assert (Eid : recordId r1 = crid).
      { subst r1. destruct (edited_record_attendance clock patch r1') as (_ & _ & ->).
        assert (Hse : status_edit_of r0 r1').
        { destruct (p_attendance patch) as [a|].
          - eapply updateAttendance_status_edit; eassumption.
          - subst. apply status_edit_of_refl. }
        rewrite (status_edit_of_recordId _ _ Hse). now apply find_record_id in Hr0. }
      rewrite Eid. rewrite update_first_unique by exact Hu.
      unfold find_record in Hfind. revert Hfind.
      generalize (attendanceRecords db). intros l.
      induction l as [|y l IH]; cbn [map]; [discriminate|].
      destruct (String.eqb (recordId y) crid) eqn:Ey; cbn [find].
      * apply String.eqb_eq in Ey.
        assert (Eyr : String.eqb (recordId y) (recordId r) = false)
          by (rewrite Ey, String.eqb_sym; exact Hne).
        assert (Er : String.eqb (recordId r1) (recordId r) = false)
          by (rewrite Eid, String.eqb_sym; exact Hne).
        rewrite Eyr, Er. exact IH.
      * destruct (String.eqb (recordId y) (recordId r)); [auto | exact IH].
    + apply editAttendanceRecord_err_preserves in He. now subst.
Qed.

Lemma db_finalized_reachable : reachable sample_parseDate sample_formatDate db_finalized.
Proof.
  apply (reachable_step _ _ db_marked).
  - exact db_marked_reachable.
  - apply step_editAttendanceRecord.
Qed.

Lemma handlers_keep_finalized_records_witness :
  unique_ids db_finalized
  /\ In (stored_record db_finalized) (attendanceRecords db_finalized)
  /\ isFinalized (stored_record db_finalized) = true
  /\ find_record (recordId (stored_record db_finalized))
       (snd (editAttendanceRecord sample_clock "u1" sample_recordId retime_patch
               db_finalized))
     = Some (stored_record db_finalized).
Proof.
  assert (U : unique_ids db_finalized)
    by exact (proj1 (reachable_db_wf _ _ _ db_finalized_reachable)).
  assert (I1 : In (stored_record db_finalized) (attendanceRecords db_finalized))
    by (vm_compute; left; reflexivity).
  assert (F : isFinalized (stored_record db_finalized) = true)
    by (vm_compute; reflexivity).
  split; [exact U|]. split; [exact I1|]. split; [exact F|].
  exact (proj2 (handlers_keep_finalized_records sample_parseDate sample_formatDate
                  db_finalized _ U I1 F)
           sample_clock "u1" sample_recordId retime_patch).
Defined.

(** ** The model's methods on their own *)

Lemma update_first_find_id {A} (p : A -> bool) (f : A -> A) (l : list A) (a : A) :
  find p l = Some a -> f a = a -> update_first p f l = l.
Proof.
  induction l as [|x l IH]; intros Hf Ha; [reflexivity|]. cbn [find] in Hf.
  cbn [update_first]. destruct (p x).
  - inversion Hf; subst. now rewrite Ha.
  - f_equal. now apply IH.
Qed.

Lemma set_attendance_same r : set_attendance r (attendance r) = r.
Proof. now destruct r. Qed.

Lemma entry_ok_set_totals n sa :
  entry_ok n sa ->
  set_totals (count_status ATTENDANCE_STATUS.PRESENT (sa_sessions sa))
             (count_status ATTENDANCE_STATUS.ABSENT (sa_sessions sa)) n sa = sa.
Proof.
  intros (_ & _ & Hp & Ha & Hpc). unfold set_totals. rewrite <- Hp, <- Ha, <- Hpc.
  now destruct sa.
Qed.

Lemma calculateStudentTotals_fixed this studentId :
  record_ok this -> calculateStudentTotals this studentId = Ok this.
Proof.
  intros [Hn Hall]. unfold calculateStudentTotals.
  destruct (find (is_student studentId) (attendance this)) as [sa|] eqn:Hfind;
    [|reflexivity].
  assert (Hsa : entry_ok (numSessions this) sa).
  { rewrite Forall_forall in Hall. apply Hall. now apply find_some in Hfind. }
  pose proof (entry_ok_sum _ _ Hsa) as Hsum.
  destruct Hsa as (Hlen & Hv & Hp & Ha & Hpc).
  rewrite <- Hp, <- Ha, Hsum, Z.eqb_refl. cbn [negb].
  rewrite (update_first_find_id _ _ _ sa Hfind).
  - now rewrite set_attendance_same.
  - unfold set_totals. rewrite <- Hpc. now destruct sa.
Qed.

Lemma recalculateAllTotals_fixed this :
  record_ok this -> recalculateAllTotals this = this.
Proof.
  intros [Hn Hall]. unfold recalculateAllTotals.
  replace (0 <? numSessions this) with true by (symmetry; apply Z.ltb_lt; lia).
  transitivity (set_attendance this (attendance this)); [|apply set_attendance_same].
  f_equal. transitivity (map (fun sa => sa) (attendance this)); [|apply map_id].
  apply map_ext_in.
  intros sa Hin. rewrite Forall_forall in Hall.
  destruct (Hall sa Hin) as (_ & _ & Hp & Ha & Hpc).
  rewrite <- Hp, <- Ha, <- Hpc. now destruct sa.
Qed.

(** X11.  Stored totals are never stale.  For every record of every
    reachable store, recomputing the derived fields changes nothing:
    [recalculateAllTotals] returns the record itself and
    [calculateStudentTotals] succeeds for any student id, known or not, and
    returns the record itself. *)
Theorem stored_totals_are_current
  (parseDate : string -> option Z) (formatDate : Z -> string) (db : Database)
  (r : AttendanceRecord) :
  reachable parseDate formatDate db ->
  In r (attendanceRecords db) ->
  recalculateAllTotals r = r
  /\ forall studentId, calculateStudentTotals r studentId = Ok r.
Proof.
  intros Hr Hin. pose proof (reachable_db_ok _ _ _ Hr) as Hok.
  unfold db_ok in Hok. rewrite Forall_forall in Hok. specialize (Hok r Hin).
  split; [now apply recalculateAllTotals_fixed|].
  intros studentId. now apply calculateStudentTotals_fixed.
Qed.

Lemma stored_totals_are_current_witness :
  reachable sample_parseDate sample_formatDate db_retimed
  /\ In (stored_record db_retimed) (attendanceRecords db_retimed)
  /\ recalculateAllTotals (stored_record db_retimed) = stored_record db_retimed
  /\ forall studentId,
       calculateStudentTotals (stored_record db_retimed) studentId
       = Ok (stored_record db_retimed).
Proof.
  assert (I1 : In (stored_record db_retimed) (attendanceRecords db_retimed))
    by (vm_compute; left; reflexivity).
  split; [exact db_retimed_reachable|]. split; [exact I1|].
  exact (stored_totals_are_current sample_parseDate sample_formatDate db_retimed _
           db_retimed_reachable I1).
Defined.

Lemma find_session_none (n : Z) (sessions : list Session) :
  ~ In n (map sessionNumber sessions) ->
  find (fun s => sessionNumber s =? n) sessions = None.
Proof.
  intros H. destruct (find _ sessions) as [s|] eqn:E; [|reflexivity].
  apply find_some in E. destruct E as [Hin E]. apply Z.eqb_eq in E.
  exfalso. apply H. rewrite <- E. now apply in_map.
Qed.

Lemma set_session_status_none (n : Z) (st : string) (sessions : list Session) :
  ~ In n (map sessionNumber sessions) -> set_session_status n st sessions = sessions.
Proof.
  unfold set_session_status. induction sessions as [|s l IH]; intros H; [reflexivity|].
  cbn [update_first]. destruct (sessionNumber s =? n) eqn:E.
  - apply Z.eqb_eq in E. exfalso. apply H. now left.
  - f_equal. apply IH. intros Hin. apply H. now right.
Qed.

(** X12.  An update that names a session the entry does not have.  On a
    well-formed record, for a student who is in it and a valid status,
    [updateStudentSession] throws "Session n not found", whereas
    [updateStudentAllSessions] given that same single update succeeds: no
    status changes, the totals stay, and the record is stamped with the
    modifier and the time as if it had been edited. *)
Theorem unknown_session_strict_and_lenient
  (this : AttendanceRecord) (studentId : ObjectId) (sa : StudentAttendance)
  (n : Z) (newStatus : string) (modifiedBy : ObjectId) (now : Z) :
  record_ok this ->
  find (is_student studentId) (attendance this) = Some sa ->
  ~ In n (map sessionNumber (sa_sessions sa)) ->
  n <> 0 ->
  valid_status newStatus ->
  updateStudentSession this studentId n newStatus modifiedBy now = Err (SessionNotFound n)
  /\ updateStudentAllSessions this studentId [mkSession n newStatus] modifiedBy now
     = Ok (updateWithAudit this modifiedBy now).
Proof.
  intros Hok Hfind Hn Hn0 Hst. split.
  - unfold updateStudentSession.
    rewrite (proj2 (includes_values newStatus) Hst). cbn [negb].
    rewrite Hfind. now rewrite find_session_none.
  - unfold updateStudentAllSessions. rewrite Hfind. cbn [List.length Nat.eqb].
    cbn [apply_session_updates sessionNumber status].
    replace (n =? 0) with false by (symmetry; now apply Z.eqb_neq).
    assert (Hne : String.eqb newStatus "" = false).
    { destruct Hst as [-> | ->]; reflexivity. }
    rewrite Hne. cbn [orb].
    rewrite (proj2 (includes_values newStatus) Hst). cbn [negb bind].
    rewrite set_session_status_none by exact Hn.
    rewrite (update_first_find_id _ _ _ sa Hfind) by now destruct sa.
    rewrite set_attendance_same.
    now rewrite calculateStudentTotals_fixed.
Qed.

Lemma unknown_session_strict_and_lenient_witness :
  updateStudentSession (stored_record db_marked) "s1" 7 "absent" "u1" 5
  = Err (SessionNotFound 7)
  /\ updateStudentAllSessions (stored_record db_marked) "s1" [mkSession 7 "absent"] "u1" 5
     = Ok (updateWithAudit (stored_record db_marked) "u1" 5).
Proof.
  apply (unknown_session_strict_and_lenient (stored_record db_marked) "s1"
           (first_entry (stored_record db_marked)) 7 "absent" "u1" 5).
  - pose proof (reachable_db_ok _ _ _ db_marked_reachable) as Hok.
    unfold db_ok in Hok. rewrite Forall_forall in Hok. apply Hok.
    vm_compute. left. reflexivity.
  - vm_compute. reflexivity.
  - vm_compute. intros [H|[H|[]]]; discriminate H.
  - discriminate.
  - right. reflexivity.
Defined.

Lemma is_student_recomputed studentId n sessions' sa :
  is_student studentId (recomputed n sessions' sa) = is_student studentId sa.
Proof. reflexivity. Qed.

(** Replacing the sessions of a student's entry by as many valid ones and
    recomputing succeeds. *)
Lemma replace_and_recalculate_success (this : AttendanceRecord) (studentId : ObjectId)
  (sa : StudentAttendance) (sessions' : list Session) :
  record_ok this ->
  find (is_student studentId) (attendance this) = Some sa ->
  List.length sessions' = List.length (sa_sessions sa) ->
  Forall (fun s => valid_status (status s)) sessions' ->
  calculateStudentTotals
    (set_attendance this
       (update_first (is_student studentId) (set_sessions sessions') (attendance this)))
    studentId
  = Ok (with_sessions this studentId sessions').
Proof.
  intros [Hn Hall] Hfind Hlen Hv.
  unfold calculateStudentTotals. cbn [attendance set_attendance numSessions].
  rewrite find_update_first by reflexivity.
  rewrite Hfind. cbn [option_map set_sessions sa_sessions].
  assert (Hsa : entry_ok (numSessions this) sa).
  { rewrite Forall_forall in Hall. apply Hall. now apply find_some in Hfind. }
  rewrite count_status_total by assumption. rewrite Hlen.
  destruct Hsa as (Hl & _). rewrite Hl, Z.eqb_refl. cbn [negb].
  unfold with_sessions. f_equal.
  unfold set_attendance. cbn. f_equal.
  rewrite update_first_compose by reflexivity. reflexivity.
Qed.

Lemma find_set_session_status n st l :
  In n (map sessionNumber l) ->
  find (fun s => sessionNumber s =? n) (set_session_status n st l) = Some (mkSession n st).
Proof.
  unfold set_session_status. induction l as [|s l IH]; intros Hin; [destruct Hin|].
  cbn [update_first]. destruct (sessionNumber s =? n) eqn:E; cbn [find].
  - cbn [sessionNumber]. rewrite E. apply Z.eqb_eq in E. now rewrite E.
  - rewrite E. apply IH. destruct Hin as [Hin|Hin]; [|assumption].
    apply Z.eqb_neq in E. contradiction.
Qed.

(** X13.  [updateStudentSession] cannot fail on a well-formed record once
    its three checks pass: for a student who is in the record, a session
    number the entry has and a valid status it returns the record with that
    session set to the new status, the student's totals and percentage
    recomputed from the sessions, and the modifier and time stamped. *)
Theorem updateStudentSession_succeeds
  (this : AttendanceRecord) (studentId : ObjectId) (sa : StudentAttendance)
  (n : Z) (newStatus : string) (modifiedBy : ObjectId) (now : Z) :
  record_ok this ->
  find (is_student studentId) (attendance this) = Some sa ->
  In n (map sessionNumber (sa_sessions sa)) ->
  valid_status newStatus ->
  updateStudentSession this studentId n newStatus modifiedBy now
  = Ok (updateWithAudit
          (with_sessions this studentId
             (set_session_status n newStatus (sa_sessions sa)))
          modifiedBy now)
  /\ status_at n (set_session_status n newStatus (sa_sessions sa)) = Some newStatus.
Proof.
  intros Hok Hfind Hin Hst. split.
  - unfold updateStudentSession.
    rewrite (proj2 (includes_values newStatus) Hst). cbn [negb]. rewrite Hfind.
    destruct (find (fun s => sessionNumber s =? n) (sa_sessions sa)) as [s|] eqn:Hs.
    + rewrite (replace_and_recalculate_success this studentId sa); auto.
      * apply set_session_status_length.
      * apply set_session_status_valid; [assumption|].
        destruct Hok as [_ Hall]. rewrite Forall_forall in Hall.
        apply find_some in Hfind. destruct Hfind as [Hfind _].
        apply (Hall sa Hfind).
    + exfalso. apply in_map_iff in Hin. destruct Hin as (s & Es & Hin).
      apply (find_none _ _ Hs) in Hin. cbn in Hin. apply Z.eqb_neq in Hin. contradiction.
  - unfold status_at. now rewrite find_set_session_status.
Qed.

Lemma updateStudentSession_succeeds_witness :
  updateStudentSession (stored_record db_marked) "s1" 2 "present" "u1" 5
  = Ok (updateWithAudit
          (with_sessions (stored_record db_marked) "s1"
             (set_session_status 2 "present"
                (sa_sessions (first_entry (stored_record db_marked)))))
          "u1" 5)
  /\ status_at 2 (set_session_status 2 "present"
                    (sa_sessions (first_entry (stored_record db_marked))))
     = Some "present".
Proof.
  apply (updateStudentSession_succeeds (stored_record db_marked) "s1"
           (first_entry (stored_record db_marked)) 2 "present" "u1" 5).
  - pose proof (reachable_db_ok _ _ _ db_marked_reachable) as Hok.
    unfold db_ok in Hok. rewrite Forall_forall in Hok. apply Hok.
    vm_compute. left. reflexivity.
  - vm_compute. reflexivity.
  - vm_compute. right. left. reflexivity.
  - left. reflexivity.
Defined.

Lemma find_app_first {A} (p : A -> bool) (l l' : list A) :
  find p (l ++ l') = match find p l with Some x => Some x | None => find p l' end.
Proof.
  induction l as [|x l IH]; [reflexivity|]. cbn. destruct (p x); [reflexivity | exact IH].
Qed.

Lemma status_at_set_session_status (k n : Z) (st : string) (l : list Session) :
  status_at k (set_session_status n st l)
  = if k =? n then option_map (fun _ => st) (status_at n l) else status_at k l.
Proof.
  unfold status_at, set_session_status. induction l as [|s l IH].
  - cbn. now destruct (k =? n).
  - cbn [update_first]. destruct (sessionNumber s =? n) eqn:Esn; cbn [find sessionNumber].
    + rewrite Esn. apply Z.eqb_eq in Esn. subst n.
      rewrite (Z.eqb_sym k). destruct (sessionNumber s =? k); reflexivity.
    + rewrite Esn. destruct (sessionNumber s =? k) eqn:Esk.
      * apply Z.eqb_eq in Esk. subst k. rewrite Esn. reflexivity.
      * exact IH.
Qed.

Lemma apply_session_updates_status (sessionsData : list Session) :
  forall sessions sessions',
    apply_session_updates sessionsData sessions = Ok sessions' ->
    forall k,
      status_at k sessions'
      = match last_update k sessionsData with
        | Some u => option_map (fun _ => status u) (status_at k sessions)
        | None => status_at k sessions
        end.
Proof.
  induction sessionsData as [|u rest IH]; intros sessions sessions' H k;
    cbn [apply_session_updates] in H.
  - inversion H; subst. reflexivity.
  - destruct ((sessionNumber u =? 0) || String.eqb (status u) ""); [discriminate|].
    destruct (negb (includes ATTENDANCE_STATUS.values (status u))); [discriminate|].
    rewrite (IH _ _ H k). unfold last_update. cbn [List.rev]. rewrite find_app_first.
    rewrite status_at_set_session_status. cbn [find]. rewrite (Z.eqb_sym k).
    destruct (find (fun u0 => sessionNumber u0 =? k) (List.rev rest)) as [u'|].
    + destruct (sessionNumber u =? k) eqn:E; [|reflexivity].
      apply Z.eqb_eq in E. rewrite E. now destruct (status_at k sessions).
    + destruct (sessionNumber u =? k) eqn:E; [|reflexivity].
      apply Z.eqb_eq in E. now rewrite E.
Qed.

Lemma find_update_first_other {A} (p q : A -> bool) (f : A -> A) (l : list A) :
  (forall x, p x = true -> q x = false /\ q (f x) = false) ->
  find q (update_first p f l) = find q l.
Proof.
  intros H. induction l as [|x l IH]; [reflexivity|]. cbn [update_first].
  destruct (p x) eqn:Hp; cbn [find].
  - destruct (H x Hp) as [-> ->]. reflexivity.
  - now rewrite IH.
Qed.

Lemma is_student_other studentId other sa :
  other <> studentId -> is_student studentId sa = true -> is_student other sa = false.
Proof.
  unfold is_student. intros Hne H. apply String.eqb_eq in H. apply String.eqb_neq.
  congruence.
Qed.

(** X14.  What [updateStudentAllSessions] does to the statuses.  When it
    succeeds, the student's entry afterwards has, for every session number,
    the status of the last update in [sessionsData] that names it if the
    entry has such a session, and the old status otherwise; a number the
    entry does not have is not added; and the entries of all other students
    are what they were. *)
Theorem updateStudentAllSessions_last_update_wins
  (this r' : AttendanceRecord) (studentId : ObjectId) (sessionsData : list Session)
  (modifiedBy : ObjectId) (now : Z) :
  updateStudentAllSessions this studentId sessionsData modifiedBy now = Ok r' ->
  exists sa sa',
    find (is_student studentId) (attendance this) = Some sa
    /\ find (is_student studentId) (attendance r') = Some sa'
    /\ (forall k,
          status_at k (sa_sessions sa')
          = match last_update k sessionsData with
            | Some u => option_map (fun _ => status u) (status_at k (sa_sessions sa))
            | None => status_at k (sa_sessions sa)
            end)
    /\ (forall other, other <> studentId ->
          find (is_student other) (attendance r')
          = find (is_student other) (attendance this)).
Proof.
  unfold updateStudentAllSessions. intros H.
  destruct (find (is_student studentId) (attendance this)) as [sa|] eqn:Hfind;
    [|discriminate].
  destruct (Nat.eqb _ 0); [discriminate|].
  destruct (apply_session_updates _ _) as [s'|] eqn:Hu; [|discriminate]. cbn [bind] in H.
  destruct (calculateStudentTotals _ studentId) as [r2|] eqn:Hc; [|discriminate].
  cbn [bind] in H. inversion H; subst r'. clear H.
  unfold calculateStudentTotals in Hc. cbn [attendance set_attendance numSessions] in Hc.
  rewrite find_update_first in Hc by reflexivity.
  rewrite Hfind in Hc. cbn [option_map set_sessions sa_sessions] in Hc.
  destruct (negb _); [discriminate|]. inversion Hc; subst r2. clear Hc.
  exists sa. eexists. split; [reflexivity|].
  cbn [updateWithAudit set_lastModifiedAt set_lastModifiedBy set_attendance attendance].
  rewrite update_first_compose by reflexivity.
  split; [|split].
  - rewrite find_update_first by reflexivity. rewrite Hfind. reflexivity.
  - intros k. cbn [set_totals set_sessions sa_sessions].
    now apply apply_session_updates_status.
  - intros other Hne. apply find_update_first_other.
    intros x Hx. split; [now apply (is_student_other studentId)|].
    apply (is_student_other studentId); [assumption|]. exact Hx.
Qed.

Lemma updateStudentAllSessions_last_update_wins_witness :
  exists sa sa',
    find (is_student "s1") (attendance (stored_record db_marked)) = Some sa
    /\ find (is_student "s1")
         (attendance (with_sessions (stored_record db_marked) "s1"
                        [mkSession 1 "present"; mkSession 2 "present"]))
       = Some sa'
    /\ status_at 2 (sa_sessions sa') = Some "present"
    /\ status_at 1 (sa_sessions sa') = Some "present"
    /\ status_at 7 (sa_sessions sa') = None.
Proof.
  destruct (updateStudentAllSessions_last_update_wins
              (stored_record db_marked)
              (updateWithAudit
                 (with_sessions (stored_record db_marked) "s1"
                    [mkSession 1 "present"; mkSession 2 "present"]) "u1" 5)
              "s1"
              [mkSession 2 "absent"; mkSession 7 "absent"; mkSession 2 "present"]
              "u1" 5)
    as (sa & sa' & H1 & H2 & H3 & _).
  - vm_compute. reflexivity.
  - exists sa, sa'. split; [exact H1|]. split; [exact H2|].
    pose proof (H3 2) as K2. pose proof (H3 1) as K1. pose proof (H3 7) as K7.
    assert (E : sa = first_entry (stored_record db_marked))
      by (vm_compute in H1; injection H1 as <-; vm_compute; reflexivity).
    subst sa. split; [exact K2|]. split; [exact K1 | exact K7].
Defined.

(** ** The student's summary over a reachable store *)

Lemma sumZ_pointwise {A} (f g h : A -> Z) (lo hi : Z) (l : list A) :
  (forall x, In x l -> f x + g x = h x /\ 0 <= f x /\ 0 <= g x /\ lo <= h x <= hi) ->
  sumZ (map f l) + sumZ (map g l) = sumZ (map h l)
  /\ 0 <= sumZ (map f l) /\ 0 <= sumZ (map g l)
  /\ lo * Z.of_nat (List.length l) <= sumZ (map h l) <= hi * Z.of_nat (List.length l).
Proof.
  induction l as [|x l IH]; intros H.
  - cbn. lia.
  - destruct IH as (I1 & I2 & I3 & I4); [intros y Hy; apply H; now right|].
    destruct (H x (or_introl eq_refl)) as (H1 & H2 & H3 & H4).
    cbn [map sumZ fold_right List.length]. fold (sumZ (map f l)).
    fold (sumZ (map g l)). fold (sumZ (map h l)). lia.
Qed.

Lemma record_ok_student_totals student_id r :
  record_ok r -> contains_student student_id r = true ->
  present_in student_id r + absent_in student_id r = numSessions r
  /\ 0 <= present_in student_id r /\ 0 <= absent_in student_id r
  /\ 1 <= numSessions r <= MAX_SESSIONS_PER_CLASS.
Proof.
  intros [Hn Hall] Hc. unfold contains_student in Hc.
  destruct (find_existsb _ _ Hc) as (sa & Hfind).
  unfold present_in, absent_in. rewrite Hfind.
  assert (Hsa : entry_ok (numSessions r) sa).
  { rewrite Forall_forall in Hall. apply Hall. now apply find_some in Hfind. }
  pose proof (entry_ok_sum _ _ Hsa). pose proof (entry_ok_bounds _ _ Hsa). lia.
Qed.

(** X15.  The summary a student is shown is consistent.  For records of a
    reachable store that satisfy the query (in any order), present and
    absent counts add up to the total number of sessions, neither is
    negative, and the total lies between one and ten sessions per class. *)
Theorem summary_counts_consistent
  (parseDate : string -> option Z) (formatDate : Z -> string) (db : Database)
  (subjectId student_id : ObjectId) (gte lte : option Z)
  (records : list AttendanceRecord) :
  reachable parseDate formatDate db ->
  Forall (fun r => In r (attendanceRecords db)
                   /\ matches_query subjectId student_id gte lte r = true) records ->
  let s := attendanceSummary records student_id in
  presentCount s + absentCount s = totalSessions s
  /\ 0 <= presentCount s <= totalSessions s
  /\ 0 <= absentCount s <= totalSessions s
  /\ totalClasses s <= totalSessions s <= MAX_SESSIONS_PER_CLASS * totalClasses s.
Proof.
  intros Hr Hall s.
  pose proof (reachable_db_ok _ _ _ Hr) as Hok. unfold db_ok in Hok.
  rewrite Forall_forall in Hok, Hall.
  assert (Hc : Forall (fun r => contains_student student_id r = true) records).
  { apply Forall_forall. intros r Hin. destruct (Hall r Hin) as [_ Hq].
    unfold matches_query in Hq. rewrite !andb_true_iff in Hq.
    unfold contains_student. tauto. }
  destruct (attendanceSummary_sums student_id records Hc) as (H1 & H2 & H3 & H4 & _).
  fold s in H1, H2, H3, H4.
  rewrite (filter_all _ _ Hc) in H1.
  destruct (sumZ_pointwise (present_in student_id) (absent_in student_id) numSessions
              1 MAX_SESSIONS_PER_CLASS records) as (S1 & S2 & S3 & S4).
  { intros r Hin. destruct (Hall r Hin) as [Hdb _].
    rewrite Forall_forall in Hc.
    pose proof (record_ok_student_totals student_id r (Hok r Hdb) (Hc r Hin)). lia. }
  rewrite H1, H2, H3, H4. lia.
Qed.

Lemma summary_counts_consistent_witness :
  reachable sample_parseDate sample_formatDate db_marked
  /\ Forall (fun r => In r (attendanceRecords db_marked)
                      /\ matches_query "subj1" "s1" None None r = true)
            (attendanceRecords db_marked)
  /\ presentCount (attendanceSummary (attendanceRecords db_marked) "s1")
     + absentCount (attendanceSummary (attendanceRecords db_marked) "s1")
     = totalSessions (attendanceSummary (attendanceRecords db_marked) "s1").
Proof.
  assert (F : Forall (fun r => In r (attendanceRecords db_marked)
                               /\ matches_query "subj1" "s1" None None r = true)
                     (attendanceRecords db_marked)).
  { apply Forall_forall. intros r Hin. split; [exact Hin|].
    vm_compute in Hin. destruct Hin as [<-|[]]. vm_compute. reflexivity. }
  split; [exact db_marked_reachable|]. split; [exact F|].
  exact (proj1 (summary_counts_consistent sample_parseDate sample_formatDate db_marked
                  "subj1" "s1" None None _ db_marked_reachable F)).
Defined.

(** ** Where the finalize lock lives *)

Lemma calculateStudentTotals_set_isFinalized this studentId b :
  calculateStudentTotals (set_isFinalized this b) studentId
  = match calculateStudentTotals this studentId with
    | Ok r => Ok (set_isFinalized r b)
    | Err e => Err e
    end.
Proof.
  unfold calculateStudentTotals. cbn [set_isFinalized attendance numSessions].
  destruct (find _ (attendance this)); [|reflexivity].
  destruct (negb _); reflexivity.
Qed.

Lemma calculateStudentTotals_replaced_set_isFinalized this a studentId b :
  calculateStudentTotals (set_attendance (set_isFinalized this b) a) studentId
  = match calculateStudentTotals (set_attendance this a) studentId with
    | Ok r => Ok (set_isFinalized r b)
    | Err e => Err e
    end.
Proof. exact (calculateStudentTotals_set_isFinalized (set_attendance this a) studentId b). Qed.

Lemma updateStudentAllSessions_set_isFinalized this studentId sessionsData modifiedBy now b :
  updateStudentAllSessions (set_isFinalized this b) studentId sessionsData modifiedBy now
  = match updateStudentAllSessions this studentId sessionsData modifiedBy now with
    | Ok r => Ok (set_isFinalized r b)
    | Err e => Err e
    end.
Proof.
  unfold updateStudentAllSessions.
  change (attendance (set_isFinalized this b)) with (attendance this).
  destruct (find _ (attendance this)) as [sa|]; [|reflexivity].
  destruct (Nat.eqb _ 0); [reflexivity|].
  destruct (apply_session_updates _ _) as [s'|]; [|reflexivity]. cbn [bind].
  rewrite calculateStudentTotals_replaced_set_isFinalized.
  destruct (calculateStudentTotals _ studentId); reflexivity.
Qed.

Lemma updateAttendance_set_isFinalized (newAttendanceData : list AttendanceInput) :
  forall this modifiedBy now b,
    updateAttendance (set_isFinalized this b) newAttendanceData modifiedBy now
    = match updateAttendance this newAttendanceData modifiedBy now with
      | Ok r => Ok (set_isFinalized r b)
      | Err e => Err e
      end.
Proof.
  induction newAttendanceData as [|u rest IH]; intros this modifiedBy now b;
    cbn [updateAttendance]; [reflexivity|].
  destruct (String.eqb (in_studentId u) ""); [reflexivity|].
  rewrite updateStudentAllSessions_set_isFinalized.
  destruct (updateStudentAllSessions this _ _ _ _) as [this'|]; [|reflexivity].
  cbn [bind]. apply IH.
Qed.

(** X16.  The finalize lock lives in the handler only.  The model's editing
    methods never read [isFinalized]: on a record with the flag set either
    way they fail with the same error or succeed with the same changes as on
    the record with the flag cleared, so a finalized record handed to them
    directly is edited like any other. *)
Theorem model_methods_ignore_isFinalized
  (this : AttendanceRecord) (b : bool) (modifiedBy : ObjectId) (now : Z) :
  (forall studentId n newStatus,
      updateStudentSession (set_isFinalized this b) studentId n newStatus modifiedBy now
      = match updateStudentSession this studentId n newStatus modifiedBy now with
        | Ok r => Ok (set_isFinalized r b)
        | Err e => Err e
        end)
  /\ (forall studentId sessionsData,
         updateStudentAllSessions (set_isFinalized this b) studentId sessionsData
           modifiedBy now
         = match updateStudentAllSessions this studentId sessionsData modifiedBy now with
           | Ok r => Ok (set_isFinalized r b)
           | Err e => Err e
           end)
  /\ (forall newAttendanceData,
         updateAttendance (set_isFinalized this b) newAttendanceData modifiedBy now
         = match updateAttendance this newAttendanceData modifiedBy now with
           | Ok r => Ok (set_isFinalized r b)
           | Err e => Err e
           end)
  /\ recalculateAllTotals (set_isFinalized this b)
     = set_isFinalized (recalculateAllTotals this) b.
Proof.
  split; [|split; [|split]].
  - intros studentId n newStatus. unfold updateStudentSession.
    change (attendance (set_isFinalized this b)) with (attendance this).
    destruct (negb _); [reflexivity|].
    destruct (find _ (attendance this)) as [sa|]; [|reflexivity].
    destruct (find _ (sa_sessions sa)); [|reflexivity].
    rewrite calculateStudentTotals_replaced_set_isFinalized.
    destruct (calculateStudentTotals _ studentId); reflexivity.
  - intros. apply updateStudentAllSessions_set_isFinalized.
  - intros. apply updateAttendance_set_isFinalized.
  - reflexivity.
Qed.

(** ** Edits that fail, edits that go through *)

(** X17.  An edit is all or nothing.  Whatever error [editAttendanceRecord]
    answers, the store is what it was.  In particular, when the owner's
    patch (for the record found for the id of the call, as the filter casts
    it) carries attendance updates and the model rejects one of them, the
    answer is that error with status 400 and the updates of the students
    before it, already applied to the document in memory, are not saved. *)
Theorem editAttendanceRecord_all_or_nothing
  (clock : Clock) (userId : ObjectId) (rid : string) (patch : EditPatch) (db : Database) :
  (forall e db',
      editAttendanceRecord clock userId rid patch db = (Err e, db') -> db' = db)
  /\ (forall teacher r0 a e,
         find_teacher userId db = Some teacher ->
         find_record (cast_recordId rid) db = Some r0 ->
         rec_teacherId r0 = t_id teacher ->
         isFinalized r0 = false ->
         (truthy (p_startTime patch) = true -> timeRegex_test (p_startTime patch) = true) ->
         (truthy (p_endTime patch) = true -> timeRegex_test (p_endTime patch) = true) ->
         p_attendance patch = Some a ->
         updateAttendance r0 a userId (now clock) = Err e ->
         editAttendanceRecord clock userId rid patch db = (Err (UpdateFailed e), db)
         /\ edit_status (UpdateFailed e) = HTTP_STATUS.BAD_REQUEST).
Proof.
  split.
  - intros e db' H. now apply editAttendanceRecord_err_preserves in H.
  - unfold find_teacher, find_record. intros teacher r0 a e Ht Hr Hown Hfin Hs He Ha Hup.
    split; [|reflexivity].
    unfold editAttendanceRecord. cbv zeta.
    unfold bindM at 1. unfold Teacher_findOne at 1. rewrite Ht.
    unfold bindM at 1. unfold AttendanceRecord_findOne at 1. rewrite Hr.
    rewrite bind_reject_false by (rewrite Hown, String.eqb_refl; reflexivity).
    rewrite bind_reject_false by assumption.
    rewrite bind_reject_false
      by (destruct (truthy (p_startTime patch)); [rewrite Hs; reflexivity | reflexivity]).
    rewrite bind_reject_false
      by (destruct (truthy (p_endTime patch)); [rewrite He; reflexivity | reflexivity]).
    unfold bindM at 1. rewrite Ha, Hup. reflexivity.
Qed.

Lemma editAttendanceRecord_all_or_nothing_witness :
  updateStudentAllSessions (stored_record db_marked) "s1" [mkSession 2 "present"] "u1"
    (now sample_clock)
  = Ok (updateWithAudit
          (with_sessions (stored_record db_marked) "s1"
             [mkSession 1 "present"; mkSession 2 "present"]) "u1" (now sample_clock))
  /\ editAttendanceRecord sample_clock "u1" sample_recordId
       (mkPatch (Some [mkInput "s1" [mkSession 2 "present"];
                       mkInput "nobody" [mkSession 1 "absent"]]) "" "" false)
       db_marked
     = (Err (UpdateFailed (StudentNotInRecord "nobody")), db_marked).
Proof.
  split; [vm_compute; reflexivity|].
  refine (proj1 (proj2 (editAttendanceRecord_all_or_nothing sample_clock "u1"
                          sample_recordId
                          (mkPatch (Some [mkInput "s1" [mkSession 2 "present"];
                                          mkInput "nobody" [mkSession 1 "absent"]])
                             "" "" false)
                          db_marked)
                   teacher1 (stored_record db_marked) _ _ _ _ _ _ _ _ eq_refl _)).
  - vm_compute. reflexivity.
  - vm_compute. reflexivity.
  - vm_compute. reflexivity.
  - vm_compute. reflexivity.
  - intros H. vm_compute in H. discriminate H.
  - intros H. vm_compute in H. discriminate H.
  - vm_compute. reflexivity.
Defined.

Lemma find_update_first_const {A} (p : A -> bool) (d : A) (l : list A) :
  p d = true ->
  find p (update_first p (fun _ => d) l) = option_map (fun _ => d) (find p l).
Proof.
  intros Hd. induction l as [|x l IH]; [reflexivity|]. cbn [update_first find].
  destruct (p x) eqn:Hp; cbn [find].
  - now rewrite Hd.
  - now rewrite Hp.
Qed.

Lemma apply_session_updates_succeeds (sessionsData : list Session) :
  Forall update_ok sessionsData ->
  forall sessions, exists sessions', apply_session_updates sessionsData sessions = Ok sessions'.
Proof.
  induction 1 as [|u rest [Hn Hst] _ IH]; intros sessions; cbn [apply_session_updates].
  - eauto.
  - replace (sessionNumber u =? 0) with false by (symmetry; now apply Z.eqb_neq).
    assert (Hne : String.eqb (status u) "" = false).
    { destruct Hst as [-> | ->]; reflexivity. }
    rewrite Hne. cbn [orb]. rewrite (proj2 (includes_values _) Hst). cbn [negb].
    apply IH.
Qed.

Lemma updateStudentAllSessions_succeeds this studentId sessionsData modifiedBy now :
  record_ok this ->
  contains_student studentId this = true ->
  sessionsData <> [] ->
  Forall update_ok sessionsData ->
  exists r, updateStudentAllSessions this studentId sessionsData modifiedBy now = Ok r.
Proof.
  intros Hok Hc Hne Hall. unfold contains_student in Hc.
  destruct (find_existsb _ _ Hc) as (sa & Hfind).
  unfold updateStudentAllSessions. rewrite Hfind.
  destruct sessionsData as [|u rest] eqn:Ed; [contradiction|]. rewrite <- Ed in *.
  replace (List.length sessionsData =? 0)%nat with false by (rewrite Ed; reflexivity).
  destruct (apply_session_updates_succeeds _ Hall (sa_sessions sa)) as (s' & Hs').
  rewrite Hs'. cbn [bind].
  assert (Hv : Forall (fun s => valid_status (status s)) (sa_sessions sa)).
  { destruct Hok as [_ Hf]. rewrite Forall_forall in Hf.
    apply find_some in Hfind. destruct Hfind as [Hin _]. apply (Hf sa Hin). }
  destruct (apply_session_updates_ok _ _ _ Hs' Hv) as [Hlen Hv'].
  rewrite (replace_and_recalculate_success this studentId sa s' Hok Hfind Hlen Hv').
  cbn [bind]. eauto.
Qed.

Lemma existsb_is_student_shape studentId (l : list StudentAttendance) :
  existsb (is_student studentId) l
  = existsb (fun sh => String.eqb (fst sh) studentId) (map entry_shape l).
Proof.
  induction l as [|x l IH]; [reflexivity|]. cbn [existsb map]. now rewrite IH.
Qed.

Lemma status_edit_of_contains r r' studentId :
  status_edit_of r r' -> contains_student studentId r' = contains_student studentId r.
Proof.
  intros (_ & Hs & _). unfold contains_student, record_shape in *.
  now rewrite !existsb_is_student_shape, Hs.
Qed.

Lemma updateAttendance_succeeds (newAttendanceData : list AttendanceInput) :
  forall this modifiedBy now,
    record_ok this ->
    Forall (student_update_ok this) newAttendanceData ->
    exists r, updateAttendance this newAttendanceData modifiedBy now = Ok r.
Proof.
  induction newAttendanceData as [|u rest IH]; intros this modifiedBy now Hok Hall;
    cbn [updateAttendance]; [eauto|].
  inversion Hall as [|? ? (Hid & Hc & Hne & Hu) Hrest]; subst.
  replace (String.eqb (in_studentId u) "") with false
    by (symmetry; now apply String.eqb_neq).
  destruct (updateStudentAllSessions_succeeds this (in_studentId u) (in_sessions u)
              modifiedBy now Hok Hc Hne Hu) as (this' & Hthis').
  rewrite Hthis'. cbn [bind].
  pose proof (updateStudentAllSessions_status_edit _ _ _ _ _ _ Hthis') as Hse.
  apply IH.
  - eapply updateStudentAllSessions_ok; eassumption.
  - eapply Forall_impl; [|exact Hrest].
    intros a (A1 & A2 & A3 & A4). repeat split; auto.
    now rewrite (status_edit_of_contains _ _ _ Hse).
Qed.

(** X18.  An edit that meets the handler's checks goes through.  For the
    owner of a well-formed, unfinalized record, a patch whose times are
    absent or well formed and whose attendance part (if any) names only
    students of the record, each with a non-empty list of updates with a
    session number and a valid status, is accepted: the record is saved and
    is what its id retrieves afterwards, it is finalized exactly when the
    patch asks for it, and it carries the time of the edit. *)
Theorem editAttendanceRecord_accepts
  (clock : Clock) (userId : ObjectId) (rid : string) (patch : EditPatch)
  (db : Database) (teacher : Teacher) (r0 : AttendanceRecord) :
  record_ok r0 ->
  find_teacher userId db = Some teacher ->
  find_record (cast_recordId rid) db = Some r0 ->
  rec_teacherId r0 = t_id teacher ->
  isFinalized r0 = false ->
  (truthy (p_startTime patch) = true -> timeRegex_test (p_startTime patch) = true) ->
  (truthy (p_endTime patch) = true -> timeRegex_test (p_endTime patch) = true) ->
  (forall a, p_attendance patch = Some a -> Forall (student_update_ok r0) a) ->
  exists r',
    editAttendanceRecord clock userId rid patch db = (Ok r', saved r' db)
    /\ find_record (cast_recordId rid) (saved r' db) = Some r'
    /\ isFinalized r' = p_isFinalized patch
    /\ lastModifiedAt r' = Some (now clock)
    /\ record_ok r'.
Proof.
  intros Hok Ht Hr Hown Hfin Hs He Ha.
  assert (Hr1 : exists r1,
             match p_attendance patch with
             | Some a => updateAttendance r0 a userId (now clock) = Ok r1
             | None => r1 = r0
             end).
  { destruct (p_attendance patch) as [a|]; [|eauto].
    apply updateAttendance_succeeds; auto. }
  destruct Hr1 as (r1 & Hr1).
  assert (Hse : status_edit_of r0 r1 /\ record_ok r1).
  { destruct (p_attendance patch) as [a|].
    - split; [eapply updateAttendance_status_edit; eassumption|].
      eapply updateAttendance_ok; eassumption.
    - subst. split; [apply status_edit_of_refl | assumption]. }
  destruct Hse as [Hse Hok1].
  exists (edited_record clock patch r1).
  split; [eapply editAttendanceRecord_success; eassumption|].
  destruct (edited_record_attendance clock patch r1) as (_ & _ & Eid).
  pose proof (status_edit_of_recordId _ _ Hse) as Eid1.
  pose proof (find_record_id _ _ _ Hr) as Eid0.
  split; [|split; [|split]].
  - unfold find_record, saved, AttendanceRecord_save in *.
    cbn [snd attendanceRecords set_attendanceRecords].
    rewrite Eid, Eid1, Eid0.
    rewrite find_update_first_const; [now rewrite Hr|].
    now rewrite Eid, Eid1, Eid0, String.eqb_refl.
  - destruct Hse as (_ & _ & _ & _ & _ & Ef). rewrite Hfin in Ef.
    unfold edited_record.
    destruct (truthy (p_startTime patch)), (truthy (p_endTime patch)),
      (p_isFinalized patch); cbn; auto.
  - unfold edited_record. reflexivity.
  - now apply edited_record_ok.
Qed.

Lemma editAttendanceRecord_accepts_witness :
  exists r',
    editAttendanceRecord sample_clock "u1" sample_recordId
      (mkPatch (Some [mkInput "s1" [mkSession 2 "present"]]) "" "11:00" true) db_marked
    = (Ok r', saved r' db_marked)
    /\ find_record sample_recordId (saved r' db_marked) = Some r'
    /\ isFinalized r' = true
    /\ lastModifiedAt r' = Some (now sample_clock)
    /\ record_ok r'.
Proof.
  apply (editAttendanceRecord_accepts sample_clock "u1" sample_recordId
           (mkPatch (Some [mkInput "s1" [mkSession 2 "present"]]) "" "11:00" true)
           db_marked teacher1 (stored_record db_marked)).
  - pose proof (reachable_db_ok _ _ _ db_marked_reachable) as Hok.
    unfold db_ok in Hok. rewrite Forall_forall in Hok. apply Hok.
    vm_compute. left. reflexivity.
  - vm_compute. reflexivity.
  - vm_compute. reflexivity.
  - vm_compute. reflexivity.
  - vm_compute. reflexivity.
  - intros H. vm_compute in H. discriminate H.
  - intros _. vm_compute. reflexivity.
  - intros a Ha. injection Ha as <-. constructor; [|constructor].
    split; [discriminate|]. split; [vm_compute; reflexivity|].
    split; [discriminate|]. constructor; [|constructor].
    split; [discriminate | left; reflexivity].
Defined.

(** ** Reading the records: viewAttendanceRecords *)

Lemma viewAttendanceRecords_run parseDate userId q db teacher gte lte :
  find_teacher userId db = Some teacher ->
  view_bound parseDate (q_startDate q) = Some gte ->
  view_bound parseDate (q_endDate q) = Some lte ->
  viewAttendanceRecords parseDate userId q db
  = (Ok (mkViewResponse
           (page_of ((q_page q - 1) * q_limit q) (q_limit q)
              (view_results (t_id teacher) q gte lte db))
           (mkPagination (q_page q)
              (ceil_div (Z.of_nat (List.length (view_results (t_id teacher) q gte lte db)))
                 (q_limit q))
              (Z.of_nat (List.length (view_results (t_id teacher) q gte lte db)))
              (q_limit q)
              (q_page q <? ceil_div
                             (Z.of_nat (List.length
                                          (view_results (t_id teacher) q gte lte db)))
                             (q_limit q))
              (1 <? q_page q))),
     db).
Proof.
  unfold find_teacher, view_bound. intros Ht Hs He.
  unfold viewAttendanceRecords. cbv zeta.
  unfold bindM at 1. unfold Teacher_findOne at 1. rewrite Ht.
  unfold bindM at 1.
  destruct (truthy (q_startDate q)).
  - destruct (parseDate (q_startDate q)) as [d|]; [|discriminate]. inversion Hs; subst.
    unfold ret at 1. unfold bindM at 1.
    destruct (truthy (q_endDate q)).
    + destruct (parseDate (q_endDate q)) as [d'|]; [|discriminate]. inversion He; subst.
      reflexivity.
    + inversion He; subst. reflexivity.
  - inversion Hs; subst. unfold ret at 1. unfold bindM at 1.
    destruct (truthy (q_endDate q)).
    + destruct (parseDate (q_endDate q)) as [d'|]; [|discriminate]. inversion He; subst.
      reflexivity.
    + inversion He; subst. reflexivity.
Qed.

Lemma viewAttendanceRecords_inversion parseDate userId q db resp db' :
  viewAttendanceRecords parseDate userId q db = (Ok resp, db') ->
  exists teacher gte lte,
    find_teacher userId db = Some teacher
    /\ view_bound parseDate (q_startDate q) = Some gte
    /\ view_bound parseDate (q_endDate q) = Some lte.
Proof.
  unfold find_teacher, view_bound, viewAttendanceRecords. cbv zeta. intros H.
  unfold bindM at 1 in H. unfold Teacher_findOne at 1 in H.
  destruct (find _ (teachers db)) as [teacher|]; [|discriminate H].
  exists teacher. unfold bindM at 1 in H.
  destruct (truthy (q_startDate q)).
  - destruct (parseDate (q_startDate q)) as [d|]; [|discriminate H].
    unfold ret at 1 in H. unfold bindM at 1 in H.
    destruct (truthy (q_endDate q)).
    + destruct (parseDate (q_endDate q)) as [d'|]; [|discriminate H].
      exists (Some d), (Some d'). auto.
    + exists (Some d), None. auto.
  - unfold ret at 1 in H. unfold bindM at 1 in H.
    destruct (truthy (q_endDate q)).
    + destruct (parseDate (q_endDate q)) as [d'|]; [|discriminate H].
      exists None, (Some d'). auto.
    + exists None, None. auto.
Qed.

Lemma insert_record_In a l x : In x (insert_record a l) <-> x = a \/ In x l.
Proof.
  induction l as [|b l IH]; cbn [insert_record].
  - cbn. intuition.
  - destruct (view_before a b); cbn [In]; [intuition|]. rewrite IH. cbn. intuition.
Qed.

Lemma sort_records_In l x : In x (sort_records l) <-> In x l.
Proof.
  induction l as [|a l IH]; [reflexivity|]. cbn [sort_records fold_right].
  fold (sort_records l). rewrite insert_record_In, IH. cbn. intuition.
Qed.

Lemma insert_record_length a l : List.length (insert_record a l) = S (List.length l).
Proof.
  induction l as [|b l IH]; [reflexivity|]. cbn [insert_record].
  destruct (view_before a b); cbn [List.length]; [reflexivity | now rewrite IH].
Qed.

Lemma sort_records_length l : List.length (sort_records l) = List.length l.
Proof.
  induction l as [|a l IH]; [reflexivity|]. cbn [sort_records fold_right].
  fold (sort_records l). now rewrite insert_record_length, IH.
Qed.

Lemma view_before_total a b : view_before a b = false -> view_before b a = true.
Proof.
  unfold view_before. intros H. apply orb_false_iff in H. destruct H as [H1 H2].
  apply Z.ltb_ge in H1.
  destruct (rec_date a <? rec_date b) eqn:E; [reflexivity|]. apply Z.ltb_ge in E.
  assert (Eq : rec_date a = rec_date b) by lia.
  rewrite Eq, Z.eqb_refl in H2. cbn [andb] in H2.
  rewrite Eq, Z.eqb_refl. cbn [orb andb].
  destruct (String.leb_total (startTime a) (startTime b)) as [T|T]; congruence.
Qed.

Lemma insert_record_Sorted a l :
  Sorted (fun x y => view_before x y = true) l ->
  Sorted (fun x y => view_before x y = true) (insert_record a l).
Proof.
  induction 1 as [|b l Hl IH Hb]; cbn [insert_record].
  - repeat constructor.
  - destruct (view_before a b) eqn:E.
    + constructor; [now constructor | now constructor].
    + constructor; [assumption|].
      destruct l as [|c l]; cbn [insert_record].
      * constructor. now apply view_before_total.
      * destruct (view_before a c); constructor.
        -- now apply view_before_total.
        -- now inversion Hb.
Qed.

Lemma sort_records_Sorted l : Sorted (fun x y => view_before x y = true) (sort_records l).
Proof.
  induction l as [|a l IH]; [constructor|]. cbn [sort_records fold_right].
  now apply insert_record_Sorted.
Qed.

Lemma Sorted_skipn {A} (R : A -> A -> Prop) (n : nat) (l : list A) :
  Sorted R l -> Sorted R (skipn n l).
Proof.
  revert l. induction n as [|n IH]; intros l H; [exact H|].
  destruct l as [|a l]; [constructor|]. cbn [skipn]. apply IH. now inversion H.
Qed.

Lemma Sorted_firstn {A} (R : A -> A -> Prop) (n : nat) (l : list A) :
  Sorted R l -> Sorted R (firstn n l).
Proof.
  revert l. induction n as [|n IH]; intros l H; [constructor|].
  destruct l as [|a l]; [constructor|]. cbn [firstn].
  inversion H as [|? ? Hl Ha]; subst. constructor; [now apply IH|].
  destruct n; [constructor|]. destruct l as [|b l]; [constructor|].
  cbn [firstn]. constructor. now inversion Ha.
Qed.

Lemma In_firstn_list {A} (n : nat) (l : list A) (x : A) : In x (firstn n l) -> In x l.
Proof.
  intros H. rewrite <- (firstn_skipn n l). apply in_or_app. now left.
Qed.

Lemma In_skipn_list {A} (n : nat) (l : list A) (x : A) : In x (skipn n l) -> In x l.
Proof.
  intros H. rewrite <- (firstn_skipn n l). apply in_or_app. now right.
Qed.

Lemma In_page_of skip limitNum l x : In x (page_of skip limitNum l) -> In x l.
Proof.
  unfold page_of. intros H. apply In_firstn_list in H. revert H. apply In_skipn_list.
Qed.

(** X19.  A teacher sees only their own records.  When
    [viewAttendanceRecords] answers with records, the caller has a teacher
    profile and every record returned is a stored record marked for that
    teacher which meets the section and subject filters given and lies
    within the date bounds; the page is ordered by date, newest first, and
    by start time within a date, holds at most [limit] records, and the
    store is left as it was. *)
Theorem viewAttendanceRecords_own_records
  (parseDate : string -> option Z) (userId : ObjectId) (q : ViewQuery)
  (db db' : Database) (resp : ViewResponse) :
  1 <= q_page q -> 1 <= q_limit q ->
  viewAttendanceRecords parseDate userId q db = (Ok resp, db') ->
  db' = db
  /\ exists teacher gte lte,
       find_teacher userId db = Some teacher
       /\ view_bound parseDate (q_startDate q) = Some gte
       /\ view_bound parseDate (q_endDate q) = Some lte
       /\ Forall (fun r =>
                    In r (attendanceRecords db)
                    /\ rec_teacherId r = t_id teacher
                    /\ (q_classSectionId q <> "" ->
                        rec_classSectionId r = q_classSectionId q)
                    /\ (q_subjectId q <> "" -> rec_subjectId r = q_subjectId q)
                    /\ (forall d, gte = Some d -> d <= rec_date r)
                    /\ (forall d, lte = Some d -> rec_date r <= d))
                 (v_records resp)
       /\ Sorted (fun a b => view_before a b = true) (v_records resp)
       /\ Z.of_nat (List.length (v_records resp)) <= q_limit q.
Proof.
  intros Hp Hl H.
  destruct (viewAttendanceRecords_inversion _ _ _ _ _ _ H)
    as (teacher & gte & lte & Ht & Hs & He).
  rewrite (viewAttendanceRecords_run _ _ _ _ _ _ _ Ht Hs He) in H.
  inversion H; subst. clear H. split; [reflexivity|].
  exists teacher, gte, lte. repeat (split; [assumption|]).
  cbn [v_records]. split; [|split].
  - apply Forall_forall. intros r Hin. apply In_page_of in Hin.
    unfold view_results in Hin. apply (proj1 (sort_records_In _ _)) in Hin.
    apply filter_In in Hin. destruct Hin as [Hin Hm]. split; [exact Hin|].
    unfold view_matches in Hm. rewrite !andb_true_iff in Hm.
    destruct Hm as ((((M1 & M2) & M3) & M4) & M5).
    split; [now apply String.eqb_eq|]. split; [|split; [|split]].
    + intros Hne. unfold truthy in M2.
      replace (String.eqb (q_classSectionId q) "") with false in M2
        by (symmetry; now apply String.eqb_neq).
      now apply String.eqb_eq.
    + intros Hne. unfold truthy in M3.
      replace (String.eqb (q_subjectId q) "") with false in M3
        by (symmetry; now apply String.eqb_neq).
      now apply String.eqb_eq.
    + intros d ->. now apply Z.leb_le.
    + intros d ->. now apply Z.leb_le.
  - unfold page_of. apply Sorted_firstn, Sorted_skipn. unfold view_results.
    apply sort_records_Sorted.
  - unfold page_of. rewrite length_firstn. lia.
Qed.

Lemma viewAttendanceRecords_own_records_witness :
  exists resp,
    viewAttendanceRecords sample_parseDate "u1"
      (mkViewQuery "cs1" "" "07-11-2025" "" 1 20) db_marked
    = (Ok resp, db_marked)
    /\ Forall (fun r => In r (attendanceRecords db_marked) /\ rec_teacherId r = "t1"
                        /\ rec_classSectionId r = "cs1")
              (v_records resp)
    /\ map recordId (v_records resp) = [sample_recordId].
Proof.
  destruct (viewAttendanceRecords sample_parseDate "u1"
              (mkViewQuery "cs1" "" "07-11-2025" "" 1 20) db_marked)
    as [[resp|e] db'] eqn:H; [|vm_compute in H; discriminate H].
  destruct (viewAttendanceRecords_own_records sample_parseDate "u1"
              (mkViewQuery "cs1" "" "07-11-2025" "" 1 20) db_marked db' resp
              ltac:(cbn; lia) ltac:(cbn; lia) H)
    as (Edb & teacher & gte & lte & Ht & _ & _ & HF & _ & _).
  exists resp. subst db'. split; [reflexivity|]. split.
  - vm_compute in Ht. injection Ht as <-.
    eapply Forall_impl; [|exact HF]. cbn beta.
    intros r (A1 & A2 & A3 & _). split; [exact A1|]. split; [exact A2|].
    apply A3. discriminate.
  - vm_compute in H. injection H as <-. reflexivity.
Defined.

(** ** Pages *)

Lemma firstn_plus {A} (a b : nat) (l : list A) :
  firstn (a + b) l = (firstn a l ++ firstn b (skipn a l))%list.
Proof.
  revert l. induction a as [|a IH]; intros l; [reflexivity|].
  destruct l as [|x l]; cbn [Nat.add firstn skipn app].
  - now rewrite firstn_nil.
  - now rewrite IH.
Qed.

Lemma chunks_concat {A} (n : nat) (l : list A) (k : nat) :
  List.concat (map (fun i => firstn n (skipn (i * n) l)) (seq 0 k)) = firstn (k * n) l.
Proof.
  induction k as [|k IH]; [reflexivity|].
  rewrite seq_S, map_app, concat_app, IH. cbn [map List.concat Nat.add].
  rewrite app_nil_r. rewrite <- firstn_plus. f_equal. lia.
Qed.

Lemma ceil_div_bounds (a b : Z) :
  0 <= a -> 1 <= b ->
  a <= ceil_div a b * b /\ (ceil_div a b - 1) * b < a + (if a =? 0 then 1 else 0)
  /\ 0 <= ceil_div a b.
Proof.
  intros Ha Hb. unfold ceil_div.
  pose proof (Z.div_mod (- a) b ltac:(lia)) as E.
  pose proof (Z.mod_pos_bound (- a) b ltac:(lia)) as B.
  destruct (a =? 0) eqn:Ea; [apply Z.eqb_eq in Ea | apply Z.eqb_neq in Ea]; nia.
Qed.

Lemma page_of_chunk (p : nat) (limitNum : Z) (l : list AttendanceRecord) :
  1 <= limitNum ->
  page_of ((Z.of_nat (S p) - 1) * limitNum) limitNum l
  = firstn (Z.to_nat limitNum) (skipn (p * Z.to_nat limitNum) l).
Proof.
  intros Hl. unfold page_of. do 2 f_equal. nia.
Qed.

(** X20.  The pages partition the result.  For a fixed selection and a
    page size of at least one, the store not changing in between and records
    with equal sort keys coming in the same order on every call, asking for
    the pages 1, 2, ..., [totalPages] one after the other returns every
    matching record exactly once, in the sort order; [totalRecords] is the
    number of matching records and [totalPages] the least number of pages
    that hold them; a page has a next page exactly when records remain
    after it; and beyond the last page the answer is empty. *)
Theorem viewAttendanceRecords_pages_partition
  (parseDate : string -> option Z) (userId : ObjectId) (q : ViewQuery) (db : Database)
  (teacher : Teacher) (gte lte : option Z) :
  1 <= q_limit q ->
  find_teacher userId db = Some teacher ->
  view_bound parseDate (q_startDate q) = Some gte ->
  view_bound parseDate (q_endDate q) = Some lte ->
  let results := view_results (t_id teacher) q gte lte db in
  let total := Z.of_nat (List.length results) in
  let pages := ceil_div total (q_limit q) in
  List.concat (map (fun p => records_of
                          (viewAttendanceRecords parseDate userId (with_page q p) db))
              (map Z.of_nat (seq 1 (Z.to_nat pages))))
  = results
  /\ Permutation results
       (filter (view_matches (t_id teacher) q gte lte) (attendanceRecords db))
  /\ total <= pages * q_limit q
  /\ (0 < total -> (pages - 1) * q_limit q < total)
  /\ (forall p resp,
        1 <= p ->
        fst (viewAttendanceRecords parseDate userId (with_page q p) db) = Ok resp ->
        totalRecords (v_pagination resp) = total
        /\ totalPages (v_pagination resp) = pages
        /\ (hasNextPage (v_pagination resp) = true <-> p * q_limit q < total)
        /\ (hasPrevPage (v_pagination resp) = true <-> 1 < p)
        /\ (pages < p -> v_records resp = [])).
Proof.
  intros Hl Ht Hs He results total pages.
  assert (Hrun : forall p,
             viewAttendanceRecords parseDate userId (with_page q p) db
             = (Ok (mkViewResponse
                      (page_of ((p - 1) * q_limit q) (q_limit q) results)
                      (mkPagination p pages total (q_limit q) (p <? pages) (1 <? p))),
                db)).
  { intros p.
    rewrite (viewAttendanceRecords_run parseDate userId (with_page q p) db teacher gte lte
               Ht Hs He).
    reflexivity. }
  destruct (ceil_div_bounds total (q_limit q) ltac:(unfold total; lia) Hl)
    as (B1 & B2 & B3).
  fold pages in B1, B2, B3.
  split; [|split; [|split; [|split]]].
  - rewrite <- seq_shift, !map_map.
    erewrite map_ext.
    2:{ intros i. unfold records_of. rewrite Hrun. cbn [fst v_records].
        rewrite (page_of_chunk i (q_limit q) results Hl). reflexivity. }
    rewrite chunks_concat. apply firstn_all2. unfold total in B1. nia.
  - unfold results, view_results.
    generalize (filter (view_matches (t_id teacher) q gte lte) (attendanceRecords db)).
    intros l. induction l as [|a l IH]; [constructor|].
    cbn [sort_records fold_right]. fold (sort_records l).
    transitivity (a :: sort_records l); [|now constructor].
    clear IH. generalize (sort_records l). intros s.
    induction s as [|b s IH]; cbn [insert_record]; [reflexivity|].
    destruct (view_before a b); [reflexivity|].
    transitivity (b :: a :: s); [now constructor | apply perm_swap].
  - exact B1.
  - intros Hpos. destruct (total =? 0) eqn:E; [apply Z.eqb_eq in E; lia | lia].
  - intros p resp Hp Hresp. rewrite Hrun in Hresp. cbn [fst] in Hresp.
    inversion Hresp; subst resp. cbn [v_pagination v_records totalRecords totalPages
                                       hasNextPage hasPrevPage].
    split; [reflexivity|]. split; [reflexivity|]. split; [|split].
    + rewrite Z.ltb_lt.
      destruct (total =? 0) eqn:E; [apply Z.eqb_eq in E | apply Z.eqb_neq in E]; nia.
    + now rewrite Z.ltb_lt.
    + intros Hbeyond. unfold page_of. rewrite skipn_all2; [apply firstn_nil|].
      unfold total in *. nia.
Qed.

Lemma viewAttendanceRecords_pages_partition_witness :
  List.concat
    (map (fun p => records_of
                     (viewAttendanceRecords sample_parseDate "u1"
                        (with_page pages_of_two p) db_three))
         [1; 2])
  = view_results "t1" pages_of_two None None db_three
  /\ map recordId (view_results "t1" pages_of_two None None db_three) = ["R1"; "R2"; "R3"].
Proof.
  split; [|vm_compute; reflexivity].
  exact (proj1 (viewAttendanceRecords_pages_partition sample_parseDate "u1" pages_of_two
                  db_three teacher1 None None
                  ltac:(cbn; lia) eq_refl eq_refl eq_refl)).
Defined.

(** ** The listings and the routes *)

Lemma getAssignedClasses_run userId db teacher :
  find_teacher userId db = Some teacher ->
  getAssignedClasses userId db
  = (Ok (filter (fun c => String.eqb (cs_teacherId c) (t_id teacher) && cs_isActive c)
           (classSections db),
         Z.of_nat (List.length
                     (filter (fun c => String.eqb (cs_teacherId c) (t_id teacher)
                                       && cs_isActive c)
                        (classSections db)))),
     db).
Proof.
  unfold find_teacher. intros Ht. unfold getAssignedClasses.
  unfold bindM at 1. unfold Teacher_findOne at 1. rewrite Ht. reflexivity.
Qed.

Lemma getClassStudents_run userId classSectionId db teacher cs :
  find_teacher userId db = Some teacher ->
  find (fun c => String.eqb (cs_id c) classSectionId) (classSections db) = Some cs ->
  cs_teacherId cs = t_id teacher ->
  getClassStudents userId classSectionId db
  = (Ok (map ro_studentId (cs_students cs),
         Z.of_nat (List.length (map ro_studentId (cs_students cs)))),
     db).
Proof.
  unfold find_teacher. intros Ht Hc Hown. unfold getClassStudents.
  unfold bindM at 1. unfold Teacher_findOne at 1. rewrite Ht.
  unfold bindM at 1. unfold ClassSection_findById at 1. rewrite Hc.
  rewrite bind_reject_false by (rewrite Hown, String.eqb_refl; reflexivity).
  reflexivity.
Qed.

(** X21.  What a teacher can mark, the listings offer.  Whenever
    [markAttendance] creates a record, [getAssignedClasses] for the same
    caller lists the class section of the request, and [getClassStudents]
    for that section answers with a list that contains every student of the
    new record. *)
Theorem marked_section_and_students_are_listed
  (parseDate : string -> option Z) (formatDate : Z -> string)
  (clock : Clock) (userId : ObjectId) (req : MarkRequest) (db db' : Database)
  (r : AttendanceRecord) :
  markAttendance parseDate formatDate clock userId req db = (Ok r, db') ->
  exists classes students,
    getAssignedClasses userId db = (Ok (classes, Z.of_nat (List.length classes)), db)
    /\ In (req_classSectionId req) (map cs_id classes)
    /\ getClassStudents userId (req_classSectionId req) db
       = (Ok (students, Z.of_nat (List.length students)), db)
    /\ Forall (fun sa => In (sa_studentId sa) students) (attendance r).
Proof.
  intros H. apply markAttendance_inversion in H.
  destruct H as (teacher & cs & d & Ht & Hc & Hact & Hown & _ & _ & _ & _ & _ & HF & _).
  eexists. eexists.
  split; [apply (getAssignedClasses_run userId db teacher Ht)|].
  split; [|split; [apply (getClassStudents_run userId _ db teacher cs Ht Hc Hown)|]].
  - apply in_map_iff. exists cs. pose proof (find_some _ _ Hc) as [Hin Hid].
    apply String.eqb_eq in Hid. split; [exact Hid|].
    apply filter_In. split; [exact Hin|].
    rewrite Hown, String.eqb_refl, Hact. reflexivity.
  - apply Forall_forall. intros sa Hsa.
    destruct (Forall2_In_r _ _ _ _ HF Hsa) as (a & _ & Hv).
    apply validate_student_inversion in Hv.
    destruct Hv as (st & _ & _ & Hin & Hvs).
    apply validate_sessions_inversion in Hvs. destruct Hvs as (_ & _ & _ & _ & ->).
    cbn [sa_studentId]. unfold isInSection in Hin. apply existsb_exists in Hin.
    destruct Hin as (e & He & Eq). apply String.eqb_eq in Eq.
    apply in_map_iff. exists e. auto.
Qed.

Lemma marked_section_and_students_are_listed_witness :
  exists classes students,
    getAssignedClasses "u1" (sample_db [mkRosterEntry "s1" "active"])
    = (Ok (classes, Z.of_nat (List.length classes)),
       sample_db [mkRosterEntry "s1" "active"])
    /\ In "cs1" (map cs_id classes)
    /\ getClassStudents "u1" "cs1" (sample_db [mkRosterEntry "s1" "active"])
       = (Ok (students, Z.of_nat (List.length students)),
          sample_db [mkRosterEntry "s1" "active"])
    /\ Forall (fun sa => In (sa_studentId sa) students)
              (attendance (stored_record db_marked)).
Proof.
  apply (marked_section_and_students_are_listed sample_parseDate sample_formatDate
           sample_clock "u1" sample_request (sample_db [mkRosterEntry "s1" "active"])
           db_marked (stored_record db_marked)).
  vm_compute. reflexivity.
Defined.

Lemma route_gate_rejects {E A} (gate : option User -> Result Z User)
  (handler : ObjectId -> M E A) user status db :
  gate user = Err status -> route gate handler user db = (Err (Gate status), db).
Proof. unfold route. now intros ->. Qed.

Lemma route_gate_passes {E A} (gate : option User -> Result Z User)
  (handler : ObjectId -> M E A) user u e db :
  gate user = Ok u -> handler (u_userId u) db = (Err e, db) ->
  route gate handler user db = (Err (Handler e), db).
Proof. unfold route. now intros -> ->. Qed.

Lemma markAttendance_no_profile parseDate formatDate clock userId req db :
  find_teacher userId db = None ->
  exists e,
    markAttendance parseDate formatDate clock userId req db = (Err e, db)
    /\ (e = TeacherProfileNotFound \/ mark_status e = HTTP_STATUS.BAD_REQUEST).
Proof.
  unfold find_teacher. intros Hnone. unfold markAttendance. cbv zeta.
  repeat match goal with
         | |- context [bindM (reject_if ?c ?e) _ db] =>
             destruct c eqn:?;
             [ rewrite bind_reject_true by reflexivity; exists e; split;
               [reflexivity | right; reflexivity]
             | rewrite bind_reject_false by reflexivity ]
         end.
  unfold bindM at 1. unfold Teacher_findOne at 1. rewrite Hnone.
  exists TeacherProfileNotFound. split; [reflexivity | now left].
Qed.

(** X22.  The teacher routes need a role and a profile.  Without a user the
    five routes answer 401 and with a role other than teacher or admin 403,
    the handler not being run and the store staying as it is.  A teacher or
    an admin whose user id has no teacher profile passes the gate, but the
    four routes that read or edit answer 404 and POST /attendance answers an
    error, the 404 unless the body already fails a check with a 400; nothing
    is stored. *)
Theorem teacher_routes_need_role_and_profile
  (parseDate : string -> option Z) (formatDate : Z -> string)
  (user : option User) (db : Database) :
  (user = None -> gate_answers parseDate formatDate HTTP_UNAUTHORIZED user db)
  /\ (forall u, user = Some u ->
        u_role u <> USER_ROLES.TEACHER -> u_role u <> USER_ROLES.ADMIN ->
        gate_answers parseDate formatDate HTTP_STATUS.FORBIDDEN user db)
  /\ (forall u, user = Some u ->
        u_role u = USER_ROLES.TEACHER \/ u_role u = USER_ROLES.ADMIN ->
        find_teacher (u_userId u) db = None ->
        (forall q, get_attendance parseDate q user db
                   = (Err (Handler ViewTeacherProfileNotFound), db))
        /\ (forall clock rid patch,
               patch_attendance clock rid patch user db
               = (Err (Handler EditTeacherProfileNotFound), db))
        /\ get_classes user db = (Err (Handler ClassesTeacherProfileNotFound), db)
        /\ (forall csid, get_class_students csid user db
                         = (Err (Handler ClassesTeacherProfileNotFound), db))
        /\ (forall clock req,
               exists e,
                 post_attendance parseDate formatDate clock req user db
                 = (Err (Handler e), db)
                 /\ (e = TeacherProfileNotFound \/ mark_status e = HTTP_STATUS.BAD_REQUEST))).
Proof.
  split; [|split].
  - intros ->. unfold gate_answers.
    repeat split; intros; apply route_gate_rejects; reflexivity.
  - intros u -> Ht Ha.
    assert (G : teacherOrAdmin (Some u) = Err HTTP_STATUS.FORBIDDEN).
    { unfold teacherOrAdmin, restrictTo, includes. cbn [existsb].
      apply String.eqb_neq in Ht, Ha. rewrite Ht, Ha. reflexivity. }
    unfold gate_answers. repeat split; intros; apply route_gate_rejects; exact G.
  - intros u -> Hrole Hnone.
    assert (G : teacherOrAdmin (Some u) = Ok u).
    { unfold teacherOrAdmin, restrictTo, includes. cbn [existsb].
      destruct Hrole as [-> | ->]; reflexivity. }
    unfold find_teacher in Hnone.
    split; [|split; [|split; [|split]]].
    + intros q. apply (route_gate_passes _ _ _ u _ _ G).
      unfold viewAttendanceRecords. unfold bindM at 1. unfold Teacher_findOne at 1.
      now rewrite Hnone.
    + intros clock rid patch. apply (route_gate_passes _ _ _ u _ _ G).
      unfold editAttendanceRecord. cbv zeta. unfold bindM at 1.
      unfold Teacher_findOne at 1. now rewrite Hnone.
    + apply (route_gate_passes _ _ _ u _ _ G).
      unfold getAssignedClasses. unfold bindM at 1. unfold Teacher_findOne at 1.
      now rewrite Hnone.
    + intros csid. apply (route_gate_passes _ _ _ u _ _ G).
      unfold getClassStudents. unfold bindM at 1. unfold Teacher_findOne at 1.
      now rewrite Hnone.
    + intros clock req.
      destruct (markAttendance_no_profile parseDate formatDate clock (u_userId u) req db
                  Hnone) as (e & He & Hs).
      exists e. split; [|exact Hs]. now apply (route_gate_passes _ _ _ u _ _ G).
Qed.

Lemma teacher_routes_need_role_and_profile_witness :
  find_teacher (u_userId admin_user) db_marked = None
  /\ patch_attendance sample_clock sample_recordId finalize_patch (Some admin_user) db_marked
     = (Err (Handler EditTeacherProfileNotFound), db_marked)
  /\ get_classes (Some admin_user) db_marked
     = (Err (Handler ClassesTeacherProfileNotFound), db_marked)
  /\ gate_answers sample_parseDate sample_formatDate HTTP_STATUS.FORBIDDEN
       (Some (mkUser "u9" USER_ROLES.STUDENT)) db_marked.
Proof.
  assert (N : find_teacher (u_userId admin_user) db_marked = None)
    by (vm_compute; reflexivity).
  pose proof (teacher_routes_need_role_and_profile sample_parseDate sample_formatDate
                (Some admin_user) db_marked) as (_ & _ & A).
  specialize (A admin_user eq_refl (or_intror eq_refl) N).
  destruct A as (_ & A2 & A3 & _).
  pose proof (teacher_routes_need_role_and_profile sample_parseDate sample_formatDate
                (Some (mkUser "u9" USER_ROLES.STUDENT)) db_marked) as (_ & B & _).
  specialize (B _ eq_refl ltac:(discriminate) ltac:(discriminate)).
  split; [exact N|]. split; [apply A2|]. split; [exact A3 | exact B].
Defined.

(** ** The session times a student is shown *)

Lemma find_wall_slots (k : nat) :
  forall (i : Z) (t : Z) (n : Z),
    i <= n < i + Z.of_nat k ->
    find (fun sb => slot_sessionNumber sb =? n) (wall_slots k i t)
    = Some (mkSlot n (timeString (t + SESSION_DURATION * (n - i)))
                     (timeString (t + SESSION_DURATION * (n - i + 1)))).
Proof.
  induction k as [|k IH]; intros i t n Hn; [lia|].
  cbn [wall_slots find slot_sessionNumber].
  destruct (i =? n) eqn:E.
  - apply Z.eqb_eq in E. subst i.
    replace (t + SESSION_DURATION * (n - n)) with t by lia.
    replace (t + SESSION_DURATION * (n - n + 1)) with (t + SESSION_DURATION) by lia.
    reflexivity.
  - apply Z.eqb_neq in E. rewrite IH by lia.
    replace (t + SESSION_DURATION + SESSION_DURATION * (n - (i + 1)))
      with (t + SESSION_DURATION * (n - i)) by lia.
    replace (t + SESSION_DURATION + SESSION_DURATION * (n - (i + 1) + 1))
      with (t + SESSION_DURATION * (n - i + 1)) by lia.
    reflexivity.
Qed.

Lemma find_by_number (n : Z) (l : list SessionSlot) :
  In n (map slot_sessionNumber l) ->
  exists slot,
    find (fun sb => slot_sessionNumber sb =? n) l = Some slot
    /\ In slot l /\ slot_sessionNumber slot = n.
Proof.
  induction l as [|x l IH]; intros H; [destruct H|]. cbn [find].
  destruct (slot_sessionNumber x =? n) eqn:E.
  - exists x. split; [reflexivity|]. split; [now left | now apply Z.eqb_eq].
  - destruct H as [H | H]; [apply Z.eqb_neq in E; contradiction|].
    destruct (IH H) as (slot & F & I & N). exists slot. split; [exact F|].
    split; [now right | exact N].
Qed.

(** Every time the loop prints has a colon in it, also when the date is
    invalid. *)
Lemma In_append_l (c : ascii) (a b : string) :
  In c (list_ascii_of_string a) -> In c (list_ascii_of_string (a ++ b)).
Proof.
  induction a as [|x a IH]; intros H; [destruct H|]. cbn in H |- *.
  destruct H as [H | H]; [now left | right; now apply IH].
Qed.

Lemma In_append_r (c : ascii) (a b : string) :
  In c (list_ascii_of_string b) -> In c (list_ascii_of_string (a ++ b)).
Proof.
  induction a as [|x a IH]; intros H; [exact H|]. cbn. right. now apply IH.
Qed.

Lemma clockString_colon zone d : In ":"%char (list_ascii_of_string (clockString zone d)).
Proof.
  unfold clockString. apply In_append_r. cbn. now left.
Qed.

Lemma breakdown_loop_colon zone (k : nat) :
  forall i d slot,
    In slot (breakdown_loop zone k i d) ->
    In ":"%char (list_ascii_of_string (slot_startTime slot)).
Proof.
  induction k as [|k IH]; intros i d slot H; [destruct H|].
  cbn [breakdown_loop] in H. destruct H as [<- | H].
  - cbn [slot_startTime]. apply clockString_colon.
  - eapply IH; eassumption.
Qed.

(** X23.  A student is never shown 'N/A' for a session time.  For every
    record of a store reachable with clocks that satisfy [P], every session
    of every entry has its slot in the record's breakdown, and the time
    shown is that slot's start and end; a record that contains the student
    is never dropped from the formatted list.  When the clocks are those of
    a server whose offset from UTC never changes, the time shown is the 45
    minutes that start (sessionNumber - 1) * 45 minutes after the record's
    start time, on the 24-hour clock. *)
Theorem session_times_always_resolved
  (P : Clock -> Prop)
  (parseDate : string -> option Z) (formatDate : Z -> string) (db : Database)
  (r : AttendanceRecord) (sa : StudentAttendance) (s : Session) :
  reachable_with P parseDate formatDate db ->
  In r (attendanceRecords db) -> In sa (attendance r) -> In s (sa_sessions sa) ->
  (exists slot,
      In slot (sessionBreakdown r)
      /\ slot_sessionNumber slot = sessionNumber s
      /\ session_time r s = slot_startTime slot ++ "-" ++ slot_endTime slot)
  /\ session_time r s <> "N/A"
  /\ In (mkFormattedSession (sessionNumber s) (session_time r s) (status s))
        (format_sessions r sa)
  /\ List.length (formattedRecords [r] (sa_studentId sa)) = 1%nat
  /\ ((forall clock, P clock -> fixed_offset clock) ->
      exists t0,
        minutes_of (startTime r) = Some t0
        /\ session_time r s
           = timeString (t0 + SESSION_DURATION * (sessionNumber s - 1)) ++ "-"
             ++ timeString (t0 + SESSION_DURATION * sessionNumber s)).
Proof.
  intros Hr Hin Hsa Hs.
  destruct (reachable_with_db_wf _ _ _ _ Hr) as [_ Hf].
  rewrite Forall_forall in Hf.
  destruct (Hf r Hin) as [Hc (Ts & _ & Hn & clock & HP & Hb)].
  unfold sessions_complete in Hc. rewrite Forall_forall in Hc.
  assert (Hk : 1 <= sessionNumber s <= numSessions r).
  { apply In_expectedSessions. eapply Permutation_in; [apply (Hc sa Hsa)|].
    now apply in_map. }
  assert (Hnum : In (sessionNumber s) (map slot_sessionNumber (sessionBreakdown r))).
  { rewrite Hb, generateSessionBreakdown_numbers. now apply In_expectedSessions. }
  destruct (find_by_number _ _ Hnum) as (slot & Hfind & Hslot & Hno).
  assert (Htime : session_time r s = slot_startTime slot ++ "-" ++ slot_endTime slot)
    by (unfold session_time; now rewrite Hfind).
  split; [exists slot; auto|].
  split.
  { rewrite Htime. intros E.
    assert (C : In ":"%char (list_ascii_of_string "N/A")).
    { rewrite <- E. apply In_append_l. rewrite Hb in Hslot.
      unfold generateSessionBreakdown in Hslot.
      eapply breakdown_loop_colon; eassumption. }
    cbn in C. destruct C as [C | [C | [C | []]]]; discriminate C. }
  split; [unfold format_sessions; apply in_map_iff; exists s; auto|].
  split.
  { unfold formattedRecords. cbn [flat_map].
    destruct (find (is_student (sa_studentId sa)) (attendance r)) eqn:E; [reflexivity|].
    exfalso. apply (find_none _ _ E) in Hsa. unfold is_student in Hsa.
    now rewrite String.eqb_refl in Hsa. }
  intros Hfix.
  destruct (timeRegex_minutes _ Ts) as (t0 & Hm & Ht0 & Hstr).
  destruct (fixed_offset_steady clock t0 (t0 + SESSION_DURATION * numSessions r)
              (Hfix clock HP)) as (c & Hst).
  { lia. }
  { unfold SESSION_DURATION, MAX_SESSIONS_PER_CLASS in *. lia. }
  exists t0. split; [exact Hm|].
  unfold session_time. rewrite Hb.
  rewrite (generateSessionBreakdown_steady clock c (startTime r) (endTime r)
             (numSessions r) t0 Hm ltac:(lia) Hst).
  rewrite find_wall_slots by lia. cbn [slot_startTime slot_endTime].
  replace (sessionNumber s - 1 + 1) with (sessionNumber s) by lia. reflexivity.
Qed.

Lemma session_times_always_resolved_witness :
  session_time (stored_record db_retimed) (mkSession 2 "absent") <> "N/A"
  /\ session_time (stored_record db_retimed) (mkSession 2 "absent") = "14:45-15:30".
Proof.
  destruct (session_times_always_resolved (fun clock => clock = sample_clock)
              sample_parseDate sample_formatDate db_retimed
              (stored_record db_retimed) (first_entry (stored_record db_retimed))
              (mkSession 2 "absent") db_retimed_reachable_with)
    as (_ & H2 & _).
  - vm_compute. left. reflexivity.
  - vm_compute. left. reflexivity.
  - vm_compute. right. left. reflexivity.
  - split; [exact H2|]. vm_compute. reflexivity.
Defined.

(** ** The roster of a class section *)

Lemma filter_update_first_count {A} (p q : A -> bool) (f : A -> A) (l : list A) (x : A) :
  find p l = Some x ->
  (List.length (filter q (update_first p f l)) + (if q x then 1 else 0)
   = List.length (filter q l) + (if q (f x) then 1 else 0))%nat.
Proof.
  induction l as [|y l IH]; intros H; [discriminate|]. cbn [find] in H.
  cbn [update_first]. destruct (p y) eqn:Hp.
  - inversion H; subst y. cbn [filter].
    destruct (q x), (q (f x)); cbn [List.length]; lia.
  - specialize (IH H). cbn [filter]. destruct (q y); cbn [List.length]; lia.
Qed.

Lemma member_ids sid (f : SectionStudent -> SectionStudent) students :
  (forall s, ss_studentId (f s) = ss_studentId s) ->
  map ss_studentId (update_first (is_member sid) f students) = map ss_studentId students.
Proof. intros H. now apply map_update_first. Qed.

Lemma member_none_not_In sid students :
  member sid students = None -> ~ In sid (map ss_studentId students).
Proof.
  unfold member. intros H Hin. apply in_map_iff in Hin. destruct Hin as (s & E & Hin).
  apply (find_none _ _ H) in Hin. unfold is_member in Hin.
  rewrite E, String.eqb_refl in Hin. discriminate.
Qed.

Lemma addStudent_sound (students : list SectionStudent) (studentId : ObjectId) (now : Z) :
  roster_ok students ->
  roster_ok (addStudent students studentId now)
  /\ active_member studentId (addStudent students studentId now) = true
  /\ (forall other, other <> studentId ->
        member other (addStudent students studentId now) = member other students)
  /\ getActiveStudentCount (addStudent students studentId now)
     = getActiveStudentCount students
       + (if active_member studentId students then 0 else 1).
Proof.
  intros [Hnd Hw].
  assert (Hother : forall other f,
             other <> studentId ->
             (forall s, ss_studentId (f s) = ss_studentId s) ->
             find (is_member other) (update_first (is_member studentId) f students)
             = find (is_member other) students).
  { intros other f Hne Hf. apply find_update_first_other. intros x Hx.
    unfold is_member in *. apply String.eqb_eq in Hx. rewrite Hf, Hx.
    split; apply String.eqb_neq; congruence. }
  unfold addStudent, active_member, member, getActiveStudentCount.
  destruct (find (is_member studentId) students) as [e|] eqn:Hfind.
  + destruct (String.eqb (ss_status e) "active") eqn:Hact; cbn [negb].
    * assert (Ha : is_active e = true) by exact Hact.
      rewrite Hfind, Ha.
      split; [split; assumption|]. split; [reflexivity|].
      split; [reflexivity | lia].
    * split; [split|].
      -- now rewrite member_ids.
      -- apply Forall_update_first; [assumption|]. intros; reflexivity.
      -- rewrite find_update_first by reflexivity. rewrite Hfind.
         cbn [option_map]. split; [reflexivity|].
         split; [intros other Hne; now apply Hother|].
         pose proof (filter_update_first_count (is_member studentId) is_active
                       (fun s => mkSectionStudent (ss_studentId s) now "active" None)
                       students e Hfind) as Hc.
         assert (Ha : is_active e = false) by exact Hact.
         rewrite Ha in Hc |- *.
         change (is_active (mkSectionStudent (ss_studentId e) now "active" None))
           with true in Hc.
         cbv beta iota in Hc. lia.
  + pose proof (member_none_not_In _ _ Hfind) as Hnot.
    split; [split|].
    * rewrite map_app. cbn [map ss_studentId]. apply NoDup_app; auto.
      -- repeat constructor. intros [].
      -- intros x Hx [<-|[]]. contradiction.
    * apply Forall_app. split; [assumption|]. constructor; [reflexivity | constructor].
    * rewrite find_app_none by exact Hfind. cbn [find]. unfold is_member at 1.
      cbn [ss_studentId]. rewrite String.eqb_refl.
      split; [reflexivity|]. split.
      -- intros other Hne. rewrite find_app_first.
         destruct (find (is_member other) students); [reflexivity|].
         cbn [find]. unfold is_member at 1. cbn [ss_studentId].
         replace (String.eqb studentId other) with false
           by (symmetry; apply String.eqb_neq; congruence).
         reflexivity.
      -- rewrite filter_app, length_app. cbn. lia.
Qed.

(** X24.  Adding and removing keep the roster sound.  On a roster where no
    student has two entries and active entries carry no withdrawal time,
    both methods keep it so.  [addStudent] leaves the student an active
    member, touches no other entry, and raises the active count by one
    unless the student already was active.  [removeStudent] is a soft
    delete: the ids on the roster and the total count stay, the student is
    no longer active, no other entry is touched, and the active count drops
    by one exactly when the student was active. *)
Theorem roster_operations_sound
  (students : list SectionStudent) (studentId : ObjectId) (reason : string) (now : Z) :
  roster_ok students ->
  (roster_ok (addStudent students studentId now)
   /\ active_member studentId (addStudent students studentId now) = true
   /\ (forall other, other <> studentId ->
         member other (addStudent students studentId now) = member other students)
   /\ getActiveStudentCount (addStudent students studentId now)
      = getActiveStudentCount students
        + (if active_member studentId students then 0 else 1))
  /\ (roster_ok (removeStudent students studentId reason now)
      /\ map ss_studentId (removeStudent students studentId reason now)
         = map ss_studentId students
      /\ getTotalStudentCount (removeStudent students studentId reason now)
         = getTotalStudentCount students
      /\ active_member studentId (removeStudent students studentId reason now) = false
      /\ (forall other, other <> studentId ->
            member other (removeStudent students studentId reason now)
            = member other students)
      /\ getActiveStudentCount (removeStudent students studentId reason now)
         = getActiveStudentCount students
           - (if active_member studentId students then 1 else 0)).
Proof.
  intros [Hnd Hw].
  assert (Hother : forall other f,
             other <> studentId ->
             (forall s, ss_studentId (f s) = ss_studentId s) ->
             find (is_member other) (update_first (is_member studentId) f students)
             = find (is_member other) students).
  { intros other f Hne Hf. apply find_update_first_other. intros x Hx.
    unfold is_member in *. apply String.eqb_eq in Hx. rewrite Hf, Hx.
    split; apply String.eqb_neq; congruence. }
  split; [apply addStudent_sound; split; assumption|].
  unfold removeStudent, active_member, member, getActiveStudentCount,
    getTotalStudentCount.
  destruct (find (is_member studentId) students) as [e|] eqn:Hfind.
  + split; [split|].
    * now rewrite member_ids.
    * apply Forall_update_first; [assumption|].
      intros x _ _ _ Habs. exfalso. unfold is_active in Habs. cbn [ss_status] in Habs.
      destruct (String.eqb reason "transferred"); discriminate Habs.
    * split; [now rewrite member_ids|].
      split.
      { f_equal. rewrite <- !(length_map ss_studentId). now rewrite member_ids. }
      rewrite find_update_first by reflexivity. rewrite Hfind. cbn [option_map].
      split.
      { unfold is_active. cbn [ss_status].
        now destruct (String.eqb reason "transferred"). }
      split; [intros other Hne; now apply Hother|].
      pose proof (filter_update_first_count (is_member studentId) is_active
                    (fun s => mkSectionStudent (ss_studentId s) (ss_enrolledAt s)
                                (if String.eqb reason "transferred" then "transferred"
                                 else "withdrawn") (Some now))
                    students e Hfind) as Hc.
      cbv beta in Hc.
      assert (Hf : is_active
                     (mkSectionStudent (ss_studentId e) (ss_enrolledAt e)
                        (if String.eqb reason "transferred" then "transferred"
                         else "withdrawn") (Some now)) = false)
        by (unfold is_active; cbn [ss_status];
            now destruct (String.eqb reason "transferred")).
      rewrite Hf in Hc.
      destruct (is_active e); cbv beta iota in Hc |- *; lia.
  + split; [split; assumption|]. split; [reflexivity|]. split; [reflexivity|].
    rewrite Hfind. split; [reflexivity|]. split; [reflexivity | lia].
Qed.

Lemma roster_operations_sound_witness :
  roster_ok sample_roster
  /\ map (fun s => (ss_studentId s, ss_enrolledAt s, ss_status s, ss_withdrawnAt s))
         (addStudent sample_roster "s2" 300)
     = [("s1", 100, "active", None); ("s2", 300, "active", None)]
  /\ getActiveStudentCount (addStudent sample_roster "s2" 300) = 2
  /\ getActiveStudentCount (removeStudent sample_roster "s1" "transferred" 300)
     = getActiveStudentCount sample_roster - 1
  /\ getTotalStudentCount (removeStudent sample_roster "s1" "transferred" 300) = 2.
Proof.
  assert (R : roster_ok sample_roster).
  { split.
    - cbn. repeat constructor; cbn; intuition discriminate.
    - repeat constructor; cbn; intros H; try reflexivity; discriminate H. }
  destruct (roster_operations_sound sample_roster "s2" "withdrawn" 300 R)
    as ((_ & _ & _ & A4) & _).
  destruct (roster_operations_sound sample_roster "s1" "transferred" 300 R)
    as (_ & (_ & _ & B3 & _ & _ & B6)).
  split; [exact R|]. split; [vm_compute; reflexivity|].
  split; [rewrite A4; vm_compute; reflexivity|].
  split; [exact B6 | rewrite B3; reflexivity].
Defined.

Lemma isInSection_roster_ids cs roster x :
  isInSection (with_roster cs roster) x
  = existsb (fun sid => String.eqb sid x) (map ro_studentId roster).
Proof.
  unfold isInSection, with_roster. cbn [cs_students].
  induction roster as [|e l IH]; [reflexivity|]. cbn [existsb map]. now rewrite IH.
Qed.

Lemma roster_of_ids students :
  map ro_studentId (roster_of students) = map ss_studentId students.
Proof. unfold roster_of. rewrite map_map. reflexivity. Qed.

Lemma removeStudent_ids students studentId reason now :
  map ss_studentId (removeStudent students studentId reason now)
  = map ss_studentId students.
Proof.
  unfold removeStudent. destruct (find _ students); [|reflexivity].
  now apply member_ids.
Qed.

Lemma bind_Student_findById {E B} (id : ObjectId) (k : option Student -> M E B) db :
  bindM (Student_findById id) k db
  = k (find (fun s => String.eqb (st_id s) id) (students db)) db.
Proof. reflexivity. Qed.

(** X25.  Removing a student from a section does not stop attendance from
    being marked for them.  With the section's roster taken from [roster],
    after [removeStudent] the roster check of [markAttendance] gives the same
    answer for every student id, the whole validation of a request entry
    gives the same result, and [getClassStudents] would list the same ids:
    the entry is only marked withdrawn or transferred.  Adding the student
    again reactivates that entry with a new enrolment time and no withdrawal
    time. *)
Theorem removed_student_stays_markable
  (cs : ClassSection) (roster : list SectionStudent) (studentId : ObjectId)
  (reason : string) (now now' : Z) :
  cs_students cs = roster_of roster ->
  let cs' := with_roster cs (roster_of (removeStudent roster studentId reason now)) in
  (forall x, isInSection cs' x = isInSection cs x)
  /\ (forall n a db, validate_student cs' n a db = validate_student cs n a db)
  /\ map ro_studentId (cs_students cs') = map ro_studentId (cs_students cs)
  /\ (forall e, member studentId roster = Some e ->
        member studentId
          (addStudent (removeStudent roster studentId reason now) studentId now')
        = Some (mkSectionStudent (ss_studentId e) now' "active" None)).
Proof.
  intros Hcs cs'.
  assert (Hsame : cs = with_roster cs (roster_of roster)).
  { rewrite <- Hcs. now destruct cs. }
  assert (Hin : forall x, isInSection cs' x = isInSection cs x).
  { intros x. unfold cs'. rewrite Hsame at 2. rewrite !isInSection_roster_ids.
    now rewrite !roster_of_ids, removeStudent_ids. }
  split; [exact Hin|]. split; [|split].
  - intros n a db. unfold validate_student. cbv zeta.
    rewrite !bind_Student_findById.
    destruct (find _ (students db)) as [student|]; [|reflexivity].
    rewrite Hin. reflexivity.
  - unfold cs'. cbn [with_roster cs_students].
    now rewrite Hcs, !roster_of_ids, removeStudent_ids.
  - unfold member. intros e He. unfold removeStudent. rewrite He.
    unfold addStudent. rewrite find_update_first by reflexivity. rewrite He.
    cbn [option_map ss_status ss_studentId].
    assert (Hna : String.eqb (if String.eqb reason "transferred" then "transferred"
                              else "withdrawn") "active" = false)
      by now destruct (String.eqb reason "transferred").
    rewrite Hna. cbn [negb].
    rewrite update_first_compose by reflexivity.
    rewrite find_update_first by reflexivity. rewrite He. reflexivity.
Qed.

Lemma removed_student_stays_markable_witness :
  isInSection
    (with_roster (section1 (roster_of sample_roster))
       (roster_of (removeStudent sample_roster "s1" "withdrawn" 300))) "s1"
  = isInSection (section1 (roster_of sample_roster)) "s1"
  /\ isInSection (section1 (roster_of sample_roster)) "s1" = true
  /\ active_member "s1" (removeStudent sample_roster "s1" "withdrawn" 300) = false.
Proof.
  split; [|split; vm_compute; reflexivity].
  exact (proj1 (removed_student_stays_markable (section1 (roster_of sample_roster))
                  sample_roster "s1" "withdrawn" 300 400 eq_refl) "s1").
Defined.

(** ** Time utilities *)

Lemma one_of_01 c : one_of "01" c = digit_between 0 1 c.
Proof. destruct c as [[] [] [] [] [] [] [] []]; reflexivity. Qed.

Lemma one_of_0123 c : one_of "0123" c = digit_between 0 3 c.
Proof. destruct c as [[] [] [] [] [] [] [] []]; reflexivity. Qed.

Lemma one_of_012345 c : one_of "012345" c = digit_between 0 5 c.
Proof. destruct c as [[] [] [] [] [] [] [] []]; reflexivity. Qed.

Lemma isValidTimeString_timeRegex s : isValidTimeString s = timeRegex_test s.
Proof.
  destruct s as [|h1 [|h2 [|c [|m1 [|m2 [|x s]]]]]]; try reflexivity.
  cbn [isValidTimeString timeRegex_test].
  now rewrite one_of_01, one_of_0123, one_of_012345.
Qed.

Lemma timeString_day_valid :
  forallb (fun k => timeRegex_test (timeString k)) (map Z.of_nat (seq 0 1440)) = true.
Proof. vm_compute. reflexivity. Qed.

Lemma timeRegex_timeString (t : Z) : timeRegex_test (timeString t) = true.
Proof.
  rewrite timeString_mod.
  assert (Hb : 0 <= t mod 1440 < 1440) by (apply Z.mod_pos_bound; lia).
  pose proof timeString_day_valid as A. rewrite forallb_forall in A. apply A.
  apply in_map_iff. exists (Z.to_nat (t mod 1440)). split; [lia|].
  apply in_seq. lia.
Qed.

(** X26.  [isValidTimeString] accepts exactly the 1440 times of the day.
    The utility's pattern and the pattern the teacher controller tests
    start and end times with accept the same strings, and a string is
    accepted exactly when it is the two-digit clock reading of some minute
    of the day, which then reads back as that minute. *)
Theorem isValidTimeString_characterised (s : string) :
  isValidTimeString s = timeRegex_test s
  /\ (isValidTimeString s = true
      <-> exists k, 0 <= k < 1440 /\ s = timeString k /\ minutes_of s = Some k).
Proof.
  split; [apply isValidTimeString_timeRegex|].
  rewrite isValidTimeString_timeRegex. split.
  - intros H. destruct (timeRegex_minutes s H) as (k & Hm & Hk & Hs).
    exists k. auto.
  - intros (k & _ & -> & _). apply timeRegex_timeString.
Qed.

(** What [calculateEndTime] returns on a server whose offset is fixed. *)
Lemma calculateEndTime_fixed clock c s t0 d :
  offset_is clock c ->
  minutes_of s = Some t0 -> 0 <= t0 < 1440 ->
  calculateEndTime clock s d
  = if Z.abs (instant_at clock c (t0 + d)) <=? maxTimeValue
    then Some (timeString (t0 + d)) else None.
Proof.
  intros Hoff Hm Ht0. unfold calculateEndTime, minutes_of in *.
  destruct (parse_hour_minute s) as [[h m]|]; [|discriminate].
  injection Hm as Hm. subst t0.
  rewrite (setHours_steady clock c h m) by (apply offset_is_steady; [exact Hoff|lia|lia]).
  cbn [JSDate.getTime option_map JSDate.of_value].
  replace (Day (LocalTime (zone clock) (now clock)) * msPerDay
           + (h * 60 + m) * msPerMinute - c + d * 60 * 1000)
    with (instant_at clock c (h * 60 + m + d))
    by (unfold instant_at, local_midnight, msPerMinute; lia).
  unfold TimeClip. destruct (Z.abs _ <=? maxTimeValue); [|reflexivity].
  cbn [formatTime]. f_equal. unfold instant_at, local_midnight.
  apply clockString_reading. destruct Hoff as (H1 & _). apply H1.
Qed.

Lemma instant_at_near clock c t :
  offset_is clock c -> - 2 * 1440 <= t <= 4 * 1440 ->
  Z.abs (instant_at clock c t) <= maxTimeValue.
Proof.
  intros (H1 & _ & H3 & H4) Ht.
  unfold instant_at, local_midnight, LocalTime. rewrite H1.
  unfold Day, msPerDay, msPerMinute, maxTimeValue in *.
  Z.to_euclidean_division_equations. lia.
Qed.

Lemma calculateEndTime_near clock c s t0 d :
  offset_is clock c ->
  minutes_of s = Some t0 -> 0 <= t0 < 1440 -> - 2 * 1440 <= t0 + d <= 4 * 1440 ->
  calculateEndTime clock s d = Some (timeString (t0 + d)).
Proof.
  intros Hoff Hm Ht0 Hd. rewrite (calculateEndTime_fixed clock c s t0 d Hoff Hm Ht0).
  pose proof (instant_at_near clock c (t0 + d) Hoff Hd) as H.
  destruct (Z.leb_spec (Z.abs (instant_at clock c (t0 + d))) maxTimeValue); [reflexivity|lia].
Qed.

(** X27.  On a server whose offset from UTC never changes,
    [calculateEndTime] is clock arithmetic on well-formed times.  For a start
    time that matches the pattern, the result is the well-formed time
    [durationMinutes] later on the 24-hour clock (earlier for a negative
    duration), as long as the moment that far from the start time on the day
    of the call is in the range of [Date]; beyond, [formatTime] throws.  A
    duration of 0 or of a whole day gives the start time back; adding [a]
    then [b] minutes, each at most a day, is adding [a + b]; and slot [j] of
    the session breakdown of a class of up to 10 sessions starts and ends
    where [calculateEndTime] puts [45 j] and [45 (j + 1)] minutes after the
    start. *)
Theorem calculateEndTime_clock_arithmetic
  (clock : Clock) (offset : Z) (s : string) (t0 : Z) :
  offset_is clock offset ->
  timeRegex_test s = true ->
  minutes_of s = Some t0 ->
  (forall d,
      Z.abs (instant_at clock offset (t0 + d)) <= maxTimeValue ->
      exists s',
        calculateEndTime clock s d = Some s'
        /\ isValidTimeString s' = true
        /\ minutes_of s' = Some ((t0 + d) mod 1440))
  /\ (forall d,
        maxTimeValue < Z.abs (instant_at clock offset (t0 + d)) ->
        calculateEndTime clock s d = None)
  /\ calculateEndTime clock s 0 = Some s
  /\ calculateEndTime clock s 1440 = Some s
  /\ (forall a b s1,
        Z.abs a <= 1440 -> Z.abs b <= 1440 ->
        calculateEndTime clock s a = Some s1 ->
        calculateEndTime clock s1 b = calculateEndTime clock s (a + b))
  /\ (forall e n j,
        1 <= n <= MAX_SESSIONS_PER_CLASS ->
        (j < Z.to_nat n)%nat ->
        exists slot,
          nth_error (generateSessionBreakdown clock s e n) j = Some slot
          /\ calculateEndTime clock s (SESSION_DURATION * Z.of_nat j)
             = Some (slot_startTime slot)
          /\ calculateEndTime clock s (SESSION_DURATION * (Z.of_nat j + 1))
             = Some (slot_endTime slot)).
Proof.
  intros Hoff H Hm0.
  destruct (timeRegex_minutes s H) as (t0' & Hm & Hk & Hs).
  assert (t0' = t0) by congruence. subst t0'.
  pose proof (calculateEndTime_fixed clock offset s t0) as Hcalc.
  split; [|split; [|split; [|split; [|split]]]].
  - intros d Hd. exists (timeString (t0 + d)).
    rewrite (Hcalc d Hoff Hm Hk).
    destruct (Z.leb_spec (Z.abs (instant_at clock offset (t0 + d))) maxTimeValue); [|lia].
    split; [reflexivity|].
    split; [rewrite isValidTimeString_timeRegex; apply timeRegex_timeString|].
    apply minutes_of_timeString.
  - intros d Hd. rewrite (Hcalc d Hoff Hm Hk).
    destruct (Z.leb_spec (Z.abs (instant_at clock offset (t0 + d))) maxTimeValue);
      [lia|reflexivity].
  - rewrite (calculateEndTime_near clock offset s t0 0 Hoff Hm Hk) by lia.
    now rewrite Z.add_0_r, Hs.
  - rewrite (calculateEndTime_near clock offset s t0 1440 Hoff Hm Hk) by lia.
    rewrite timeString_mod.
    replace ((t0 + 1440) mod 1440) with (t0 mod 1440)
      by (Z.to_euclidean_division_equations; lia).
    now rewrite <- timeString_mod, Hs.
  - intros a b s1 Ha Hb H1.
    rewrite (calculateEndTime_near clock offset s t0 a Hoff Hm Hk) in H1 by lia.
    inversion H1; subst s1.
    assert (Hk1 : 0 <= (t0 + a) mod 1440 < 1440) by (apply Z.mod_pos_bound; lia).
    rewrite (calculateEndTime_near clock offset _ _ b Hoff
               (minutes_of_timeString (t0 + a)) Hk1) by lia.
    rewrite (calculateEndTime_near clock offset s t0 (a + b) Hoff Hm Hk) by lia.
    f_equal. rewrite timeString_mod, (timeString_mod (t0 + (a + b))). f_equal.
    Z.to_euclidean_division_equations; lia.
  - intros e n j Hn Hj.
    assert (Hst : steady clock offset t0 (t0 + SESSION_DURATION * n)).
    { apply offset_is_steady; [exact Hoff|lia|].
      unfold SESSION_DURATION, MAX_SESSIONS_PER_CLASS in *. lia. }
    rewrite (generateSessionBreakdown_steady clock offset s e n t0 Hm ltac:(lia) Hst).
    rewrite wall_slots_nth by exact Hj. eexists. split; [reflexivity|].
    cbn [slot_startTime slot_endTime].
    unfold SESSION_DURATION, MAX_SESSIONS_PER_CLASS in *.
    split; apply (calculateEndTime_near clock offset s t0 _ Hoff Hm Hk); lia.
Qed.

Lemma calculateEndTime_clock_arithmetic_witness :
  offset_is sample_clock 19800000
  /\ minutes_of "23:30" = Some 1410
  /\ calculateEndTime sample_clock "23:30" 45 = Some "00:15"
  /\ calculateEndTime sample_clock "00:15" (-45)
     = calculateEndTime sample_clock "23:30" (45 + -45)
  /\ calculateEndTime sample_clock "23:30" 144000000000 = None.
Proof.
  destruct (calculateEndTime_clock_arithmetic sample_clock 19800000 "23:30" 1410
              sample_clock_offset eq_refl eq_refl)
    as (_ & H2 & _ & _ & H5 & _).
  split; [exact sample_clock_offset|]. split; [reflexivity|].
  split; [vm_compute; reflexivity|].
  split; [apply H5; [vm_compute; discriminate | vm_compute; discriminate
                     | vm_compute; reflexivity]|].
  apply H2. vm_compute. reflexivity.
Defined.

(** ** Enrolment *)

Lemma existsb_subject_ids subjectId (l : list Enrollment) :
  existsb (fun enrollment => String.eqb (en_subjectId enrollment) subjectId) l
  = existsb (fun e => String.eqb e subjectId) (map en_subjectId l).
Proof.
  induction l as [|x l IH]; [reflexivity|]. cbn [existsb map]. now rewrite IH.
Qed.

(** X28.  [enrollInSubject] enrols once.  Afterwards the enrolment check of
    [markAttendance] passes for a section of that subject; enrolling again,
    even for another semester or at another time, changes nothing, so the
    first enrolment's semester and time are kept; subjects that were
    distinct stay distinct; and the enrolments in all other subjects are the
    same as before. *)
Theorem enrollInSubject_enrols_once
  (student : Student) (enrollments : list Enrollment) (cs : ClassSection)
  (semesterNumber now : Z) :
  let subjectId := subj_id (cs_subjectId cs) in
  let enrolled := enrollInSubject enrollments subjectId semesterNumber now in
  isEnrolled (with_enrollments student enrolled) cs = true
  /\ (forall semesterNumber' now',
         enrollInSubject enrolled subjectId semesterNumber' now' = enrolled)
  /\ (NoDup (map en_subjectId enrollments) -> NoDup (map en_subjectId enrolled))
  /\ (forall other, other <> subjectId ->
         filter (fun e => String.eqb (en_subjectId e) other) enrolled
         = filter (fun e => String.eqb (en_subjectId e) other) enrollments)
  /\ (forall e, In e enrollments -> In e enrolled).
Proof.
  intros subjectId enrolled.
  assert (Hafter : existsb (fun e => String.eqb (en_subjectId e) subjectId) enrolled
                   = true).
  { unfold enrolled, enrollInSubject. cbv zeta.
    destruct (existsb _ enrollments) eqn:E; cbn [negb]; [exact E|].
    rewrite existsb_app. cbn [existsb en_subjectId]. rewrite String.eqb_refl.
    now rewrite orb_true_r. }
  split; [|split; [|split; [|split]]].
  - unfold isEnrolled, with_enrollments. cbn [enrolledSubjects].
    now rewrite <- existsb_subject_ids.
  - intros s' n'. unfold enrollInSubject at 1. cbv zeta. now rewrite Hafter.
  - intros Hnd. unfold enrolled, enrollInSubject. cbv zeta.
    destruct (existsb _ enrollments) eqn:E; cbn [negb]; [exact Hnd|].
    rewrite map_app. cbn [map en_subjectId]. apply NoDup_app; auto.
    + repeat constructor. intros [].
    + intros x Hx [<-|[]]. rewrite existsb_subject_ids in E.
      assert (T : existsb (fun e => String.eqb e subjectId) (map en_subjectId enrollments)
                  = true).
      { apply existsb_exists. exists subjectId. split; [assumption|].
        apply String.eqb_refl. }
      congruence.
  - intros other Hne. unfold enrolled, enrollInSubject. cbv zeta.
    destruct (existsb _ enrollments); cbn [negb]; [reflexivity|].
    rewrite filter_app. cbn [filter en_subjectId].
    replace (String.eqb subjectId other) with false
      by (symmetry; apply String.eqb_neq; congruence).
    now rewrite app_nil_r.
  - intros e He. unfold enrolled, enrollInSubject. cbv zeta.
    destruct (existsb _ enrollments); cbn [negb]; [exact He|].
    apply in_or_app. now left.
Qed.

(** ** What a student is shown *)

Lemma formattedRecords_own student_id (records : list AttendanceRecord) :
  Forall (fun r => contains_student student_id r = true) records ->
  formattedRecords records student_id = map (own_sessions student_id) records.
Proof.
  induction 1 as [|r l Hr _ IH]; [reflexivity|].
  unfold formattedRecords in *. cbn [flat_map map]. rewrite IH.
  unfold own_sessions at 2. unfold contains_student in Hr.
  destruct (find_existsb _ _ Hr) as (sa & ->). reflexivity.
Qed.

(** X29.  A student is shown their own attendance in subjects they are
    enrolled in, and nothing else.  When [getAttendanceBySubject] answers
    with data, the caller's student profile is enrolled in the subject, the
    records behind the answer are stored records of that subject that
    contain the student, the summary is computed from exactly these, and
    each formatted record carries the sessions of the student's own entry,
    no record being dropped; the store is not changed.  A student whose
    profile is not enrolled in the subject gets 403, whatever records the
    store holds about them. *)
Theorem student_sees_only_own_attendance
  (parseDate : string -> option Z)
  (Student_findOne : ObjectId -> option Student)
  (Subject_findById : ObjectId -> option Subject)
  (userId subjectId : ObjectId) (startDate endDate : string) (db : Database) :
  (forall view db',
      getAttendanceBySubject parseDate Student_findOne Subject_findById
        userId subjectId startDate endDate db = (Ok view, db') ->
      db' = db
      /\ exists student records,
           Student_findOne userId = Some student
           /\ In subjectId (enrolledSubjects student)
           /\ Subject_findById subjectId = Some (sv_subject view)
           /\ Forall (fun r => In r (attendanceRecords db)
                               /\ rec_subjectId r = subjectId
                               /\ contains_student (st_id student) r = true)
                     records
           /\ sv_summary view = attendanceSummary records (st_id student)
           /\ sv_records view = map (own_sessions (st_id student)) records)
  /\ (forall student,
         Student_findOne userId = Some student ->
         ~ In subjectId (enrolledSubjects student) ->
         getAttendanceBySubject parseDate Student_findOne Subject_findById
           userId subjectId startDate endDate db = (Err SvNotEnrolled, db)
         /\ sv_status SvNotEnrolled = HTTP_STATUS.FORBIDDEN).
Proof.
  split.
  - intros view db' H. unfold getAttendanceBySubject in H. cbv zeta in H.
    destruct (Student_findOne userId) as [student|]; [|discriminate H].
    apply bind_reject_ok in H. destruct H as [Hen H].
    apply negb_false_iff in Hen.
    destruct (Subject_findById subjectId) as [subject|]; [|discriminate H].
    assert (Hres : exists gte lte,
               (Ok view, db')
               = (Ok (mkSubjectView subject
                        (attendanceSummary
                           (sort_records
                              (filter (matches_query subjectId (st_id student) gte lte)
                                 (attendanceRecords db)))
                           (st_id student))
                        (formattedRecords
                           (sort_records
                              (filter (matches_query subjectId (st_id student) gte lte)
                                 (attendanceRecords db)))
                           (st_id student)))
                    : Result SubjectViewError SubjectView,
                  db)).
    { unfold bindM at 1 in H.
      destruct (truthy startDate).
      - destruct (parseDate startDate) as [d|]; [|discriminate H].
        unfold ret at 1 in H. unfold bindM at 1 in H.
        destruct (truthy endDate).
        + destruct (parseDate endDate) as [d'|]; [|discriminate H].
          exists (Some d), (Some d'). now rewrite <- H.
        + exists (Some d), None. now rewrite <- H.
      - unfold ret at 1 in H. unfold bindM at 1 in H.
        destruct (truthy endDate).
        + destruct (parseDate endDate) as [d'|]; [|discriminate H].
          exists None, (Some d'). now rewrite <- H.
        + exists None, None. now rewrite <- H. }
    destruct Hres as (gte & lte & E). inversion E; subst. clear E H.
    split; [reflexivity|].
    exists student.
    exists (sort_records
              (filter (matches_query subjectId (st_id student) gte lte)
                 (attendanceRecords db))).
    assert (HF : Forall (fun r => In r (attendanceRecords db)
                                  /\ rec_subjectId r = subjectId
                                  /\ contains_student (st_id student) r = true)
                   (sort_records
                      (filter (matches_query subjectId (st_id student) gte lte)
                         (attendanceRecords db)))).
    { apply Forall_forall. intros r Hin. apply (proj1 (sort_records_In _ _)) in Hin.
      apply filter_In in Hin. destruct Hin as [Hin Hm]. split; [exact Hin|].
      unfold matches_query in Hm. rewrite !andb_true_iff in Hm.
      destruct Hm as (((M1 & M2) & _) & _).
      split; [now apply String.eqb_eq | exact M2]. }
    split; [reflexivity|]. split.
    { apply existsb_exists in Hen. destruct Hen as (x & Hx & E).
      apply String.eqb_eq in E. now subst. }
    split; [reflexivity|]. split; [exact HF|]. split; [reflexivity|].
    cbn [sv_records]. apply formattedRecords_own.
    eapply Forall_impl; [|exact HF]. cbn beta. tauto.
  - intros student Hst Hnot. split; [|reflexivity].
    unfold getAttendanceBySubject. cbv zeta. rewrite Hst.
    apply bind_reject_true. apply negb_true_iff.
    apply existsb_false_forall. intros x Hx. apply String.eqb_neq.
    intros ->. contradiction.
Qed.

Lemma student_sees_only_own_attendance_witness :
  exists view,
    getAttendanceBySubject sample_parseDate sample_Student_findOne
      sample_Subject_findById "su1" "subj1" "" "" db_marked
    = (Ok view, db_marked)
    /\ sv_records view = map (own_sessions "s1") (attendanceRecords db_marked)
    /\ map snd (sv_records view)
       = [[mkFormattedSession 1 "09:00-09:45" "present";
           mkFormattedSession 2 "09:45-10:30" "absent"]].
Proof.
  destruct (getAttendanceBySubject sample_parseDate sample_Student_findOne
              sample_Subject_findById "su1" "subj1" "" "" db_marked)
    as [[view|e] db'] eqn:H; [|vm_compute in H; discriminate H].
  destruct (proj1 (student_sees_only_own_attendance sample_parseDate
                     sample_Student_findOne sample_Subject_findById
                     "su1" "subj1" "" "" db_marked) view db' H)
    as (Edb & student & records & _ & _ & _ & _ & _ & _).
  subst db'. exists view. split; [reflexivity|].
  vm_compute in H. injection H as <-. split; vm_compute; reflexivity.
Defined.

(** ** Bulk additions to a roster *)

Lemma existsb_find {A} (p : A -> bool) (l : list A) :
  existsb p l = match find p l with Some _ => true | None => false end.
Proof.
  induction l as [|x l IH]; [reflexivity|]. cbn. destruct (p x); [reflexivity | exact IH].
Qed.

Lemma bulk_add_loop_spec (studentIds : list ObjectId) :
  forall (roster : list SectionStudent) (results : BulkResults) (now : Z) (db : Database),
    roster_ok roster ->
    roster_ok (fst (bulk_add_loop studentIds roster results now db))
    /\ added (snd (bulk_add_loop studentIds roster results now db))
       = (added results ++ filter (student_exists db) studentIds)%list
    /\ notFound (snd (bulk_add_loop studentIds roster results now db))
       = (notFound results
          ++ filter (fun x => negb (student_exists db x)) studentIds)%list
    /\ alreadyAdded (snd (bulk_add_loop studentIds roster results now db))
       = alreadyAdded results
    /\ maxCapacityReached (snd (bulk_add_loop studentIds roster results now db))
       = maxCapacityReached results
    /\ (forall x, In x studentIds -> student_exists db x = true ->
          active_member x (fst (bulk_add_loop studentIds roster results now db)) = true)
    /\ (forall x, active_member x roster = true ->
          active_member x (fst (bulk_add_loop studentIds roster results now db)) = true)
    /\ (forall other, ~ In other studentIds \/ student_exists db other = false ->
          member other (fst (bulk_add_loop studentIds roster results now db))
          = member other roster).
Proof.
  induction studentIds as [|studentId rest IH]; intros roster results now db Hok.
  - cbn [bulk_add_loop fst snd filter]. rewrite !app_nil_r.
    split; [exact Hok|]. do 4 (split; [reflexivity|]).
    split; [intros x []|]. split; auto.
  - cbn [bulk_add_loop filter].
    assert (Hex : student_exists db studentId
                  = match find (fun s => String.eqb (st_id s) studentId) (students db) with
                    | Some _ => true
                    | None => false
                    end) by apply existsb_find.
    destruct (find (fun s => String.eqb (st_id s) studentId) (students db))
      as [student|] eqn:Hfind; rewrite Hex; cbn [negb].
    + assert (Eid : st_id student = studentId).
      { apply find_some in Hfind. destruct Hfind as [_ E]. now apply String.eqb_eq. }
      destruct (addStudent_sound roster studentId now Hok) as (A1 & A2 & A3 & _).
      destruct (IH (addStudent roster studentId now)
                  (mkBulkResults (added results ++ [st_id student]) (alreadyAdded results)
                     (notFound results) (maxCapacityReached results))
                  now db A1)
        as (I1 & I2 & I3 & I4 & I5 & I6 & I7 & I8).
      cbn [added notFound alreadyAdded maxCapacityReached] in I2, I3, I4, I5.
      split; [exact I1|]. split; [rewrite I2, Eid, <- app_assoc; reflexivity|].
      split; [exact I3|]. split; [exact I4|]. split; [exact I5|].
      split; [|split].
      * intros x [<- | Hin] Hx; [now apply I7 | now apply I6].
      * intros x Hx. apply I7.
        destruct (String.eqb x studentId) eqn:E.
        -- apply String.eqb_eq in E. now subst.
        -- apply String.eqb_neq in E. unfold active_member in *. now rewrite A3.
      * intros other Hother. rewrite I8.
        -- apply A3. intros ->. destruct Hother as [Hn | Hn].
           ++ apply Hn. now left.
           ++ congruence.
        -- destruct Hother as [Hn | Hn]; [left | now right].
           intros Hin. apply Hn. now right.
    + destruct (IH roster
                  (mkBulkResults (added results) (alreadyAdded results)
                     (notFound results ++ [studentId]) (maxCapacityReached results))
                  now db Hok)
        as (I1 & I2 & I3 & I4 & I5 & I6 & I7 & I8).
      cbn [added notFound alreadyAdded maxCapacityReached] in I2, I3, I4, I5.
      split; [exact I1|]. split; [exact I2|].
      split; [rewrite I3, <- app_assoc; reflexivity|].
      split; [exact I4|]. split; [exact I5|].
      split; [|split].
      * intros x [<- | Hin] Hx; [congruence | now apply I6].
      * exact I7.
      * intros other Hother. apply I8.
        destruct Hother as [Hn | Hn]; [left | now right].
        intros Hin. apply Hn. now right.
Qed.

(** X30.  What a bulk addition reports and does.  On a sound roster,
    [added] lists, in request order, every requested id that
    [Student.findById] finds, whether or not the student already was on the
    roster, and [notFound] the others; [alreadyAdded] stays empty and
    [maxCapacityReached] false.  Afterwards the roster is still sound,
    every student reported as added is an active member, students who were
    active still are, and the entries of students the request did not add
    are unchanged. *)
Theorem bulkAddStudents_report
  (studentIds : list ObjectId) (roster : list SectionStudent) (now : Z) (db : Database) :
  roster_ok roster ->
  let roster' := fst (bulkAddStudents studentIds roster now db) in
  let results := snd (bulkAddStudents studentIds roster now db) in
  added results = filter (student_exists db) studentIds
  /\ notFound results = filter (fun x => negb (student_exists db x)) studentIds
  /\ alreadyAdded results = []
  /\ maxCapacityReached results = false
  /\ roster_ok roster'
  /\ Forall (fun x => active_member x roster' = true) (added results)
  /\ (forall x, active_member x roster = true -> active_member x roster' = true)
  /\ (forall other, ~ In other (added results) -> member other roster' = member other roster).
Proof.
  intros Hok roster' results. unfold roster', results, bulkAddStudents.
  destruct (bulk_add_loop_spec studentIds roster (mkBulkResults [] [] [] false) now db Hok)
    as (I1 & I2 & I3 & I4 & I5 & I6 & I7 & I8).
  cbn [added notFound alreadyAdded maxCapacityReached app] in I2, I3, I4, I5.
  split; [exact I2|]. split; [exact I3|]. split; [exact I4|]. split; [exact I5|].
  split; [exact I1|]. split; [|split; [exact I7|]].
  - rewrite I2. apply Forall_forall. intros x Hx. apply filter_In in Hx.
    destruct Hx as [Hin Hx]. now apply I6.
  - intros other Hnot. apply I8. rewrite I2 in Hnot.
    destruct (student_exists db other) eqn:E; [left | now right].
    intros Hin. apply Hnot. apply filter_In. auto.
Qed.

Lemma bulkAddStudents_report_witness :
  roster_ok sample_roster
  /\ added (snd (bulkAddStudents ["s1"; "ghost"] sample_roster 300
                   (sample_db [mkRosterEntry "s1" "active"])))
     = ["s1"]
  /\ notFound (snd (bulkAddStudents ["s1"; "ghost"] sample_roster 300
                      (sample_db [mkRosterEntry "s1" "active"])))
     = ["ghost"]
  /\ alreadyAdded (snd (bulkAddStudents ["s1"; "ghost"] sample_roster 300
                          (sample_db [mkRosterEntry "s1" "active"])))
     = []
  /\ fst (bulkAddStudents ["s1"; "ghost"] sample_roster 300
            (sample_db [mkRosterEntry "s1" "active"]))
     = sample_roster.
Proof.
  assert (R : roster_ok sample_roster).
  { split.
    - cbn. repeat constructor; cbn; intuition discriminate.
    - repeat constructor; cbn; intros H; try reflexivity; discriminate H. }
  destruct (bulkAddStudents_report ["s1"; "ghost"] sample_roster 300
              (sample_db [mkRosterEntry "s1" "active"]) R)
    as (B1 & B2 & B3 & _).
  split; [exact R|]. split; [exact B1|]. split; [exact B2|]. split; [exact B3|].
  vm_compute. reflexivity.
Defined.
